(** * Verification of github.com/MatthiasKunnen/system

    A shallow embedding of the packages of the repository ([pkg/lock],
    [pkg/inhibit], [pkg/idle], [pkg/secrets]) together with the
    properties stated about them.

    Conventions of the embedding:
    - a Go channel value is its identity ([chan]); the nil channel is [None];
    - a Go [map[chan<- T]struct{}] used as a set is a [gset];
    - a pointer receiver is explicit state passing: every method takes the
      record and returns the record it leaves behind, also when it panics;
    - a Go [error] is [option error], [None] being [nil];
    - the D-Bus daemon and the Wayland compositor are outside the repository:
      the daemon is a function from the traffic seen so far and the request
      to a reply, the compositor a function from the request to a reply,
      and every statement quantifies over them. *)

From Stdlib Require Import ZArith String List Bool Lia.
From stdpp Require Import gmap strings list pretty.

Set Warnings "-register-all,-clear-no-such-hyp".

Local Open Scope string_scope.
Local Open Scope Z_scope.

(** ** Go runtime: panics, errors, integers, channels *)

Module Go.

(** A call either returns or panics with a message. *)
Inductive exec (A : Type) : Type :=
| Returned (a : A)
| Panicked (msg : string).
Arguments Returned {A} a.
Arguments Panicked {A} msg.

Definition bind {A B} (m : exec A) (k : A -> exec B) : exec B :=
  match m with
  | Returned a => k a
  | Panicked msg => Panicked msg
  end.

Definition panics {A} (m : exec A) : bool :=
  match m with Panicked _ => true | Returned _ => false end.

(** [errors.New] / [fmt.Errorf] without [%w], [fmt.Errorf] with [%w],
    and the value built by [errors.Join]. *)
Inductive error : Type :=
| errorString (s : string)
| wrapError (msg : string) (inner : error)
| joinError (errs : list error).

(** [errors.Join]: nil arguments are dropped, all nil gives nil. *)
Definition errors_Join (errs : list (option error)) : option error :=
  match omap id errs with
  | [] => None
  | es => Some (joinError es)
  end.

(** Go's [int] and [int64] are 64 bits wide and wrap around. *)
Definition wrap64 (z : Z) : Z := (z + 2 ^ 63) mod 2 ^ 64 - 2 ^ 63.

(** Conversion [uint32(x)]. *)
Definition to_uint32 (z : Z) : Z := z mod 2 ^ 32.

Definition MaxUint32 : Z := 4294967295.

(** Builtin [len] on a string: its number of bytes. *)
Definition len (s : string) : Z := Z.of_nat (String.length s).

(** Indexing [xs[i]] panics out of range. *)
Definition index {A} (xs : list A) (i : nat) : exec A :=
  match nth_error xs i with
  | Some x => Returned x
  | None =>
      Panicked ("runtime error: index out of range [" +:+ pretty i
                +:+ "] with length " +:+ pretty (length xs))
  end.

(** A channel value is an identity, compared by reference. *)
Definition chan : Type := positive.

(** What [close] has done to a channel variable so far. A variable that
    was never assigned holds the nil channel. *)
Inductive chanState : Type := chanNil | chanOpen | chanClosed.

(** Builtin [close]. *)
Definition close (c : chanState) : exec chanState :=
  match c with
  | chanNil => Panicked "close of nil channel"
  | chanOpen => Returned chanClosed
  | chanClosed => Panicked "close of closed channel"
  end.

(** A receive [<-c] in a [select] is ready when [c] is closed. Nothing
    is ever sent on the channels modelled by [chanState]; a receive from
    the nil channel blocks forever. *)
Definition recvReady (c : chanState) : bool :=
  match c with
  | chanClosed => true
  | chanOpen | chanNil => false
  end.

(** One pass of [for c := range subs { select { case c <- v: default: } }]:
    a single non-blocking send of [sent] is attempted on every channel
    of [targets]. The iteration order of a Go map is unspecified, so
    the targets are a set. *)
Inductive payload : Type := unitValue | boolValue (b : bool).
Record fanout : Type := mkFanout { targets : gset chan; sent : payload }.

(** [strings.Builder], from the Go standard library: the bytes written so
    far. [Grow] only reserves capacity, and panics on a negative count
    ("If n is negative, Grow panics"). *)
Module Builder.
Record t : Type := mk { buf : string }.
Definition zero : t := mk "".
Definition Grow (n : Z) (b : t) : exec t :=
  if n <? 0 then Panicked "strings.Builder.Grow: negative count"
  else Returned b.
Definition WriteString (b : t) (s : string) : t := mk (buf b +:+ s).
Definition String (b : t) : string := buf b.
End Builder.

End Go.

Import Go.

#[global] Instance exec_bind : MBind exec := fun A B k m => Go.bind m k.

(** ** The D-Bus client library, as far as the facilities use it *)

Module dbus.

(** Values decoded from the wire into [interface{}]. [VDict] stands for
    [map[string]dbus.Variant]; each entry holds the variant's value. *)
Inductive Value : Type :=
| VBool (b : bool)
| VString (s : string)
| VUint32 (n : Z)
| VObjectPath (p : string)
| VUnixFD (fd : Z)
| VArray (elems : list Value)
| VDict (entries : list (string * Value)).

(** [dbus.Signal]. *)
Record Signal : Type := mkSignal {
  Sender : string;
  Path : string;
  Name : string;
  Body : list Value
}.

(** The four [WithMatch...] options of a match rule. *)
Record MatchRule : Type := mkRule {
  MatchObjectPath : string;
  MatchInterface : string;
  MatchSender : string;
  MatchMember : string
}.

#[global] Instance MatchRule_eq_dec : EqDecision MatchRule.
Proof. solve_decision. Defined.

(** What a connection sends to the bus. *)
Inductive Request : Type :=
| AddMatchSignal (r : MatchRule)
| RemoveMatchSignal (r : MatchRule)
| Call (dest path method : string) (flags : Z) (args : list Value).

Definition Reply : Type := error + list Value.

Definition Exchange : Type := Request * Reply.

(** The remote end: its reply may depend on everything exchanged so far. *)
Definition Bus : Type := list Exchange -> Request -> Reply.

(** [*dbus.Conn]: the traffic of the connection, oldest first. *)
Record Conn : Type := mkConn { wire : list Exchange }.

Definition send (bus : Bus) (rq : Request) (conn : Conn) : Reply * Conn :=
  let rp := bus (wire conn) rq in
  (rp, mkConn (wire conn ++ [(rq, rp)])).

(** [conn.AddMatchSignal(...)] and [conn.RemoveMatchSignal(...)]. *)
Definition sendMatch (bus : Bus) (rq : Request) (conn : Conn)
  : option error * Conn :=
  match send bus rq conn with
  | (inl e, conn') => (Some e, conn')
  | (inr _, conn') => (None, conn')
  end.

(** [dbus.BusObject] as returned by [conn.Object(dest, path)]. *)
Record BusObject : Type := Object { Destination : string; ObjPath : string }.

(** Lookup in a decoded [map[string]dbus.Variant]. *)
Fixpoint lookup (key : string) (entries : list (string * Value))
  : option Value :=
  match entries with
  | [] => None
  | (k, v) :: rest => if String.eqb k key then Some v else lookup key rest
  end.

(** *** Observations on the traffic (a transport that counts its calls) *)

Definition replyOk (rp : Reply) : bool :=
  match rp with inr _ => true | inl _ => false end.

Definition isAdd (r : MatchRule) (x : Exchange) : bool :=
  match fst x with
  | AddMatchSignal r' => bool_decide (r' = r)
  | _ => false
  end.

Definition isRemove (r : MatchRule) (x : Exchange) : bool :=
  match fst x with
  | RemoveMatchSignal r' => bool_decide (r' = r)
  | _ => false
  end.

(** Number of add-match (remove-match) calls issued for rule [r]. *)
Definition addCalls (r : MatchRule) (w : list Exchange) : nat :=
  length (filter (fun x => isAdd r x = true) w).

Definition removeCalls (r : MatchRule) (w : list Exchange) : nat :=
  length (filter (fun x => isRemove r x = true) w).

(** Number of registrations of rule [r] the bus holds for this
    connection: an accepted add-match adds one, an accepted remove-match
    takes one away. *)
Definition matchStep (r : MatchRule) (acc : nat) (x : Exchange) : nat :=
  if replyOk (snd x) then
    if isAdd r x then S acc
    else if isRemove r x then Nat.pred acc
    else acc
  else acc.

Definition registrations (r : MatchRule) (w : list Exchange) : nat :=
  fold_left (matchStep r) w 0%nat.

(** The subscription for [r] is active. *)
Definition registered (r : MatchRule) (w : list Exchange) : bool :=
  negb (Nat.eqb (registrations r w) 0).

(** *** Three remote ends used in examples *)

(** Accepts every request; a transport double that only counts. *)
Definition acceptAll : Bus := fun _ _ => inr [].

(** Refuses every request. *)
Definition refuseAll : Bus := fun _ _ => inl (errorString "refused").

(** The message bus daemon on match rules: add-match is accepted,
    remove-match of a rule that is not registered is answered with
    [MatchRuleNotFound]. *)
Definition daemon : Bus := fun w rq =>
  match rq with
  | AddMatchSignal _ => inr []
  | RemoveMatchSignal r =>
      if registered r w then inr []
      else inl (errorString "org.freedesktop.DBus.Error.MatchRuleNotFound")
  | Call _ _ _ _ _ => inr []
  end.

End dbus.

(** ** Package inhibit *)

Module inhibit.
Import dbus.

Definition dbusDest : string := "org.freedesktop.login1".
Definition dbusManagerInterface : string := "org.freedesktop.login1.Manager".
Definition dbusPath : string := "/org/freedesktop/login1".

Record Inhibitor : Type := mkInhibitor {
  conn : Conn;
  login1 : BusObject;
  closeSignalHandler : chanState;
  prepareForSleepSubs : gset chan;
  prepareForShutdownSubs : gset chan
}.

Definition What : Type := string.
Definition WhatHandleHibernateKey : What := "handle-hibernate-key".
Definition WhatHandleLidSwitch : What := "handle-lid-switch".
Definition WhatHandlePowerKey : What := "handle-power-key".
Definition WhatHandleSuspendKey : What := "handle-suspend-key".
Definition WhatIdle : What := "idle".
Definition WhatSleep : What := "sleep".

Definition Mode : Type := string.
Definition ModeBlock : Mode := "block".
Definition ModeBlockWeak : Mode := "block-weak".
Definition ModeDelay : Mode := "delay".

(** [joinWhat]: the byte count [n] is computed first and handed to
    [Grow]; only then is [elems[0]] read. *)
Definition joinWhat (elems : list What) : exec string :=
  let sep := ":" in
  let n := 0 in
  let n := wrap64 (n + wrap64 (len sep * wrap64 (Z.of_nat (length elems) - 1))) in
  let n := fold_left (fun n elem => wrap64 (n + len elem)) elems n in
  let b := Builder.zero in
  b ← Builder.Grow n b;
  e0 ← index elems 0;
  let b := Builder.WriteString b e0 in
  let b := fold_left
             (fun b s => Builder.WriteString (Builder.WriteString b sep) s)
             (skipn 1 elems) b in
  Returned (Builder.String b).

(** [os.NewFile(uintptr(fd), name)]. *)
Record File : Type := NewFile { fd : Z; fileName : string }.

(** [Store(&fd)] with [fd] a [dbus.UnixFD]: the reply must hold exactly
    one file descriptor. *)
Definition storeUnixFD (rp : Reply) : error + Z :=
  match rp with
  | inl e => inl e
  | inr [VUnixFD n] => inr n
  | inr _ => inl (errorString "dbus.Store: type mismatch")
  end.

(** [Inhibit]: the arguments of the call are evaluated first, so a panic
    of [joinWhat] happens before anything is sent. *)
Definition Inhibit (bus : Bus) (i : Inhibitor)
    (who why : string) (mode : Mode) (what : list What)
  : exec (option File * option error) * Inhibitor :=
  match joinWhat what with
  | Panicked msg => (Panicked msg, i)
  | Returned w =>
      let rq := Call (Destination (login1 i)) (ObjPath (login1 i))
                     (dbusManagerInterface +:+ ".Inhibit") 0
                     [VString w; VString who; VString why; VString mode] in
      let '(rp, conn') := send bus rq (conn i) in
      let i' := mkInhibitor conn' (login1 i) (closeSignalHandler i)
                  (prepareForSleepSubs i) (prepareForShutdownSubs i) in
      match storeUnixFD rp with
      | inl e =>
          (Returned (None,
             Some (wrapError "failed to create inhibit lock: " e)), i')
      | inr n => (Returned (Some (NewFile n "inhibit"), None), i')
      end
  end.

(** [New]. [systemBus] is the outcome of [dbus.SystemBus()]. The composite
    literal sets four fields; [closeSignalHandler] keeps its zero value. *)
Definition New (systemBus : error + Conn) : option Inhibitor * option error :=
  match systemBus with
  | inl err =>
      (None, Some (wrapError "failed to connect to system bus: " err))
  | inr conn =>
      (Some {| conn := conn;
               login1 := Object dbusDest dbusPath;
               closeSignalHandler := chanNil;
               prepareForSleepSubs := ∅;
               prepareForShutdownSubs := ∅ |},
       None)
  end.

(** The [select] of the goroutine started by [New]: the cases that are
    ready, given whether a signal is waiting on the signal channel. *)
Inductive readerCase : Type := caseClose | caseSignal.

Definition readerReady (i : Inhibitor) (signalPending : bool)
  : list readerCase :=
  (if recvReady (closeSignalHandler i) then [caseClose] else [])
  ++ (if signalPending then [caseSignal] else []).

(** [handleIncomingSignal]. [s.Body[0].(bool)] is the two-result form of
    the type assertion; the index expression itself panics on an empty
    body. *)
Definition handleIncomingSignal (i : Inhibitor) (s : option Signal)
  : exec (option fanout) :=
  match s with
  | None => Returned None
  | Some s =>
      if negb (String.eqb (Path s) (ObjPath (login1 i))) then Returned None
      else if String.eqb (Name s)
                "org.freedesktop.login1.Manager.PrepareForSleep" then
        b0 ← index (Body s) 0;
        match b0 with
        | VBool change =>
            Returned (Some (mkFanout (prepareForSleepSubs i) (boolValue change)))
        | _ => Panicked
            "org.freedesktop.login1.Manager.PrepareForSleep signal, body[0] is not a boolean"
        end
      else if String.eqb (Name s)
                "org.freedesktop.login1.Manager.PrepareForShutdown" then
        b0 ← index (Body s) 0;
        match b0 with
        | VBool change =>
            Returned (Some (mkFanout (prepareForShutdownSubs i) (boolValue change)))
        | _ => Panicked
            "org.freedesktop.login1.Manager.PrepareForShutdown signal, body[0] is not a boolean"
        end
      else Returned None
  end.

Definition sleepRule (i : Inhibitor) : MatchRule :=
  mkRule (ObjPath (login1 i)) dbusManagerInterface dbusDest "PrepareForSleep".

Definition shutdownRule (i : Inhibitor) : MatchRule :=
  mkRule (ObjPath (login1 i)) dbusManagerInterface dbusDest "PrepareForShutdown".

Definition setConn (i : Inhibitor) (conn' : Conn) : Inhibitor :=
  mkInhibitor conn' (login1 i) (closeSignalHandler i)
    (prepareForSleepSubs i) (prepareForShutdownSubs i).

Definition setSleepSubs (i : Inhibitor) (subs : gset chan) : Inhibitor :=
  mkInhibitor (conn i) (login1 i) (closeSignalHandler i)
    subs (prepareForShutdownSubs i).

Definition setShutdownSubs (i : Inhibitor) (subs : gset chan) : Inhibitor :=
  mkInhibitor (conn i) (login1 i) (closeSignalHandler i)
    (prepareForSleepSubs i) subs.

Definition setCloseSignalHandler (i : Inhibitor) (c : chanState) : Inhibitor :=
  mkInhibitor (conn i) (login1 i) c
    (prepareForSleepSubs i) (prepareForShutdownSubs i).

Definition SubscribePrepareForSleep (bus : Bus) (i : Inhibitor) (c : option chan)
  : option error * Inhibitor :=
  match c with
  | None =>
      (Some (errorString "SubscribePrepareForSleep: channel cannot be nil"), i)
  | Some c =>
      if bool_decide (size (prepareForSleepSubs i) = 0%nat) then
        match sendMatch bus (AddMatchSignal (sleepRule i)) (conn i) with
        | (Some err, conn') =>
            (Some (wrapError "failed to register Dbus PrepareForSleep signal: " err),
             setConn i conn')
        | (None, conn') =>
            let i := setConn i conn' in
            (None, setSleepSubs i ({[c]} ∪ prepareForSleepSubs i))
        end
      else (None, setSleepSubs i ({[c]} ∪ prepareForSleepSubs i))
  end.

Definition removePrepareForSleepSignal (bus : Bus) (i : Inhibitor)
  : option error * Inhibitor :=
  match sendMatch bus (RemoveMatchSignal (sleepRule i)) (conn i) with
  | (Some err, conn') =>
      (Some (wrapError "failed to remove Dbus PrepareForSleep signal: " err),
       setConn i conn')
  | (None, conn') => (None, setConn i conn')
  end.

Definition UnsubscribePrepareForSleep (bus : Bus) (i : Inhibitor) (c : option chan)
  : option error * Inhibitor :=
  match c with
  | None => (Some (errorString "RemoveLockSignal: channel cannot be nil"), i)
  | Some c =>
      let i := setSleepSubs i (prepareForSleepSubs i ∖ {[c]}) in
      if bool_decide (size (prepareForSleepSubs i) = 0%nat) then
        match removePrepareForSleepSignal bus i with
        | (Some err, i) => (Some err, i)
        | (None, i) => (None, i)
        end
      else (None, i)
  end.

Definition SubscribePrepareForShutdown (bus : Bus) (i : Inhibitor) (c : option chan)
  : option error * Inhibitor :=
  match c with
  | None =>
      (Some (errorString "SubscribePrepareForShutdown: channel cannot be nil"), i)
  | Some c =>
      if bool_decide (size (prepareForShutdownSubs i) = 0%nat) then
        match sendMatch bus (AddMatchSignal (shutdownRule i)) (conn i) with
        | (Some err, conn') =>
            (Some (wrapError "failed to register Dbus PrepareForShutdown signal: " err),
             setConn i conn')
        | (None, conn') =>
            let i := setConn i conn' in
            (None, setShutdownSubs i ({[c]} ∪ prepareForShutdownSubs i))
        end
      else (None, setShutdownSubs i ({[c]} ∪ prepareForShutdownSubs i))
  end.

Definition removePrepareForShutdownSignal (bus : Bus) (i : Inhibitor)
  : option error * Inhibitor :=
  match sendMatch bus (RemoveMatchSignal (shutdownRule i)) (conn i) with
  | (Some err, conn') =>
      (Some (wrapError "failed to remove Dbus PrepareForShutdown signal: " err),
       setConn i conn')
  | (None, conn') => (None, setConn i conn')
  end.

Definition UnsubscribePrepareForShutdown (bus : Bus) (i : Inhibitor) (c : option chan)
  : option error * Inhibitor :=
  match c with
  | None => (Some (errorString "PrepareForShutdown: channel cannot be nil"), i)
  | Some c =>
      let i := setShutdownSubs i (prepareForShutdownSubs i ∖ {[c]}) in
      if bool_decide (size (prepareForShutdownSubs i) = 0%nat) then
        match removePrepareForShutdownSignal bus i with
        | (Some err, i) => (Some err, i)
        | (None, i) => (None, i)
        end
      else (None, i)
  end.

(** [Close]. The shutdown match is removed after the sleep set is
    cleared and the sleep match after the shutdown set is cleared, as in
    the source; [close] comes last. *)
Definition Close (bus : Bus) (i : Inhibitor) : exec (option error) * Inhibitor :=
  let err := None in
  let i := setSleepSubs i ∅ in
  let '(e1, i) := removePrepareForShutdownSignal bus i in
  let err := errors_Join [err; e1] in
  let i := setShutdownSubs i ∅ in
  let '(e2, i) := removePrepareForSleepSignal bus i in
  let err := errors_Join [err; e2] in
  match close (closeSignalHandler i) with
  | Panicked msg => (Panicked msg, i)
  | Returned ch => (Returned err, setCloseSignalHandler i ch)
  end.

End inhibit.

(** ** Package lock *)

Module lock.
Import dbus.

(** [dbusCon]. Every value of this unexported type is built by
    [NewDbusSessionLock] from [conn.Object(...)], which never returns
    nil, so the field [loginSessionObject] is a [BusObject]; the nil
    test of the constructor is kept there, on an [option]. *)
Record dbusCon : Type := mkDbusCon {
  conn : Conn;
  loginSessionObject : BusObject;
  closeSignalHandler : chanState;
  lockSignals : gset chan;
  lockedHintSignals : gset chan;
  unlockSignals : gset chan;
  lockSignalActive : bool;
  propertiesChangedActive : bool;
  unlockSignalActive : bool
}.

(** [Store(&sessions)] with [sessions] a [[]interface{}]: the reply must
    hold exactly one array. *)
Definition storeSessions (rp : Reply) : error + list Value :=
  match rp with
  | inl e => inl e
  | inr [VArray sessions] => inr sessions
  | inr _ => inl (errorString "dbus.Store: type mismatch")
  end.

(** The [for i, sessionInt := range sessions] loop of the constructor.
    [obj] is [result.loginSessionObject]; [inl] is an early
    [return nil, err]. The rendering of the offending value ([%+v]) is
    left out of the messages. *)
Fixpoint findSession (sessionId : string) (i : nat) (sessions : list Value)
    (obj : option BusObject) : exec (error + option BusObject) :=
  match sessions with
  | [] => Returned (inr obj)
  | sessionInt :: rest =>
      match sessionInt with
      | VArray session =>
          s0 ← index session 0;
          match s0 with
          | VString currentSessionId =>
              if String.eqb currentSessionId sessionId then
                s4 ← index session 4;
                match s4 with
                | VObjectPath sessionPath =>
                    Returned (inr (Some (Object "org.freedesktop.login1" sessionPath)))
                | _ => Returned (inl (errorString
                         ("session " +:+ pretty i +:+ "[4] is not an ObjectPath")))
                end
              else findSession sessionId (S i) rest obj
          | _ => Returned (inl (errorString
                   ("session " +:+ pretty i +:+ "[0] is not a string")))
          end
      | _ => Returned (inl (errorString
               ("session " +:+ pretty i +:+ " is not an array of interface")))
      end
  end.

(** [NewDbusSessionLock]. [connect] is the outcome of
    [dbus.ConnectSystemBus()]. The result is the pair (Lock, error). The
    goroutine started last only waits on the two channels; what it does
    with a signal is [handleIncomingSignal] below. *)
Definition NewDbusSessionLock (bus : Bus) (connect : error + Conn)
    (sessionId : string) : exec (option dbusCon * option error) :=
  if String.eqb sessionId "" then
    Returned (None, Some (errorString "sessionId is empty"))
  else
    match connect with
    | inl err =>
        Returned (None, Some (wrapError "failed to connect to system bus: " err))
    | inr conn =>
        let loginSessionObject :=
          Some (Object "org.freedesktop.login1" "/org/freedesktop/login1") in
        let '(rp, conn) :=
          send bus (Call "org.freedesktop.login1" "/org/freedesktop/login1"
                      "org.freedesktop.login1.Manager.ListSessions" 0 []) conn in
        match storeSessions rp with
        | inl err => Returned (None, Some err)
        | inr sessions =>
            found ← findSession sessionId 0 sessions loginSessionObject;
            match found with
            | inl err => Returned (None, Some err)
            | inr None =>
                Returned (None, Some (errorString "failed to find session object"))
            | inr (Some obj) =>
                Returned
                  (Some {| conn := conn;
                           loginSessionObject := obj;
                           closeSignalHandler := chanOpen;
                           lockSignals := ∅;
                           lockedHintSignals := ∅;
                           unlockSignals := ∅;
                           lockSignalActive := false;
                           propertiesChangedActive := false;
                           unlockSignalActive := false |},
                   None)
            end
        end
    end.

Definition lockRule (dc : dbusCon) : MatchRule :=
  mkRule (ObjPath (loginSessionObject dc)) "org.freedesktop.login1.Session"
    "org.freedesktop.login1" "Lock".

Definition unlockRule (dc : dbusCon) : MatchRule :=
  mkRule (ObjPath (loginSessionObject dc)) "org.freedesktop.login1.Session"
    "org.freedesktop.login1" "Unlock".

Definition propertiesChangedRule (dc : dbusCon) : MatchRule :=
  mkRule (ObjPath (loginSessionObject dc)) "org.freedesktop.DBus.Properties"
    "org.freedesktop.login1" "PropertiesChanged".

Definition setConn (dc : dbusCon) (conn' : Conn) : dbusCon :=
  mkDbusCon conn' (loginSessionObject dc) (closeSignalHandler dc)
    (lockSignals dc) (lockedHintSignals dc) (unlockSignals dc)
    (lockSignalActive dc) (propertiesChangedActive dc) (unlockSignalActive dc).

Definition setCloseSignalHandler (dc : dbusCon) (c : chanState) : dbusCon :=
  mkDbusCon (conn dc) (loginSessionObject dc) c
    (lockSignals dc) (lockedHintSignals dc) (unlockSignals dc)
    (lockSignalActive dc) (propertiesChangedActive dc) (unlockSignalActive dc).

Definition setLockSignals (dc : dbusCon) (subs : gset chan) : dbusCon :=
  mkDbusCon (conn dc) (loginSessionObject dc) (closeSignalHandler dc)
    subs (lockedHintSignals dc) (unlockSignals dc)
    (lockSignalActive dc) (propertiesChangedActive dc) (unlockSignalActive dc).

Definition setLockedHintSignals (dc : dbusCon) (subs : gset chan) : dbusCon :=
  mkDbusCon (conn dc) (loginSessionObject dc) (closeSignalHandler dc)
    (lockSignals dc) subs (unlockSignals dc)
    (lockSignalActive dc) (propertiesChangedActive dc) (unlockSignalActive dc).

Definition setUnlockSignals (dc : dbusCon) (subs : gset chan) : dbusCon :=
  mkDbusCon (conn dc) (loginSessionObject dc) (closeSignalHandler dc)
    (lockSignals dc) (lockedHintSignals dc) subs
    (lockSignalActive dc) (propertiesChangedActive dc) (unlockSignalActive dc).

Definition setLockSignalActive (dc : dbusCon) (b : bool) : dbusCon :=
  mkDbusCon (conn dc) (loginSessionObject dc) (closeSignalHandler dc)
    (lockSignals dc) (lockedHintSignals dc) (unlockSignals dc)
    b (propertiesChangedActive dc) (unlockSignalActive dc).

Definition setPropertiesChangedActive (dc : dbusCon) (b : bool) : dbusCon :=
  mkDbusCon (conn dc) (loginSessionObject dc) (closeSignalHandler dc)
    (lockSignals dc) (lockedHintSignals dc) (unlockSignals dc)
    (lockSignalActive dc) b (unlockSignalActive dc).

Definition setUnlockSignalActive (dc : dbusCon) (b : bool) : dbusCon :=
  mkDbusCon (conn dc) (loginSessionObject dc) (closeSignalHandler dc)
    (lockSignals dc) (lockedHintSignals dc) (unlockSignals dc)
    (lockSignalActive dc) (propertiesChangedActive dc) b.

(** [AddLockSignal]: the channel is stored before the match is
    registered. *)
Definition AddLockSignal (bus : Bus) (dc : dbusCon) (c : option chan)
  : option error * dbusCon :=
  match c with
  | None => (Some (errorString "AddLockSignal: channel cannot be nil"), dc)
  | Some c =>
      let dc := setLockSignals dc ({[c]} ∪ lockSignals dc) in
      if negb (lockSignalActive dc) then
        match sendMatch bus (AddMatchSignal (lockRule dc)) (conn dc) with
        | (Some err, conn') =>
            (Some (wrapError "failed to register Dbus Lock signal: " err),
             setConn dc conn')
        | (None, conn') => (None, setLockSignalActive (setConn dc conn') true)
        end
      else (None, dc)
  end.

Definition removeLockSignal (bus : Bus) (dc : dbusCon) : option error * dbusCon :=
  if negb (lockSignalActive dc) then (None, dc)
  else
    match sendMatch bus (RemoveMatchSignal (lockRule dc)) (conn dc) with
    | (Some err, conn') =>
        (Some (wrapError "failed to remove Dbus Lock signal: " err),
         setConn dc conn')
    | (None, conn') => (None, setLockSignalActive (setConn dc conn') false)
    end.

Definition RemoveLockSignal (bus : Bus) (dc : dbusCon) (c : option chan)
  : option error * dbusCon :=
  match c with
  | None => (Some (errorString "RemoveLockSignal: channel cannot be nil"), dc)
  | Some c =>
      let dc := setLockSignals dc (lockSignals dc ∖ {[c]}) in
      if bool_decide (size (lockSignals dc) = 0%nat) then
        match removeLockSignal bus dc with
        | (Some err, dc) => (Some err, dc)
        | (None, dc) => (None, dc)
        end
      else (None, dc)
  end.

Definition AddUnlockSignal (bus : Bus) (dc : dbusCon) (c : option chan)
  : option error * dbusCon :=
  match c with
  | None => (Some (errorString "AddUnlockSignal: channel cannot be nil"), dc)
  | Some c =>
      let dc := setUnlockSignals dc ({[c]} ∪ unlockSignals dc) in
      if negb (unlockSignalActive dc) then
        match sendMatch bus (AddMatchSignal (unlockRule dc)) (conn dc) with
        | (Some err, conn') =>
            (Some (wrapError "failed to register Dbus Unlock signal: " err),
             setConn dc conn')
        | (None, conn') => (None, setUnlockSignalActive (setConn dc conn') true)
        end
      else (None, dc)
  end.

Definition removeUnlockSignal (bus : Bus) (dc : dbusCon) : option error * dbusCon :=
  if negb (unlockSignalActive dc) then (None, dc)
  else
    match sendMatch bus (RemoveMatchSignal (unlockRule dc)) (conn dc) with
    | (Some err, conn') =>
        (Some (wrapError "failed to remove Dbus Unlock signal: " err),
         setConn dc conn')
    | (None, conn') => (None, setUnlockSignalActive (setConn dc conn') false)
    end.

Definition RemoveUnlockSignal (bus : Bus) (dc : dbusCon) (c : option chan)
  : option error * dbusCon :=
  match c with
  | None => (Some (errorString "RemoveUnlockSignal: channel cannot be nil"), dc)
  | Some c =>
      let dc := setUnlockSignals dc (unlockSignals dc ∖ {[c]}) in
      if bool_decide (size (unlockSignals dc) = 0%nat) then
        match removeUnlockSignal bus dc with
        | (Some err, dc) => (Some err, dc)
        | (None, dc) => (None, dc)
        end
      else (None, dc)
  end.

Definition AddLockedSignal (bus : Bus) (dc : dbusCon) (c : option chan)
  : option error * dbusCon :=
  match c with
  | None => (Some (errorString "AddLockedSignal: channel cannot be nil"), dc)
  | Some c =>
      let dc := setLockedHintSignals dc ({[c]} ∪ lockedHintSignals dc) in
      if negb (propertiesChangedActive dc) then
        match sendMatch bus (AddMatchSignal (propertiesChangedRule dc)) (conn dc) with
        | (Some err, conn') =>
            (Some (wrapError "failed to register Dbus signal for LockedHint: " err),
             setConn dc conn')
        | (None, conn') =>
            (None, setPropertiesChangedActive (setConn dc conn') true)
        end
      else (None, dc)
  end.

Definition removePropertiesChangedSignal (bus : Bus) (dc : dbusCon)
  : option error * dbusCon :=
  if negb (propertiesChangedActive dc) then (None, dc)
  else
    match sendMatch bus (RemoveMatchSignal (propertiesChangedRule dc)) (conn dc) with
    | (Some err, conn') =>
        (Some (wrapError "failed to remove Dbus PropertiesChanged signal: " err),
         setConn dc conn')
    | (None, conn') =>
        (None, setPropertiesChangedActive (setConn dc conn') false)
    end.

Definition RemoveLockedSignal (bus : Bus) (dc : dbusCon) (c : option chan)
  : option error * dbusCon :=
  match c with
  | None => (Some (errorString "RemoveLockedSignal: channel cannot be nil"), dc)
  | Some c =>
      let dc := setLockedHintSignals dc (lockedHintSignals dc ∖ {[c]}) in
      if bool_decide (size (lockedHintSignals dc) = 0%nat) then
        match removePropertiesChangedSignal bus dc with
        | (Some err, dc) => (Some err, dc)
        | (None, dc) => (None, dc)
        end
      else (None, dc)
  end.

Definition Close (bus : Bus) (dc : dbusCon) : exec (option error) * dbusCon :=
  let err := None in
  let dc := setLockSignals dc ∅ in
  let '(e1, dc) := removeLockSignal bus dc in
  let err := errors_Join [err; e1] in
  let dc := setUnlockSignals dc ∅ in
  let '(e2, dc) := removeUnlockSignal bus dc in
  let err := errors_Join [err; e2] in
  let dc := setLockedHintSignals dc ∅ in
  let '(e3, dc) := removePropertiesChangedSignal bus dc in
  let err := errors_Join [err; e3] in
  match close (closeSignalHandler dc) with
  | Panicked msg => (Panicked msg, dc)
  | Returned ch => (Returned err, setCloseSignalHandler dc ch)
  end.

(** [handleIncomingSignal]. [s.Body[1].(map[string]dbus.Variant)] is the
    one-result form of the type assertion and panics by itself. *)
Definition handleIncomingSignal (dc : dbusCon) (s : option Signal)
  : exec (option fanout) :=
  match s with
  | None => Returned None
  | Some s =>
      if negb (String.eqb (Path s) (ObjPath (loginSessionObject dc))) then
        Returned None
      else if String.eqb (Name s) "org.freedesktop.login1.Session.Lock" then
        Returned (Some (mkFanout (lockSignals dc) unitValue))
      else if String.eqb (Name s) "org.freedesktop.login1.Session.Unlock" then
        Returned (Some (mkFanout (unlockSignals dc) unitValue))
      else if String.eqb (Name s)
                "org.freedesktop.DBus.Properties.PropertiesChanged" then
        b1 ← index (Body s) 1;
        match b1 with
        | VDict changedProperties =>
            match lookup "LockedHint" changedProperties with
            | None => Returned None
            | Some (VBool isLocked) =>
                Returned (Some (mkFanout (lockedHintSignals dc) (boolValue isLocked)))
            | Some _ =>
                Panicked "PropertiesChanged signal's LockedHint is not a boolean"
            end
        | _ => Panicked
            "interface conversion: interface {} is not map[string]dbus.Variant"
        end
      else Returned None
  end.

(** [BusObject.GetProperty] of the client library, on the connection of
    the facility: one call of [org.freedesktop.DBus.Properties.Get] with
    the interface and the property name, whose reply must hold exactly
    one variant; the result is the variant's value. *)
Definition GetProperty (bus : Bus) (obj : BusObject) (iface prop : string)
    (conn : Conn) : (error + Value) * Conn :=
  let '(rp, conn') :=
    send bus (Call (Destination obj) (ObjPath obj)
                "org.freedesktop.DBus.Properties.Get" 0
                [VString iface; VString prop]) conn in
  match rp with
  | inl err => (inl err, conn')
  | inr [v] => (inr v, conn')
  | inr _ => (inl (errorString "dbus.Store: length mismatch"), conn')
  end.

Definition SetLocked (bus : Bus) (dc : dbusCon) (locked : bool)
  : option error * dbusCon :=
  let '(rp, conn') :=
    send bus (Call (Destination (loginSessionObject dc))
                (ObjPath (loginSessionObject dc))
                "org.freedesktop.login1.Session.SetLockedHint" 0
                [VBool locked]) (conn dc) in
  match rp with
  | inl err =>
      (Some (wrapError "could not set locked hint: " err), setConn dc conn')
  | inr _ => (None, setConn dc conn')
  end.

Definition GetLocked (bus : Bus) (dc : dbusCon)
  : (bool * option error) * dbusCon :=
  let '(variant, conn') :=
    GetProperty bus (loginSessionObject dc)
      "org.freedesktop.login1.Session" "LockedHint" (conn dc) in
  match variant with
  | inl err =>
      ((false, Some (wrapError "could not get locked hint: " err)),
       setConn dc conn')
  | inr (VBool lockedHint) => ((lockedHint, None), setConn dc conn')
  | inr _ =>
      ((false, Some (errorString "LockedHint property result is not a boolean")),
       setConn dc conn')
  end.

(** The [select] of the goroutine started by [NewDbusSessionLock]: the
    cases that are ready. Neither case leaves the loop. *)
Inductive readerCase : Type := caseClose | caseSignal.

Definition readerReady (dc : dbusCon) (signalPending : bool) : list readerCase :=
  (if recvReady (closeSignalHandler dc) then [caseClose] else [])
  ++ (if signalPending then [caseSignal] else []).

End lock.

(** ** Package idle *)

Module idle.

(** [CreateIdleNotification]. A [time.Duration] is an [int64] count of
    nanoseconds. *)
Record CreateIdleNotification : Type := mkCreate {
  Duration : Z;
  Idle : option chan;
  Resume : option chan
}.

Definition Millisecond : Z := 1000000.
Definition Second : Z := 1000 * Millisecond.

(** [time.Duration.Milliseconds]: [int64(d) / 1e6], Go's division
    truncating toward zero. *)
Definition Milliseconds (d : Z) : Z := Z.quot d 1000000.

(** The [ext_idle_notifier_v1] object of the compositor: what
    [GetIdleNotification(timeout, seat)] answers, a protocol object id
    or an error. *)
Definition Notifier : Type := Z -> error + positive.

(** [waylandIdleController], reduced to what [AddNotification] touches:
    the timeouts requested on [m.notifier] so far, oldest first. The seat
    passed along with each request is always [m.seat]. *)
Record waylandIdleController : Type := mkController {
  getIdleNotificationCalls : list Z
}.

(** [waylandIdleNotification] with the handlers set on its protocol
    object. *)
Record waylandIdleNotification : Type := mkNotification {
  closed : bool;
  notification : positive;
  idledHandler : option chan;
  resumedHandler : option chan
}.

Definition isNil {A} (c : option A) : bool :=
  match c with None => true | Some _ => false end.

Definition AddNotification (notifier : Notifier) (m : waylandIdleController)
    (notificationInput : CreateIdleNotification)
  : (option waylandIdleNotification * option error) * waylandIdleController :=
  if isNil (Idle notificationInput) && isNil (Resume notificationInput) then
    ((None, Some (errorString "either Idle or Resume is required")), m)
  else
    let durationMs := Milliseconds (Duration notificationInput) in
    if durationMs >? MaxUint32 then
      ((None, Some (errorString "duration too large")), m)
    else
      let durationMs := if durationMs <? 0 then 0 else durationMs in
      let m' := mkController
                  (getIdleNotificationCalls m ++ [to_uint32 durationMs]) in
      match notifier (to_uint32 durationMs) with
      | inl err =>
          ((None, Some (wrapError "unable to get idle notification: " err)), m')
      | inr notification =>
          ((Some {| closed := false;
                    notification := notification;
                    idledHandler := Idle notificationInput;
                    resumedHandler := Resume notificationInput |},
            None), m')
      end.

(** What the compositor answers to the teardown requests of a
    controller and to the destruction of a notification. *)
Record Compositor : Type := mkCompositor {
  seatRelease : option error;
  displayDestroy : option error;
  notifierDestroy : option error;
  contextClose : option error;
  notificationDestroy : positive -> option error
}.

(** [idleNotify.IdleNotifierInterfaceName], the name of the protocol
    interface. *)
Definition IdleNotifierInterfaceName : string := "ext_idle_notifier_v1".

(** The requests [Close] makes. *)
Inductive teardown : Type :=
| releaseSeat | destroyDisplay | destroyNotifier | closeContext.

(** The fields of [waylandIdleController] that [Close] reads: the close
    channel and whether [seat], [display] and [notifier] are non-nil. *)
Record controllerHandles : Type := mkHandles {
  closeChan : chanState;
  hasSeat : bool;
  hasDisplay : bool;
  hasNotifier : bool
}.

(** [fmt.Errorf("...: %w", err)] joined onto [totalError] when the step
    failed. *)
Definition joinStep (totalError : option error) (msg : string)
    (err : option error) : option error :=
  match err with
  | Some e => errors_Join [totalError; Some (wrapError msg e)]
  | None => totalError
  end.

(** [waylandIdleController.Close]: the outcome, the handles left behind
    and the requests made, in order. [m.context()] is
    [m.display.Context()] and dereferences [m.display]. *)
Definition waylandIdleController_Close (w : Compositor) (m : controllerHandles)
  : exec (option error) * controllerHandles * list teardown :=
  let totalError := None in
  let '(totalError, done) :=
    if hasSeat m
    then (joinStep totalError "error releasing seat: " (seatRelease w),
          [releaseSeat])
    else (totalError, []) in
  let '(totalError, done) :=
    if hasDisplay m
    then (joinStep totalError "error destroying display: " (displayDestroy w),
          (done ++ [destroyDisplay])%list)
    else (totalError, done) in
  let '(totalError, done) :=
    if hasNotifier m
    then (joinStep totalError
            ("unable to destroy " +:+ IdleNotifierInterfaceName +:+ ": ")
            (notifierDestroy w),
          (done ++ [destroyNotifier])%list)
    else (totalError, done) in
  match close (closeChan m) with
  | Panicked msg => (Panicked msg, m, done)
  | Returned ch =>
      let m := mkHandles ch (hasSeat m) (hasDisplay m) (hasNotifier m) in
      if hasDisplay m then
        (Returned (joinStep totalError "error closing wayland connection: "
                     (contextClose w)),
         m, (done ++ [closeContext])%list)
      else
        (Panicked "runtime error: invalid memory address or nil pointer dereference",
         m, done)
  end.

(** The goroutine started by the [Close] of a notification: it offers the
    destruction of the protocol object to the owner of the connection,
    unless the controller is closed first. *)
Inductive goroutine : Type := offerDestroy (notification : positive).

(** [waylandIdleNotification.Close]. Always returns nil; the third
    component is the goroutine it starts. *)
Definition waylandIdleNotification_Close (n : waylandIdleNotification)
  : option error * waylandIdleNotification * option goroutine :=
  if closed n then (None, n, None)
  else
    (None,
     mkNotification true (notification n) (idledHandler n) (resumedHandler n),
     Some (offerDestroy (notification n))).

(** The function the goroutine hands over, run by the owner. *)
Definition closeFunc (w : Compositor) (g : goroutine) : option error :=
  match g with
  | offerDestroy n =>
      match notificationDestroy w n with
      | Some err =>
          Some (wrapError "failed to close wayland idle notification: " err)
      | None => None
      end
  end.

(** The earlier variant of the notification, which destroys the protocol
    object itself: [closed] and whether [controller] is still set. *)
Record waylandIdleNotification0 : Type := mkNotification0 {
  closed0 : bool;
  hasController0 : bool;
  notification0 : positive
}.

(** Its [Close]: the error, the notification left behind, and whether
    [Destroy] was requested. *)
Definition waylandIdleNotification0_Close (w : Compositor)
    (n : waylandIdleNotification0)
  : option error * waylandIdleNotification0 * bool :=
  if closed0 n then (None, n, false)
  else
    match notificationDestroy w (notification0 n) with
    | None => (None, mkNotification0 true false (notification0 n), true)
    | Some err => (Some err, n, true)
    end.

End idle.

(** ** Package secrets *)

Module secrets.
Import dbus.

Definition dbusDest : string := "org.freedesktop.secrets".
Definition dbusServiceInterface : string := "org.freedesktop.Secret.Service".
Definition dbusPath : string := "/org/freedesktop/secrets".

Record Secrets : Type := mkSecrets {
  conn : Conn;
  obj : BusObject
}.

(** [New]. [sessionBus] is the outcome of [dbus.ConnectSessionBus()]; its
    error is returned as it is. *)
Definition New (sessionBus : error + Conn) : option Secrets * option error :=
  match sessionBus with
  | inl err => (None, Some err)
  | inr conn => (Some (mkSecrets conn (Object dbusDest dbusPath)), None)
  end.

(** The loop of [Lock]: [objs] is made with [len(paths)] zero values and
    filled by index. *)
Definition fillObjs (paths : list string) : list string :=
  fold_left
    (fun objs '(i, path) => <[i := dbusPath +:+ "/" +:+ path]> objs)
    (imap pair paths)
    (replicate (length paths) "").

Definition Lock (bus : Bus) (s : Secrets) (paths : list string)
  : option error * Secrets :=
  let objs := fillObjs paths in
  let '(rp, conn') :=
    send bus (Call (Destination (obj s)) (ObjPath (obj s))
                (dbusServiceInterface +:+ ".Lock") 0
                [VArray (VObjectPath <$> objs)]) (conn s) in
  match rp with
  | inl err =>
      (Some (wrapError "could lock collection: " err), mkSecrets conn' (obj s))
  | inr _ => (None, mkSecrets conn' (obj s))
  end.

End secrets.

(** ** Vocabulary of the properties *)

Module registry.
Import dbus.

(** A subscribe or an unsubscribe of a non-nil channel on one signal
    kind. *)
Inductive subOp : Type := Subscribe (c : chan) | Unsubscribe (c : chan).

Definition isUnsubscribe (op : subOp) : bool :=
  match op with Unsubscribe _ => true | Subscribe _ => false end.

(** The five signal kinds, each with its pair of methods. *)
Definition lockStep (bus : Bus) (dc : lock.dbusCon) (op : subOp) :=
  match op with
  | Subscribe c => lock.AddLockSignal bus dc (Some c)
  | Unsubscribe c => lock.RemoveLockSignal bus dc (Some c)
  end.

Definition unlockStep (bus : Bus) (dc : lock.dbusCon) (op : subOp) :=
  match op with
  | Subscribe c => lock.AddUnlockSignal bus dc (Some c)
  | Unsubscribe c => lock.RemoveUnlockSignal bus dc (Some c)
  end.

Definition lockedStep (bus : Bus) (dc : lock.dbusCon) (op : subOp) :=
  match op with
  | Subscribe c => lock.AddLockedSignal bus dc (Some c)
  | Unsubscribe c => lock.RemoveLockedSignal bus dc (Some c)
  end.

Definition sleepStep (bus : Bus) (i : inhibit.Inhibitor) (op : subOp) :=
  match op with
  | Subscribe c => inhibit.SubscribePrepareForSleep bus i (Some c)
  | Unsubscribe c => inhibit.UnsubscribePrepareForSleep bus i (Some c)
  end.

Definition shutdownStep (bus : Bus) (i : inhibit.Inhibitor) (op : subOp) :=
  match op with
  | Subscribe c => inhibit.SubscribePrepareForShutdown bus i (Some c)
  | Unsubscribe c => inhibit.UnsubscribePrepareForShutdown bus i (Some c)
  end.

(** Runs a sequence of operations, all of which must succeed: the states
    reached after each operation, or [None] as soon as one returns an
    error. *)
Fixpoint runOps {S : Type} (step : S -> subOp -> option error * S)
    (st : S) (ops : list subOp) : option (list S) :=
  match ops with
  | [] => Some []
  | op :: rest =>
      match step st op with
      | (None, st') => cons st' <$> runOps step st' rest
      | (Some _, _) => None
      end
  end.

Definition isEmpty (subs : gset chan) : bool :=
  bool_decide (size subs = 0%nat).

(** One for a step that takes the subscriber count from zero to
    non-zero (resp. from non-zero to zero), else zero. *)
Definition edge01 (before after : gset chan) : nat :=
  if isEmpty before && negb (isEmpty after) then 1 else 0.

Definition edge10 (before after : gset chan) : nat :=
  if negb (isEmpty before) && isEmpty after then 1 else 0.

(** Number of 0-to-1 (resp. 1-to-0) edges of the subscriber count along
    the sets [after], starting from [before]. *)
Fixpoint edges01 (before : gset chan) (after : list (gset chan)) : nat :=
  match after with
  | [] => 0
  | s :: rest => (edge01 before s + edges01 s rest)%nat
  end.

Fixpoint edges10 (before : gset chan) (after : list (gset chan)) : nat :=
  match after with
  | [] => 0
  | s :: rest => (edge10 before s + edges10 s rest)%nat
  end.

(** One for an unsubscribe that finds the set already empty. *)
Definition unsubscribeOnEmpty (before : gset chan) (op : subOp) : nat :=
  if isEmpty before && isUnsubscribe op then 1 else 0.

(** Given the accounting [extra] of one step, its total along a run that
    starts with the set [before] and reaches the sets [after]. *)
Fixpoint along (extra : gset chan -> subOp -> nat) (before : gset chan)
    (ops : list subOp) (after : list (gset chan)) : nat :=
  match ops, after with
  | op :: ops, s :: after => (extra before op + along extra s ops after)%nat
  | _, _ => 0
  end.

(** The state of one signal kind of the lock facility is consistent:
    the activation flag tells whether there are subscribers, and the bus
    holds one registration of the rule when the flag is set and none
    otherwise. *)
Definition flagged (r : MatchRule) (subs : gset chan) (active : bool)
    (w : list Exchange) : Prop :=
  active = negb (isEmpty subs)
  /\ registrations r w = (if active then 1 else 0)%nat.

Definition lockConsistent (r : MatchRule) (dc : lock.dbusCon) : Prop :=
  lock.lockRule dc = r
  /\ flagged r (lock.lockSignals dc) (lock.lockSignalActive dc)
       (wire (lock.conn dc)).

Definition unlockConsistent (r : MatchRule) (dc : lock.dbusCon) : Prop :=
  lock.unlockRule dc = r
  /\ flagged r (lock.unlockSignals dc) (lock.unlockSignalActive dc)
       (wire (lock.conn dc)).

Definition lockedConsistent (r : MatchRule) (dc : lock.dbusCon) : Prop :=
  lock.propertiesChangedRule dc = r
  /\ flagged r (lock.lockedHintSignals dc) (lock.propertiesChangedActive dc)
       (wire (lock.conn dc)).

(** The inhibitor has no flag: the bus holds one registration of the
    rule when there are subscribers and none otherwise. *)
Definition sleepConsistent (r : MatchRule) (i : inhibit.Inhibitor) : Prop :=
  inhibit.sleepRule i = r
  /\ registrations r (wire (inhibit.conn i))
     = (if isEmpty (inhibit.prepareForSleepSubs i) then 0 else 1)%nat.

Definition shutdownConsistent (r : MatchRule) (i : inhibit.Inhibitor) : Prop :=
  inhibit.shutdownRule i = r
  /\ registrations r (wire (inhibit.conn i))
     = (if isEmpty (inhibit.prepareForShutdownSubs i) then 0 else 1)%nat.

(** The payload a handled signal is expected to carry, as the
    interface of the remote objects documents it:
    [PrepareForSleep(bool)], [PrepareForShutdown(bool)] and
    [PropertiesChanged(interface, changed, invalidated)] whose
    [LockedHint] entry, when there is one, is a boolean. *)
Definition carriesBool (body : list Value) : bool :=
  match body with
  | VBool _ :: _ => true
  | _ => false
  end.

Definition carriesLockedHint (body : list Value) : bool :=
  match body with
  | _ :: VDict changed :: _ =>
      match lookup "LockedHint" changed with
      | None | Some (VBool _) => true
      | Some _ => false
      end
  | _ => false
  end.

Definition isPrepareSignal (name : string) : bool :=
  String.eqb name "org.freedesktop.login1.Manager.PrepareForSleep"
  || String.eqb name "org.freedesktop.login1.Manager.PrepareForShutdown".

Definition isPropertiesChanged (name : string) : bool :=
  String.eqb name "org.freedesktop.DBus.Properties.PropertiesChanged".

(** An entry of a [ListSessions] reply that is well formed and belongs
    to a session other than [sessionId]. *)
Definition otherSession (sessionId : string) (v : Value) : bool :=
  match v with
  | VArray [VString id; VUint32 _; VString _; VString _; VObjectPath _] =>
      negb (String.eqb id sessionId)
  | _ => false
  end.

(** The byte count of the joined string, computed without wrap-around. *)
Definition joinedLen (elems : list inhibit.What) : Z :=
  Z.of_nat (length elems) - 1 + fold_right (fun e n => len e + n) 0 elems.

(** Anything a holder of an [Inhibitor] can do with it. *)
Inductive inhibitorCall : Type :=
| callInhibit (who why : string) (mode : inhibit.Mode) (what : list inhibit.What)
| callSubscribePrepareForSleep (c : option chan)
| callUnsubscribePrepareForSleep (c : option chan)
| callSubscribePrepareForShutdown (c : option chan)
| callUnsubscribePrepareForShutdown (c : option chan)
| callClose
| incomingSignal (s : option Signal).

(** The [Inhibitor] left behind by one call, whatever it returned. *)
Definition inhibitorAfter (bus : Bus) (i : inhibit.Inhibitor) (c : inhibitorCall)
  : inhibit.Inhibitor :=
  match c with
  | callInhibit who why mode what => snd (inhibit.Inhibit bus i who why mode what)
  | callSubscribePrepareForSleep c => snd (inhibit.SubscribePrepareForSleep bus i c)
  | callUnsubscribePrepareForSleep c => snd (inhibit.UnsubscribePrepareForSleep bus i c)
  | callSubscribePrepareForShutdown c => snd (inhibit.SubscribePrepareForShutdown bus i c)
  | callUnsubscribePrepareForShutdown c => snd (inhibit.UnsubscribePrepareForShutdown bus i c)
  | callClose => snd (inhibit.Close bus i)
  | incomingSignal _ => i
  end.

(** What [AddNotification] returns once [GetIdleNotification] has been
    asked for [ms] milliseconds. *)
Definition created (notifier : idle.Notifier)
    (input : idle.CreateIdleNotification) (ms : Z)
  : option idle.waylandIdleNotification * option error :=
  match notifier ms with
  | inl err => (None, Some (wrapError "unable to get idle notification: " err))
  | inr n =>
      (Some (idle.mkNotification false n (idle.Idle input) (idle.Resume input)),
       None)
  end.

(** *** Concrete facilities used in examples *)

Definition session1 : Value :=
  VArray [VString "1"; VUint32 1000; VString "user"; VString "seat0";
          VObjectPath "/org/freedesktop/login1/session/_31"].

(** A login manager with the single session "1". [matches] answers the
    match requests. *)
Definition login1With (matches : Bus) : Bus := fun w rq =>
  match rq with
  | Call _ _ _ _ _ => inr [VArray [session1]]
  | _ => matches w rq
  end.

(** The lock facility of session "1" right after construction. *)
Definition freshLock : lock.dbusCon :=
  {| lock.conn := mkConn
       [(Call "org.freedesktop.login1" "/org/freedesktop/login1"
           "org.freedesktop.login1.Manager.ListSessions" 0 [],
         inr [VArray [session1]])];
     lock.loginSessionObject :=
       Object "org.freedesktop.login1" "/org/freedesktop/login1/session/_31";
     lock.closeSignalHandler := chanOpen;
     lock.lockSignals := ∅;
     lock.lockedHintSignals := ∅;
     lock.unlockSignals := ∅;
     lock.lockSignalActive := false;
     lock.propertiesChangedActive := false;
     lock.unlockSignalActive := false |}.

(** The inhibitor right after [New] on a connection without traffic. *)
Definition freshInhibitor : inhibit.Inhibitor :=
  {| inhibit.conn := mkConn [];
     inhibit.login1 := Object inhibit.dbusDest inhibit.dbusPath;
     inhibit.closeSignalHandler := chanNil;
     inhibit.prepareForSleepSubs := ∅;
     inhibit.prepareForShutdownSubs := ∅ |}.

(** *** Signals as the login manager sends them *)

Definition lockSignal (dc : lock.dbusCon) (body : list Value) : Signal :=
  mkSignal "org.freedesktop.login1" (ObjPath (lock.loginSessionObject dc))
    "org.freedesktop.login1.Session.Lock" body.

Definition unlockSignal (dc : lock.dbusCon) (body : list Value) : Signal :=
  mkSignal "org.freedesktop.login1" (ObjPath (lock.loginSessionObject dc))
    "org.freedesktop.login1.Session.Unlock" body.

(** [PropertiesChanged] announcing [LockedHint], possibly among other
    properties listed after it. *)
Definition lockedHintChanged (dc : lock.dbusCon) (isLocked : bool)
    (others : list (string * Value)) (invalidated : list Value) : Signal :=
  mkSignal "org.freedesktop.login1" (ObjPath (lock.loginSessionObject dc))
    "org.freedesktop.DBus.Properties.PropertiesChanged"
    [VString "org.freedesktop.login1.Session";
     VDict (("LockedHint", VBool isLocked) :: others);
     VArray invalidated].

Definition prepareForSleep (i : inhibit.Inhibitor) (change : bool)
    (rest : list Value) : Signal :=
  mkSignal "org.freedesktop.login1" (ObjPath (inhibit.login1 i))
    "org.freedesktop.login1.Manager.PrepareForSleep" (VBool change :: rest).

Definition prepareForShutdown (i : inhibit.Inhibitor) (change : bool)
    (rest : list Value) : Signal :=
  mkSignal "org.freedesktop.login1" (ObjPath (inhibit.login1 i))
    "org.freedesktop.login1.Manager.PrepareForShutdown" (VBool change :: rest).

(** The names each dispatch has a case for. *)
Definition lockHandles (name : string) : bool :=
  String.eqb name "org.freedesktop.login1.Session.Lock"
  || String.eqb name "org.freedesktop.login1.Session.Unlock"
  || String.eqb name "org.freedesktop.DBus.Properties.PropertiesChanged".

(** One send of the fan-out [r] is attempted on channel [c]. *)
Definition offeredTo (r : exec (option fanout)) (c : chan) : Prop :=
  exists f, r = Returned (Some f) /\ c ∈ targets f.

(** The remove-match requests [Close] of the lock facility has to make:
    one for each kind whose match is active, in the order of the source. *)
Definition closeRequests (dc : lock.dbusCon) : list Request :=
  (if lock.lockSignalActive dc then [RemoveMatchSignal (lock.lockRule dc)] else [])
  ++ (if lock.unlockSignalActive dc
      then [RemoveMatchSignal (lock.unlockRule dc)] else [])
  ++ (if lock.propertiesChangedActive dc
      then [RemoveMatchSignal (lock.propertiesChangedRule dc)] else []).

(** *** Entries of a ListSessions reply *)

(** The entry is of the wrong type where the loop looks at it: the
    part of the error message after the index, if so. *)
Definition wrongType (sessionId : string) (v : Value) : option string :=
  match v with
  | VArray (VString id :: rest) =>
      if String.eqb id sessionId then
        match rest with
        | _ :: _ :: _ :: VObjectPath _ :: _ => None
        | _ :: _ :: _ :: _ :: _ => Some "[4] is not an ObjectPath"
        | _ => None
        end
      else None
  | VArray (_ :: _) => Some "[0] is not a string"
  | VArray [] => None
  | _ => Some " is not an array of interface"
  end.

(** The entry lacks a field the loop reads: the index read and the
    length of the entry, if so. *)
Definition tooShort (sessionId : string) (v : Value) : option (nat * nat) :=
  match v with
  | VArray [] => Some (0, 0)%nat
  | VArray (VString id :: rest) =>
      if String.eqb id sessionId && (length rest <? 4)%nat
      then Some (4, S (length rest))%nat
      else None
  | _ => None
  end.

(** A pair (value, error) holds exactly one of the two. *)
Definition exactlyOne {A : Type} (r : option A * option error) : Prop :=
  match r with
  | (Some _, None) | (None, Some _) => True
  | _ => False
  end.

(** *** Closing idle notifications and the controller *)

(** [k] calls of [Close] in a row on a notification: the notification
    left behind and the goroutines started, oldest first. *)
Fixpoint closeTimes (k : nat) (n : idle.waylandIdleNotification)
  : idle.waylandIdleNotification * list idle.goroutine :=
  match k with
  | O => (n, [])
  | S k =>
      let '(_, n', g) := idle.waylandIdleNotification_Close n in
      let '(n'', gs) := closeTimes k n' in
      (n'', ((match g with Some g => [g] | None => [] end) ++ gs)%list)
  end.

(** The teardown requests for the handles a controller holds, in the
    order of [Close], up to the closing of the close channel. *)
Definition teardownSteps (m : idle.controllerHandles) : list idle.teardown :=
  (if idle.hasSeat m then [idle.releaseSeat] else [])
  ++ (if idle.hasDisplay m then [idle.destroyDisplay] else [])
  ++ (if idle.hasNotifier m then [idle.destroyNotifier] else []).

(** The compositor answers the request: nil when the handle is absent
    and the request is not made. *)
Definition stepFails (w : idle.Compositor) (m : idle.controllerHandles)
    (t : idle.teardown) : bool :=
  match t with
  | idle.releaseSeat => idle.hasSeat m && negb (idle.isNil (idle.seatRelease w))
  | idle.destroyDisplay =>
      idle.hasDisplay m && negb (idle.isNil (idle.displayDestroy w))
  | idle.destroyNotifier =>
      idle.hasNotifier m && negb (idle.isNil (idle.notifierDestroy w))
  | idle.closeContext => negb (idle.isNil (idle.contextClose w))
  end.

(** *** Sequences that mix the signal kinds of a facility *)

Inductive lockKind : Type := onLock | onUnlock | onLocked.

Inductive inhibitKind : Type := onSleep | onShutdown.

Definition facilityStep (bus : Bus) (dc : lock.dbusCon) (o : lockKind * subOp) :=
  match fst o with
  | onLock => lockStep bus dc (snd o)
  | onUnlock => unlockStep bus dc (snd o)
  | onLocked => lockedStep bus dc (snd o)
  end.

Definition inhibitorStep (bus : Bus) (i : inhibit.Inhibitor)
    (o : inhibitKind * subOp) :=
  match fst o with
  | onSleep => sleepStep bus i (snd o)
  | onShutdown => shutdownStep bus i (snd o)
  end.

(** Runs a sequence of operations, all of which must succeed: the state
    reached, or [None] as soon as one returns an error. *)
Fixpoint runAll {S Op : Type} (step : S -> Op -> option error * S)
    (st : S) (ops : list Op) : option S :=
  match ops with
  | [] => Some st
  | op :: rest =>
      match step st op with
      | (None, st') => runAll step st' rest
      | (Some _, _) => None
      end
  end.

Definition facilityConsistent (dc : lock.dbusCon) : Prop :=
  lockConsistent (lock.lockRule dc) dc
  /\ unlockConsistent (lock.unlockRule dc) dc
  /\ lockedConsistent (lock.propertiesChangedRule dc) dc.

Definition inhibitorConsistent (i : inhibit.Inhibitor) : Prop :=
  sleepConsistent (inhibit.sleepRule i) i
  /\ shutdownConsistent (inhibit.shutdownRule i) i.

(** *** What Close of the lock facility comes to *)

(** One match removal of [Close]: on the traffic [w], for a kind whose
    match is [active]. Nothing is sent for an inactive kind; otherwise
    the remove-match is sent, a refusal is reported wrapped in [msg] and
    leaves the match active. *)
Record removalOutcome : Type := mkRemoval {
  failure : option error;
  trafficAfter : list Exchange;
  stillActive : bool
}.

Definition removal (bus : Bus) (active : bool) (rule : MatchRule) (msg : string)
    (w : list Exchange) : removalOutcome :=
  if active then
    let rp := bus w (RemoveMatchSignal rule) in
    mkRemoval
      (match rp with inl err => Some (wrapError msg err) | inr _ => None end)
      (w ++ [(RemoveMatchSignal rule, rp)])
      (negb (replyOk rp))
  else mkRemoval None w false.

(** The three removals of [Close], each on the traffic the one before
    leaves: Lock, Unlock, PropertiesChanged. *)
Definition lockRemoval (bus : Bus) (dc : lock.dbusCon) : removalOutcome :=
  removal bus (lock.lockSignalActive dc) (lock.lockRule dc)
    "failed to remove Dbus Lock signal: " (wire (lock.conn dc)).

Definition unlockRemoval (bus : Bus) (dc : lock.dbusCon) : removalOutcome :=
  removal bus (lock.unlockSignalActive dc) (lock.unlockRule dc)
    "failed to remove Dbus Unlock signal: " (trafficAfter (lockRemoval bus dc)).

Definition propertiesChangedRemoval (bus : Bus) (dc : lock.dbusCon)
  : removalOutcome :=
  removal bus (lock.propertiesChangedActive dc) (lock.propertiesChangedRule dc)
    "failed to remove Dbus PropertiesChanged signal: "
    (trafficAfter (unlockRemoval bus dc)).

(** [errors.Join] applied three times, as [Close] accumulates [err]. *)
Definition joinedFailures (e1 e2 e3 : option error) : option error :=
  errors_Join [errors_Join [errors_Join [None; e1]; e2]; e3].

(** Further calls of [Close], one for each remote end of [buses]: the
    facility they leave behind. *)
Definition closeRepeatedly (buses : list Bus) (dc : lock.dbusCon) : lock.dbusCon :=
  fold_left (fun dc bus => snd (lock.Close bus dc)) buses dc.

End registry.

(** * Properties *)

Import dbus registry.

(** ** Go runtime facts *)

Lemma wrap64_small (z : Z) : - 2 ^ 63 <= z < 2 ^ 63 -> wrap64 z = z.
Proof. intros Hz. unfold wrap64. rewrite Z.mod_small; lia. Qed.

Lemma string_app_assoc (a b c : string) : (a +:+ b) +:+ c = a +:+ (b +:+ c).
Proof.
  induction a as [|ch a IH]; [reflexivity|].
  change (String ch ((a +:+ b) +:+ c) = String ch (a +:+ (b +:+ c))).
  now rewrite IH.
Qed.

Lemma len_nonneg (s : string) : 0 <= len s.
Proof. unfold len. lia. Qed.

(** ** The constructors yield the facilities used in the examples *)

Lemma New_fresh : inhibit.New (inr (mkConn [])) = (Some freshInhibitor, None).
Proof. reflexivity. Qed.

Lemma NewDbusSessionLock_fresh (matches : Bus) :
  lock.NewDbusSessionLock (login1With matches) (inr (mkConn [])) "1"
  = Returned (Some freshLock, None).
Proof. reflexivity. Qed.

(** ** joinWhat and Inhibit *)

Section JoinWhat.
Import inhibit.

Lemma sum_lens_nonneg (elems : list What) :
  0 <= fold_right (fun e n => len e + n) 0 elems.
Proof.
  induction elems as [|e elems IH]; simpl; [lia|].
  pose proof (len_nonneg e). lia.
Qed.

(** The loop that adds up the lengths does not wrap while the total
    fits an [int]. *)
Lemma count_bytes (elems : list What) (n : Z) :
  0 <= n ->
  n + fold_right (fun e n => len e + n) 0 elems < 2 ^ 63 ->
  fold_left (fun n elem => wrap64 (n + len elem)) elems n
  = n + fold_right (fun e n => len e + n) 0 elems.
Proof.
  revert n. induction elems as [|e elems IH]; intros n Hn Hfit; simpl in *.
  - lia.
  - pose proof (len_nonneg e). pose proof (sum_lens_nonneg elems).
    rewrite wrap64_small by lia. rewrite IH by lia. lia.
Qed.

(** The writing loop appends the separator and the element, in order. *)
Lemma write_rest (rest : list What) (acc first : string) :
  Builder.buf
    (fold_left
       (fun b s => Builder.WriteString (Builder.WriteString b ":") s)
       rest (Builder.mk (acc +:+ first)))
  = acc +:+ String.concat ":" (first :: rest).
Proof.
  revert acc first. induction rest as [|y rest IH]; intros acc first.
  - reflexivity.
  - change
      (Builder.buf
         (fold_left
            (fun b s => Builder.WriteString (Builder.WriteString b ":") s)
            rest (Builder.mk (((acc +:+ first) +:+ ":") +:+ y)))
       = acc +:+ (first +:+ (":" +:+ String.concat ":" (y :: rest)))).
    rewrite (IH ((acc +:+ first) +:+ ":") y).
    now rewrite !string_app_assoc.
Qed.

Lemma joinWhat_nonempty (elems : list What) :
  elems <> [] -> joinedLen elems < 2 ^ 63 ->
  joinWhat elems = Returned (String.concat ":" elems).
Proof.
  intros Hne Hfit. destruct elems as [|e rest]; [congruence|].
  unfold joinedLen in Hfit. unfold joinWhat.
  pose proof (sum_lens_nonneg (e :: rest)) as Hsum.
  assert (Hlen : 0 <= Z.of_nat (length (e :: rest)) - 1) by (simpl; lia).
  change (len ":") with 1.
  rewrite (wrap64_small (Z.of_nat (length (e :: rest)) - 1)) by lia.
  rewrite Z.mul_1_l, (wrap64_small (Z.of_nat (length (e :: rest)) - 1)) by lia.
  rewrite Z.add_0_l, (wrap64_small (Z.of_nat (length (e :: rest)) - 1)) by lia.
  rewrite count_bytes by lia.
  unfold Builder.Grow.
  destruct (Z.ltb_spec
              (Z.of_nat (length (e :: rest)) - 1
               + fold_right (fun e n => len e + n) 0 (e :: rest)) 0) as [Hneg|_];
    [lia|].
  cbn [mbind exec_bind Go.bind index nth_error skipn].
  unfold Builder.String, Builder.WriteString at 1, Builder.zero.
  cbn [Builder.buf].
  exact (f_equal Returned (write_rest rest "" e)).
Qed.

End JoinWhat.

(** C8. For a non-empty list of [What] values (whose joined length fits
    Go's [int]), [joinWhat] returns the values joined with ":", and
    [Inhibit] sends exactly that string as the first argument of the
    [Inhibit] call, followed by who, why and mode. [WhatSleep] alone gives
    "sleep"; [WhatSleep, WhatIdle] gives "sleep:idle". *)
Theorem Inhibit_sends_what_joined_by_colon
    (bus : Bus) (i : inhibit.Inhibitor) (who why : string)
    (mode : inhibit.Mode) (what : list inhibit.What) :
  what <> [] -> joinedLen what < 2 ^ 63 ->
  let sent_request :=
    Call (Destination (inhibit.login1 i)) (ObjPath (inhibit.login1 i))
      "org.freedesktop.login1.Manager.Inhibit" 0
      [VString (String.concat ":" what); VString who; VString why; VString mode] in
  inhibit.joinWhat what = Returned (String.concat ":" what)
  /\ wire (inhibit.conn (snd (inhibit.Inhibit bus i who why mode what)))
     = (wire (inhibit.conn i)
        ++ [(sent_request, bus (wire (inhibit.conn i)) sent_request)])%list
  /\ inhibit.joinWhat [inhibit.WhatSleep] = Returned "sleep"
  /\ inhibit.joinWhat [inhibit.WhatSleep; inhibit.WhatIdle] = Returned "sleep:idle".
Proof.
  intros Hne Hfit sent_request.
  pose proof (joinWhat_nonempty what Hne Hfit) as Hjoin.
  repeat split; try reflexivity; try exact Hjoin.
  unfold inhibit.Inhibit. rewrite Hjoin. unfold send. cbn zeta.
  change (inhibit.dbusManagerInterface +:+ ".Inhibit")
    with "org.freedesktop.login1.Manager.Inhibit".
  fold sent_request.
  destruct (inhibit.storeUnixFD (bus (wire (inhibit.conn i)) sent_request));
    reflexivity.
Qed.

Lemma Inhibit_sends_what_joined_by_colon_witness :
  inhibit.joinWhat [inhibit.WhatSleep; inhibit.WhatIdle]
  = Returned (String.concat ":" [inhibit.WhatSleep; inhibit.WhatIdle]).
Proof.
  refine (proj1 (Inhibit_sends_what_joined_by_colon acceptAll freshInhibitor
                   "editor" "saving" inhibit.ModeDelay
                   [inhibit.WhatSleep; inhibit.WhatIdle] _ _)).
  - discriminate.
  - vm_compute. reflexivity.
Defined.

(** C10, as the code has it. For the empty list, [joinWhat] panics, and so
    does [Inhibit] called without a [what] argument, before anything is
    sent: the byte count is -1 and [Grow] panics on the negative count;
    [elems[0]] is not reached. [joinWhat] returns a string only for a
    non-empty list. *)
Theorem joinWhat_empty_panics_in_Grow
    (bus : Bus) (i : inhibit.Inhibitor) (who why : string)
    (mode : inhibit.Mode) (elems : list inhibit.What) (s : string) :
  inhibit.joinWhat elems = Returned s ->
  elems <> []
  /\ inhibit.joinWhat [] = Panicked "strings.Builder.Grow: negative count"
  /\ inhibit.Inhibit bus i who why mode []
     = (Panicked "strings.Builder.Grow: negative count", i).
Proof.
  intros Hret. repeat split; try reflexivity.
  intros ->. vm_compute in Hret. discriminate.
Qed.

Lemma joinWhat_empty_panics_in_Grow_witness :
  [inhibit.WhatSleep] <> []
  /\ inhibit.joinWhat [] = Panicked "strings.Builder.Grow: negative count"
  /\ inhibit.Inhibit acceptAll freshInhibitor "editor" "saving" inhibit.ModeBlock []
     = (Panicked "strings.Builder.Grow: negative count", freshInhibitor).
Proof.
  apply (joinWhat_empty_panics_in_Grow acceptAll freshInhibitor
           "editor" "saving" inhibit.ModeBlock [inhibit.WhatSleep] "sleep").
  reflexivity.
Defined.

(** C10, counterexample: on the empty list the panic of [joinWhat] is not
    the out-of-range panic of [elems[0]]. *)
Lemma joinWhat_empty_is_not_an_index_panic :
  inhibit.joinWhat []
  <> (e0 ← index ([] : list inhibit.What) 0; Returned e0).
Proof. vm_compute. discriminate. Qed.

(** ** Idle notifications *)

Section AddNotification.
Import idle.
Variable notifier : Notifier.

Lemma AddNotification_too_large (m : waylandIdleController)
    (input : CreateIdleNotification) :
  Milliseconds (Duration input) > MaxUint32 ->
  exists err, AddNotification notifier m input = ((None, Some err), m).
Proof.
  intros Hbig. unfold AddNotification.
  destruct (isNil (Idle input) && isNil (Resume input)); [eauto|].
  destruct (Z.gtb_spec (Milliseconds (Duration input)) MaxUint32); [eauto|lia].
Qed.

Lemma AddNotification_negative (m : waylandIdleController)
    (input : CreateIdleNotification) :
  isNil (Idle input) && isNil (Resume input) = false ->
  Milliseconds (Duration input) < 0 ->
  AddNotification notifier m input
  = (created notifier input 0, mkController (getIdleNotificationCalls m ++ [0])).
Proof.
  intros Hchan Hneg. unfold AddNotification, created. rewrite Hchan.
  destruct (Z.gtb_spec (Milliseconds (Duration input)) MaxUint32) as [Hgt|_];
    [unfold MaxUint32 in Hgt; lia|].
  destruct (Z.ltb_spec (Milliseconds (Duration input)) 0); [|lia].
  change (to_uint32 0) with 0. destruct (notifier 0); reflexivity.
Qed.

Lemma AddNotification_in_range (m : waylandIdleController)
    (input : CreateIdleNotification) :
  isNil (Idle input) && isNil (Resume input) = false ->
  0 <= Milliseconds (Duration input) <= MaxUint32 ->
  AddNotification notifier m input
  = (created notifier input (Milliseconds (Duration input)),
     mkController (getIdleNotificationCalls m ++ [Milliseconds (Duration input)])).
Proof.
  intros Hchan Hrange. unfold AddNotification, created. rewrite Hchan.
  destruct (Z.gtb_spec (Milliseconds (Duration input)) MaxUint32) as [Hgt|_];
    [lia|].
  destruct (Z.ltb_spec (Milliseconds (Duration input)) 0); [lia|].
  assert (Hfit : to_uint32 (Milliseconds (Duration input))
                 = Milliseconds (Duration input)).
  { unfold to_uint32. apply Z.mod_small. unfold MaxUint32 in Hrange. lia. }
  rewrite Hfit. destruct (notifier _); reflexivity.
Qed.

End AddNotification.

(** C5. With a delivery channel supplied, [AddNotification] passes a
    duration of -5s to [GetIdleNotification] as 0 and a duration of 5000ms
    as 5000 (any negative millisecond count goes out as 0, any count up to
    the largest [uint32] unchanged); a duration of more milliseconds than
    the largest [uint32] returns an error and no notification, and no
    request is made. *)
Theorem AddNotification_clamps_duration
    (notifier : idle.Notifier) (m : idle.waylandIdleController)
    (idleCh resumeCh : option chan) (d : Z) :
  idleCh <> None \/ resumeCh <> None ->
  let add d := idle.AddNotification notifier m (idle.mkCreate d idleCh resumeCh) in
  let passes d ms :=
    add d = (created notifier (idle.mkCreate d idleCh resumeCh) ms,
             idle.mkController (idle.getIdleNotificationCalls m ++ [ms])) in
  passes (-5 * idle.Second) 0
  /\ passes (5000 * idle.Millisecond) 5000
  /\ (idle.Milliseconds d > MaxUint32 -> exists err, add d = ((None, Some err), m))
  /\ (idle.Milliseconds d < 0 -> passes d 0)
  /\ (0 <= idle.Milliseconds d <= MaxUint32 -> passes d (idle.Milliseconds d)).
Proof.
  intros Hchan add passes.
  assert (Hnil : idle.isNil idleCh && idle.isNil resumeCh = false).
  { destruct idleCh, resumeCh; try reflexivity. destruct Hchan; congruence. }
  unfold passes, add. repeat split.
  - apply AddNotification_negative; [exact Hnil | reflexivity].
  - exact (AddNotification_in_range notifier m
             (idle.mkCreate (5000 * idle.Millisecond) idleCh resumeCh) Hnil
             ltac:(vm_compute; split; discriminate)).
  - intros Hbig. now apply AddNotification_too_large.
  - intros Hneg. now apply AddNotification_negative.
  - intros Hrange. now apply AddNotification_in_range.
Qed.

Lemma AddNotification_clamps_duration_witness :
  idle.AddNotification (fun _ => inr 7%positive) (idle.mkController [])
    (idle.mkCreate (-5 * idle.Second) (Some 1%positive) None)
  = ((Some (idle.mkNotification false 7%positive (Some 1%positive) None), None),
     idle.mkController [0]).
Proof.
  refine (proj1 (AddNotification_clamps_duration (fun _ => inr 7%positive)
                   (idle.mkController []) (Some 1%positive) None 0 _)).
  left. discriminate.
Defined.

(** ** The inhibitor's close channel *)

Lemma inhibitorAfter_closeSignalHandler
    (bus : Bus) (i : inhibit.Inhibitor) (c : inhibitorCall) :
  inhibit.closeSignalHandler i = chanNil ->
  inhibit.closeSignalHandler (inhibitorAfter bus i c) = chanNil.
Proof.
  intros Hnil. destruct c as [who why mode what|c|c|c|c| |s]; cbn [inhibitorAfter].
  - unfold inhibit.Inhibit. destruct (inhibit.joinWhat what); [|exact Hnil].
    unfold send. cbn zeta. destruct (inhibit.storeUnixFD _); exact Hnil.
  - unfold inhibit.SubscribePrepareForSleep. destruct c; [|exact Hnil].
    destruct (bool_decide _); [|exact Hnil].
    unfold sendMatch, send. destruct (bus _ _); exact Hnil.
  - unfold inhibit.UnsubscribePrepareForSleep. destruct c; [|exact Hnil].
    cbn zeta. destruct (bool_decide _); [|exact Hnil].
    unfold inhibit.removePrepareForSleepSignal, sendMatch, send.
    destruct (bus _ _); exact Hnil.
  - unfold inhibit.SubscribePrepareForShutdown. destruct c; [|exact Hnil].
    destruct (bool_decide _); [|exact Hnil].
    unfold sendMatch, send. destruct (bus _ _); exact Hnil.
  - unfold inhibit.UnsubscribePrepareForShutdown. destruct c; [|exact Hnil].
    cbn zeta. destruct (bool_decide _); [|exact Hnil].
    unfold inhibit.removePrepareForShutdownSignal, sendMatch, send.
    destruct (bus _ _); exact Hnil.
  - destruct i as [cn l1 ch sl sh]. cbn in Hnil. subst ch.
    unfold inhibit.Close, inhibit.removePrepareForShutdownSignal,
      inhibit.removePrepareForSleepSignal, sendMatch, send. cbn.
    destruct (bus _ _); cbn; destruct (bus _ _); reflexivity.
  - exact Hnil.
Qed.

Lemma Close_nil_panics (bus : Bus) (i : inhibit.Inhibitor) :
  inhibit.closeSignalHandler i = chanNil ->
  fst (inhibit.Close bus i) = Panicked "close of nil channel".
Proof.
  intros Hnil. destruct i as [cn l1 ch sl sh]. cbn in Hnil. subst ch.
  unfold inhibit.Close, inhibit.removePrepareForShutdownSignal,
    inhibit.removePrepareForSleepSignal, sendMatch, send. cbn.
  destruct (bus _ _); cbn; destruct (bus _ _); reflexivity.
Qed.

(** C9. An [Inhibitor] returned by [New] has the nil channel in
    [closeSignalHandler], and no call made on it afterwards changes that:
    [Close] panics on closing the nil channel, the first time and every
    time, and the shutdown case of the reader's [select] is never
    ready. *)
Theorem New_never_sets_closeSignalHandler
    (systemBus : error + Conn) (i : inhibit.Inhibitor)
    (bus : Bus) (calls : list inhibitorCall) (signalPending : bool) :
  inhibit.New systemBus = (Some i, None) ->
  let later := fold_left (inhibitorAfter bus) calls i in
  inhibit.closeSignalHandler i = chanNil
  /\ fst (inhibit.Close bus i) = Panicked "close of nil channel"
  /\ inhibit.closeSignalHandler later = chanNil
  /\ fst (inhibit.Close bus later) = Panicked "close of nil channel"
  /\ ~ In inhibit.caseClose (inhibit.readerReady later signalPending).
Proof.
  intros Hnew later.
  assert (Hi : inhibit.closeSignalHandler i = chanNil).
  { unfold inhibit.New in Hnew. destruct systemBus; [discriminate|].
    injection Hnew as <-. reflexivity. }
  assert (Hlater : inhibit.closeSignalHandler later = chanNil).
  { subst later. clear Hnew. revert i Hi.
    induction calls as [|c calls IH]; intros i Hi; [exact Hi|].
    cbn [fold_left]. apply IH. now apply inhibitorAfter_closeSignalHandler. }
  repeat split; auto using Close_nil_panics.
  unfold inhibit.readerReady. rewrite Hlater. cbn.
  destruct signalPending; cbn; intros H; intuition discriminate.
Qed.

Lemma New_never_sets_closeSignalHandler_witness :
  fst (inhibit.Close daemon
         (fold_left (inhibitorAfter daemon)
            [callSubscribePrepareForSleep (Some 1%positive); callClose]
            freshInhibitor))
  = Panicked "close of nil channel".
Proof.
  refine (proj1 (proj2 (proj2 (proj2
            (New_never_sets_closeSignalHandler (inr (mkConn [])) freshInhibitor
               daemon [callSubscribePrepareForSleep (Some 1%positive); callClose]
               true _))))).
  reflexivity.
Defined.

(** ** Construction of the lock facility *)

Lemma findSession_no_match (sessionId : string) (sessions : list Value)
    (i : nat) (obj : option BusObject) :
  forallb (otherSession sessionId) sessions = true ->
  lock.findSession sessionId i sessions obj = Returned (inr obj).
Proof.
  revert i. induction sessions as [|v sessions IH]; intros i Hall; [reflexivity|].
  cbn [forallb] in Hall. apply andb_prop in Hall as [Hv Hall].
  destruct v as [| | | | |elems|]; try discriminate.
  destruct elems as [|[|id| | | | |] elems]; try discriminate.
  revert Hv. unfold otherSession.
  destruct elems as [|[] [|[] [|[] [|[] [|]]]]]; try discriminate.
  intros Hv. apply negb_true_iff in Hv.
  cbn [lock.findSession index nth_error mbind exec_bind Go.bind].
  rewrite Hv. now apply IH.
Qed.

(** When the reply lists only other sessions (or none), the loop leaves
    the manager object in place and the constructor returns a facility
    bound to it, with a nil error. *)
Lemma NewDbusSessionLock_no_match (bus : Bus) (conn : Conn)
    (sessionId : string) (sessions : list Value) :
  sessionId <> "" ->
  bus (wire conn)
    (Call "org.freedesktop.login1" "/org/freedesktop/login1"
       "org.freedesktop.login1.Manager.ListSessions" 0 [])
  = inr [VArray sessions] ->
  forallb (otherSession sessionId) sessions = true ->
  exists dc,
    lock.NewDbusSessionLock bus (inr conn) sessionId = Returned (Some dc, None)
    /\ lock.loginSessionObject dc
       = Object "org.freedesktop.login1" "/org/freedesktop/login1".
Proof.
  intros Hid Hreply Hall. unfold lock.NewDbusSessionLock.
  apply String.eqb_neq in Hid. rewrite Hid.
  unfold send. cbn zeta. rewrite Hreply. cbn [lock.storeSessions].
  rewrite findSession_no_match by exact Hall.
  cbn [mbind exec_bind Go.bind]. eexists. split; reflexivity.
Qed.

(** C3, at the failing input: the session id "42" is not among the
    sessions the login manager lists, yet [NewDbusSessionLock] returns a
    nil error and a facility, whose session object is the manager object
    at /org/freedesktop/login1. The test for a nil session object cannot
    fire. *)
Theorem NewDbusSessionLock_unknown_session_is_accepted :
  exists dc,
    lock.NewDbusSessionLock (login1With daemon) (inr (mkConn [])) "42"
    = Returned (Some dc, None)
    /\ lock.loginSessionObject dc
       = Object "org.freedesktop.login1" "/org/freedesktop/login1"
    /\ lock.lockRule dc
       = mkRule "/org/freedesktop/login1" "org.freedesktop.login1.Session"
           "org.freedesktop.login1" "Lock".
Proof.
  destruct (NewDbusSessionLock_no_match (login1With daemon) (mkConn []) "42"
              [session1]) as (dc & Hret & Hobj);
    [discriminate | reflexivity | reflexivity |].
  exists dc. repeat split; [exact Hret | exact Hobj |].
  unfold lock.lockRule. now rewrite Hobj.
Qed.

(** ** A refused add-match *)

(** The inhibitor asks the bus first: a refused add-match leaves both
    subscriber sets as they were. *)
Lemma Subscribe_refused_leaves_sets (bus : Bus) (i : inhibit.Inhibitor)
    (c : chan) (err : error) :
  inhibit.prepareForSleepSubs i = ∅ ->
  bus (wire (inhibit.conn i)) (AddMatchSignal (inhibit.sleepRule i)) = inl err ->
  let '(res, i') := inhibit.SubscribePrepareForSleep bus i (Some c) in
  res = Some (wrapError "failed to register Dbus PrepareForSleep signal: " err)
  /\ inhibit.prepareForSleepSubs i' = inhibit.prepareForSleepSubs i
  /\ inhibit.prepareForShutdownSubs i' = inhibit.prepareForShutdownSubs i.
Proof.
  intros Hempty Hrefused. unfold inhibit.SubscribePrepareForSleep.
  rewrite Hempty, bool_decide_eq_true_2 by apply size_empty.
  unfold sendMatch, send. rewrite Hrefused. repeat split. exact Hempty.
Qed.

Lemma SubscribeShutdown_refused_leaves_sets (bus : Bus) (i : inhibit.Inhibitor)
    (c : chan) (err : error) :
  inhibit.prepareForShutdownSubs i = ∅ ->
  bus (wire (inhibit.conn i)) (AddMatchSignal (inhibit.shutdownRule i)) = inl err ->
  let '(res, i') := inhibit.SubscribePrepareForShutdown bus i (Some c) in
  res = Some (wrapError "failed to register Dbus PrepareForShutdown signal: " err)
  /\ inhibit.prepareForSleepSubs i' = inhibit.prepareForSleepSubs i
  /\ inhibit.prepareForShutdownSubs i' = inhibit.prepareForShutdownSubs i.
Proof.
  intros Hempty Hrefused. unfold inhibit.SubscribePrepareForShutdown.
  rewrite Hempty, bool_decide_eq_true_2 by apply size_empty.
  unfold sendMatch, send. rewrite Hrefused. repeat split. exact Hempty.
Qed.

(** The lock facility stores the channel first: after a refused
    add-match the channel is in the set although the call failed. *)
Lemma AddLockSignal_refused_keeps_channel (bus : Bus) (dc : lock.dbusCon)
    (c : chan) (err : error) :
  lock.lockSignalActive dc = false ->
  bus (wire (lock.conn dc)) (AddMatchSignal (lock.lockRule dc)) = inl err ->
  let '(res, dc') := lock.AddLockSignal bus dc (Some c) in
  res = Some (wrapError "failed to register Dbus Lock signal: " err)
  /\ lock.lockSignals dc' = {[c]} ∪ lock.lockSignals dc
  /\ lock.lockSignalActive dc' = false.
Proof.
  intros Hinactive Hrefused. unfold lock.AddLockSignal. cbn zeta.
  cbn [lock.setLockSignals lock.lockSignalActive lock.conn].
  rewrite Hinactive. cbn [negb]. unfold sendMatch, send.
  change (lock.lockRule (lock.setLockSignals dc ({[c]} ∪ lock.lockSignals dc)))
    with (lock.lockRule dc).
  rewrite Hrefused. repeat split. exact Hinactive.
Qed.

Lemma AddUnlockSignal_refused_keeps_channel (bus : Bus) (dc : lock.dbusCon)
    (c : chan) (err : error) :
  lock.unlockSignalActive dc = false ->
  bus (wire (lock.conn dc)) (AddMatchSignal (lock.unlockRule dc)) = inl err ->
  let '(res, dc') := lock.AddUnlockSignal bus dc (Some c) in
  res = Some (wrapError "failed to register Dbus Unlock signal: " err)
  /\ lock.unlockSignals dc' = {[c]} ∪ lock.unlockSignals dc
  /\ lock.unlockSignalActive dc' = false.
Proof.
  intros Hinactive Hrefused. unfold lock.AddUnlockSignal. cbn zeta.
  cbn [lock.setUnlockSignals lock.unlockSignalActive lock.conn].
  rewrite Hinactive. cbn [negb]. unfold sendMatch, send.
  change (lock.unlockRule (lock.setUnlockSignals dc ({[c]} ∪ lock.unlockSignals dc)))
    with (lock.unlockRule dc).
  rewrite Hrefused. repeat split. exact Hinactive.
Qed.

Lemma AddLockedSignal_refused_keeps_channel (bus : Bus) (dc : lock.dbusCon)
    (c : chan) (err : error) :
  lock.propertiesChangedActive dc = false ->
  bus (wire (lock.conn dc)) (AddMatchSignal (lock.propertiesChangedRule dc)) = inl err ->
  let '(res, dc') := lock.AddLockedSignal bus dc (Some c) in
  res = Some (wrapError "failed to register Dbus signal for LockedHint: " err)
  /\ lock.lockedHintSignals dc' = {[c]} ∪ lock.lockedHintSignals dc
  /\ lock.propertiesChangedActive dc' = false.
Proof.
  intros Hinactive Hrefused. unfold lock.AddLockedSignal. cbn zeta.
  cbn [lock.setLockedHintSignals lock.propertiesChangedActive lock.conn].
  rewrite Hinactive. cbn [negb]. unfold sendMatch, send.
  change (lock.propertiesChangedRule
            (lock.setLockedHintSignals dc ({[c]} ∪ lock.lockedHintSignals dc)))
    with (lock.propertiesChangedRule dc).
  rewrite Hrefused. repeat split. exact Hinactive.
Qed.

(** C2, at the failing input: on a freshly constructed lock facility whose
    bus refuses the add-match, [AddLockSignal] returns the error, and the
    channel is nevertheless a member of the subscriber set afterwards,
    with the subscription inactive. *)
Theorem AddLockSignal_refused_still_subscribes :
  let result :=
    lock.AddLockSignal (login1With refuseAll) freshLock (Some 1%positive) in
  fst result = Some (wrapError "failed to register Dbus Lock signal: "
                       (errorString "refused"))
  /\ (1%positive ∉ lock.lockSignals freshLock)
  /\ (1%positive ∈ lock.lockSignals (snd result))
  /\ lock.lockSignalActive (snd result) = false
  /\ registered (lock.lockRule (snd result)) (wire (lock.conn (snd result)))
     = false.
Proof.
  cbv zeta. split; [reflexivity|]. split; [cbn; set_solver|].
  split; [|split; reflexivity].
  change (1%positive ∈ ({[1%positive]} ∪ ∅ : gset chan)). set_solver.
Qed.

(** ** Dispatch of malformed payloads *)

Lemma inhibit_dispatch_panics_iff (i : inhibit.Inhibitor) (s : Signal) :
  Path s = ObjPath (inhibit.login1 i) ->
  isPrepareSignal (Name s) = true ->
  panics (inhibit.handleIncomingSignal i (Some s)) = negb (carriesBool (Body s)).
Proof.
  intros Hpath Hname. unfold inhibit.handleIncomingSignal.
  rewrite Hpath, String.eqb_refl. cbn [negb].
  unfold isPrepareSignal in Hname.
  destruct (String.eqb (Name s) "org.freedesktop.login1.Manager.PrepareForSleep").
  - destruct (Body s) as [|[] rest]; reflexivity.
  - cbn [orb] in Hname. rewrite Hname.
    destruct (Body s) as [|[] rest]; reflexivity.
Qed.

Lemma lock_dispatch_panics_iff (dc : lock.dbusCon) (s : Signal) :
  Path s = ObjPath (lock.loginSessionObject dc) ->
  isPropertiesChanged (Name s) = true ->
  panics (lock.handleIncomingSignal dc (Some s))
  = negb (carriesLockedHint (Body s)).
Proof.
  intros Hpath Hname. unfold lock.handleIncomingSignal.
  rewrite Hpath, String.eqb_refl. cbn [negb].
  unfold isPropertiesChanged in Hname. apply String.eqb_eq in Hname.
  rewrite Hname. cbn [String.eqb Ascii.eqb Bool.eqb andb].
  destruct (Body s) as [|b0 [|b1 rest]]; try reflexivity.
  destruct b1; try reflexivity.
  cbn [index nth_error mbind exec_bind Go.bind carriesLockedHint].
  destruct (lookup "LockedHint" entries) as [[]|]; reflexivity.
Qed.

(** The [Lock] and [Unlock] signals carry no payload; their dispatch reads
    none and cannot panic. *)
Lemma lock_dispatch_Lock_Unlock (dc : lock.dbusCon) (s : Signal) :
  Name s = "org.freedesktop.login1.Session.Lock"
  \/ Name s = "org.freedesktop.login1.Session.Unlock" ->
  panics (lock.handleIncomingSignal dc (Some s)) = false.
Proof.
  intros Hname. unfold lock.handleIncomingSignal.
  destruct (negb _); [reflexivity|].
  destruct Hname as [-> | ->]; reflexivity.
Qed.

(** C7. A signal from the facility's object whose name is one the
    dispatch decodes a payload for, and whose body does not have the
    expected shape, makes the dispatch panic: [PrepareForSleep] and
    [PrepareForShutdown] without a boolean first, [PropertiesChanged]
    without a property map second or with a [LockedHint] that is not a
    boolean. The dispatch returns in no such case. *)
Theorem malformed_payload_panics
    (i : inhibit.Inhibitor) (dc : lock.dbusCon) (s : Signal) :
  (Path s = ObjPath (inhibit.login1 i) ->
   isPrepareSignal (Name s) = true ->
   carriesBool (Body s) = false ->
   panics (inhibit.handleIncomingSignal i (Some s)) = true)
  /\ (Path s = ObjPath (lock.loginSessionObject dc) ->
      isPropertiesChanged (Name s) = true ->
      carriesLockedHint (Body s) = false ->
      panics (lock.handleIncomingSignal dc (Some s)) = true).
Proof.
  split; intros Hpath Hname Hshape.
  - rewrite inhibit_dispatch_panics_iff, Hshape by assumption. reflexivity.
  - rewrite lock_dispatch_panics_iff, Hshape by assumption. reflexivity.
Qed.

Lemma malformed_payload_panics_witness :
  panics (inhibit.handleIncomingSignal freshInhibitor
            (Some (mkSignal "org.freedesktop.login1" "/org/freedesktop/login1"
                     "org.freedesktop.login1.Manager.PrepareForSleep"
                     [VString "true"]))) = true
  /\ panics (lock.handleIncomingSignal freshLock
               (Some (mkSignal "org.freedesktop.login1"
                        "/org/freedesktop/login1/session/_31"
                        "org.freedesktop.DBus.Properties.PropertiesChanged"
                        [VString "org.freedesktop.login1.Session";
                         VDict [("LockedHint", VUint32 1)];
                         VArray []]))) = true.
Proof.
  split.
  - apply (proj1 (malformed_payload_panics freshInhibitor freshLock _));
      reflexivity.
  - apply (proj2 (malformed_payload_panics freshInhibitor freshLock _));
      reflexivity.
Defined.

(** ** Close, twice *)

Lemma lock_Close_result (bus : Bus) (dc : lock.dbusCon) :
  let dc' := snd (lock.Close bus dc) in
  lock.lockSignals dc' = ∅ /\ lock.unlockSignals dc' = ∅
  /\ lock.lockedHintSignals dc' = ∅
  /\ match lock.closeSignalHandler dc with
     | chanOpen =>
         (exists err, fst (lock.Close bus dc) = Returned err)
         /\ lock.closeSignalHandler dc' = chanClosed
     | chanClosed =>
         fst (lock.Close bus dc) = Panicked "close of closed channel"
         /\ lock.closeSignalHandler dc' = chanClosed
     | chanNil =>
         fst (lock.Close bus dc) = Panicked "close of nil channel"
         /\ lock.closeSignalHandler dc' = chanNil
     end.
Proof.
  destruct dc as [cn obj ch ls hs us la pa ua].
  unfold lock.Close, lock.removeLockSignal, lock.removeUnlockSignal,
    lock.removePropertiesChangedSignal, sendMatch, send. cbn.
  destruct la; cbn; [destruct (bus _ _); cbn|];
    (destruct ua; cbn; [destruct (bus _ _); cbn|]);
    (destruct pa; cbn; [destruct (bus _ _); cbn|]);
    destruct ch; cbn; eauto 6.
Qed.

(** What the first [Close] returns and leaves behind, in full. *)
Lemma lock_Close_outcome (bus : Bus) (dc : lock.dbusCon) :
  lock.closeSignalHandler dc = chanOpen ->
  lock.Close bus dc
  = (Returned (joinedFailures (failure (lockRemoval bus dc))
                 (failure (unlockRemoval bus dc))
                 (failure (propertiesChangedRemoval bus dc))),
     lock.mkDbusCon (mkConn (trafficAfter (propertiesChangedRemoval bus dc)))
       (lock.loginSessionObject dc) chanClosed ∅ ∅ ∅
       (stillActive (lockRemoval bus dc))
       (stillActive (propertiesChangedRemoval bus dc))
       (stillActive (unlockRemoval bus dc))).
Proof.
  destruct dc as [[w] obj ch ls hs us la pa ua]. cbn. intros ->.
  unfold lock.Close, lock.removeLockSignal, lock.removeUnlockSignal,
    lock.removePropertiesChangedSignal, sendMatch, send,
    propertiesChangedRemoval, unlockRemoval, lockRemoval, removal, joinedFailures.
  cbn.
  destruct la; cbn; [destruct (bus _ _); cbn|];
    (destruct ua; cbn; [destruct (bus _ _); cbn|]);
    (destruct pa; cbn; [destruct (bus _ _); cbn|]);
    reflexivity.
Qed.

Lemma joinedFailures_nil (e1 e2 e3 : option error) :
  joinedFailures e1 e2 e3 = None <-> e1 = None /\ e2 = None /\ e3 = None.
Proof.
  destruct e1, e2, e3; cbn; split; intros H; try discriminate;
    try (destruct H as (H1 & H2 & H3); discriminate); repeat split.
Qed.

Lemma closeRepeatedly_closed (buses : list Bus) (dc : lock.dbusCon) :
  lock.closeSignalHandler dc = chanClosed ->
  lock.closeSignalHandler (closeRepeatedly buses dc) = chanClosed.
Proof.
  revert dc. induction buses as [|bus buses IH]; intros dc Hclosed; [exact Hclosed|].
  cbn [closeRepeatedly fold_left]. apply IH.
  destruct (lock_Close_result bus dc) as (_ & _ & _ & Hres).
  rewrite Hclosed in Hres. apply Hres.
Qed.

(** C4, as the code has it. On a lock facility whose close channel is
    open, as [NewDbusSessionLock] leaves it, [Close] returns: the three
    subscriber sets are empty afterwards and the close channel is closed.
    What it returns is [errors.Join] of the wrapped errors of the match
    removals the bus refused, nil exactly when none was refused; a
    refused removal leaves its flag set, an accepted one clears it.
    [Close] is not idempotent: a second [Close] panics on closing the
    closed channel, and so does every later one, whatever the bus
    answers. *)
Theorem lock_Close_twice_panics (bus : Bus) (dc : lock.dbusCon) :
  lock.closeSignalHandler dc = chanOpen ->
  let once := snd (lock.Close bus dc) in
  let twice := snd (lock.Close bus once) in
  (exists err, fst (lock.Close bus dc) = Returned err)
  /\ lock.lockSignals once = ∅ /\ lock.unlockSignals once = ∅
  /\ lock.lockedHintSignals once = ∅
  /\ lock.closeSignalHandler once = chanClosed
  /\ fst (lock.Close bus once) = Panicked "close of closed channel"
  /\ fst (lock.Close bus twice) = Panicked "close of closed channel"
  /\ lock.Close bus dc
     = (Returned (joinedFailures (failure (lockRemoval bus dc))
                    (failure (unlockRemoval bus dc))
                    (failure (propertiesChangedRemoval bus dc))),
        lock.mkDbusCon (mkConn (trafficAfter (propertiesChangedRemoval bus dc)))
          (lock.loginSessionObject dc) chanClosed ∅ ∅ ∅
          (stillActive (lockRemoval bus dc))
          (stillActive (propertiesChangedRemoval bus dc))
          (stillActive (unlockRemoval bus dc)))
  /\ (fst (lock.Close bus dc) = Returned None
      <-> failure (lockRemoval bus dc) = None
          /\ failure (unlockRemoval bus dc) = None
          /\ failure (propertiesChangedRemoval bus dc) = None)
  /\ (forall (buses : list Bus) (later : Bus),
        fst (lock.Close later (closeRepeatedly buses once))
        = Panicked "close of closed channel").
Proof.
  intros Hopen once twice.
  destruct (lock_Close_result bus dc) as (Hl & Hu & Hh & Hfirst).
  rewrite Hopen in Hfirst. destruct Hfirst as [Hret Hclosed].
  fold once in Hl, Hu, Hh, Hclosed.
  destruct (lock_Close_result bus once) as (_ & _ & _ & Hsecond).
  rewrite Hclosed in Hsecond. destruct Hsecond as [Hpanic Hclosed2].
  fold twice in Hclosed2.
  destruct (lock_Close_result bus twice) as (_ & _ & _ & Hthird).
  rewrite Hclosed2 in Hthird. destruct Hthird as [Hpanic3 _].
  pose proof (lock_Close_outcome bus dc Hopen) as Hout.
  split; [exact Hret|]. split; [exact Hl|]. split; [exact Hu|].
  split; [exact Hh|]. split; [exact Hclosed|]. split; [exact Hpanic|].
  split; [exact Hpanic3|]. split; [exact Hout|]. split.
  - rewrite Hout. cbn [fst]. split.
    + intros Hnil. injection Hnil as Hnil. now apply joinedFailures_nil in Hnil.
    + intros Hnone. f_equal. now apply joinedFailures_nil.
  - intros buses later.
    destruct (lock_Close_result later (closeRepeatedly buses once))
      as (_ & _ & _ & Hres).
    rewrite (closeRepeatedly_closed buses once Hclosed) in Hres. apply Hres.
Qed.

Lemma lock_Close_twice_panics_witness :
  fst (lock.Close (login1With daemon)
         (snd (lock.Close (login1With daemon) freshLock)))
  = Panicked "close of closed channel".
Proof.
  refine (proj1 (proj2 (proj2 (proj2 (proj2 (proj2
            (lock_Close_twice_panics (login1With daemon) freshLock _))))))).
  reflexivity.
Defined.

(** C4, counterexample: on a freshly constructed lock facility with one
    subscriber, the first [Close] returns nil and the second [Close]
    panics. *)
Lemma lock_second_Close_panics :
  let dc := snd (lock.AddLockSignal (login1With daemon) freshLock (Some 1%positive)) in
  fst (lock.Close (login1With daemon) dc) = Returned None
  /\ panics (fst (lock.Close (login1With daemon)
                    (snd (lock.Close (login1With daemon) dc)))) = true.
Proof. cbv zeta. split; reflexivity. Qed.

(** ** Subscriptions and the traffic they cause *)

Lemma addCalls_snoc (r : MatchRule) (w : list Exchange) (x : Exchange) :
  addCalls r (w ++ [x]) = (addCalls r w + (if isAdd r x then 1 else 0))%nat.
Proof.
  unfold addCalls. rewrite filter_app, length_app, filter_cons, filter_nil.
  destruct (isAdd r x);
    [rewrite decide_True by reflexivity | rewrite decide_False by discriminate];
    reflexivity.
Qed.

Lemma removeCalls_snoc (r : MatchRule) (w : list Exchange) (x : Exchange) :
  removeCalls r (w ++ [x])
  = (removeCalls r w + (if isRemove r x then 1 else 0))%nat.
Proof.
  unfold removeCalls. rewrite filter_app, length_app, filter_cons, filter_nil.
  destruct (isRemove r x);
    [rewrite decide_True by reflexivity | rewrite decide_False by discriminate];
    reflexivity.
Qed.

Lemma registrations_snoc (r : MatchRule) (w : list Exchange) (x : Exchange) :
  registrations r (w ++ [x]) = matchStep r (registrations r w) x.
Proof. unfold registrations. now rewrite fold_left_app. Qed.

Lemma isAdd_add (r : MatchRule) (rp : Reply) : isAdd r (AddMatchSignal r, rp) = true.
Proof. unfold isAdd. cbn. now apply bool_decide_eq_true_2. Qed.

Lemma isRemove_remove (r : MatchRule) (rp : Reply) :
  isRemove r (RemoveMatchSignal r, rp) = true.
Proof. unfold isRemove. cbn. now apply bool_decide_eq_true_2. Qed.

Lemma isEmpty_true (subs : gset chan) : isEmpty subs = true <-> subs = ∅.
Proof.
  unfold isEmpty. rewrite bool_decide_eq_true. split.
  - intros H. now apply size_empty_inv, leibniz_equiv in H.
  - intros ->. apply size_empty.
Qed.

Lemma isEmpty_false (subs : gset chan) : isEmpty subs = false <-> subs <> ∅.
Proof.
  rewrite <- isEmpty_true. destruct (isEmpty subs); split; congruence.
Qed.

Lemma isEmpty_insert (c : chan) (subs : gset chan) : isEmpty ({[c]} ∪ subs) = false.
Proof. apply isEmpty_false. set_solver. Qed.

Lemma isEmpty_remove (c : chan) (subs : gset chan) :
  isEmpty (subs ∖ {[c]}) = false -> isEmpty subs = false.
Proof. rewrite !isEmpty_false. set_solver. Qed.

Lemma isEmpty_remove_empty (c : chan) (subs : gset chan) :
  isEmpty subs = true -> isEmpty (subs ∖ {[c]}) = true.
Proof. rewrite !isEmpty_true. set_solver. Qed.

Lemma registered_iff (r : MatchRule) (w : list Exchange) (subs : gset chan) :
  registrations r w = (if isEmpty subs then 0 else 1)%nat ->
  registered r w = true <-> subs <> ∅.
Proof.
  intros Hreg. unfold registered. rewrite Hreg, <- isEmpty_false.
  destruct (isEmpty subs); cbn; split; congruence.
Qed.

Lemma last_default {A} (l : list A) (x d d' : A) :
  List.last (x :: l) d = List.last (x :: l) d'.
Proof.
  revert x. induction l as [|y l IH]; intros x; [reflexivity|].
  change (List.last (y :: l) d = List.last (y :: l) d'). apply IH.
Qed.

Lemma last_cons {A} (l : list A) (x d : A) :
  List.last (x :: l) d = List.last l x.
Proof.
  destruct l as [|y l]; [reflexivity|].
  change (List.last (y :: l) d = List.last (y :: l) x). apply last_default.
Qed.

(** *** Runs: from one step to a sequence *)

Section Runs.
Context {S : Type}.
Variables (subs : S -> gset chan) (traffic : S -> list Exchange).
Variable rule : MatchRule.
Variable step : S -> subOp -> option error * S.
Variable consistent : S -> Prop.
Variable extra : gset chan -> subOp -> nat.

Hypothesis step_accounts : forall st op st',
  consistent st -> step st op = (None, st') ->
  consistent st'
  /\ addCalls rule (traffic st')
     = (addCalls rule (traffic st) + edge01 (subs st) (subs st'))%nat
  /\ removeCalls rule (traffic st')
     = (removeCalls rule (traffic st) + edge10 (subs st) (subs st')
        + extra (subs st) op)%nat.

Lemma run_accounts (ops : list subOp) (st : S) (trace : list S) :
  consistent st -> runOps step st ops = Some trace ->
  consistent (List.last trace st)
  /\ addCalls rule (traffic (List.last trace st))
     = (addCalls rule (traffic st) + edges01 (subs st) (map subs trace))%nat
  /\ removeCalls rule (traffic (List.last trace st))
     = (removeCalls rule (traffic st) + edges10 (subs st) (map subs trace)
        + along extra (subs st) ops (map subs trace))%nat.
Proof.
  revert st trace. induction ops as [|op ops IH]; intros st trace Hst Hrun.
  - injection Hrun as <-. cbn. repeat split; [exact Hst | lia | lia].
  - cbn [runOps] in Hrun.
    destruct (step st op) as [[err|] st'] eqn:Hstep; [discriminate|].
    destruct (runOps step st' ops) as [rest|] eqn:Hrest; [|discriminate].
    injection Hrun as <-.
    destruct (step_accounts st op st' Hst Hstep) as (Hst' & Hadd & Hrem).
    destruct (IH st' rest Hst' Hrest) as (Hfin & Hadds & Hrems).
    rewrite last_cons. cbn [map edges01 edges10 along].
    repeat split; [exact Hfin | lia | lia].
Qed.

End Runs.

(** *** One step of each signal kind *)

Lemma len_zero (subs : gset chan) :
  bool_decide (size subs = 0%nat) = isEmpty subs.
Proof. reflexivity. Qed.

Lemma isAdd_remove (r r' : MatchRule) (rp : Reply) :
  isAdd r (RemoveMatchSignal r', rp) = false.
Proof. reflexivity. Qed.

Lemma isRemove_add (r r' : MatchRule) (rp : Reply) :
  isRemove r (AddMatchSignal r', rp) = false.
Proof. reflexivity. Qed.

Ltac lock_fields :=
  cbn [lock.conn lock.loginSessionObject lock.closeSignalHandler
       lock.lockSignals lock.lockedHintSignals lock.unlockSignals
       lock.lockSignalActive lock.propertiesChangedActive
       lock.unlockSignalActive
       inhibit.conn inhibit.login1 inhibit.closeSignalHandler
       inhibit.prepareForSleepSubs inhibit.prepareForShutdownSubs
       wire fst snd negb] in *.

Ltac lock_unfold :=
  unfold lockStep, unlockStep, lockedStep,
    lock.AddLockSignal, lock.RemoveLockSignal, lock.removeLockSignal,
    lock.AddUnlockSignal, lock.RemoveUnlockSignal, lock.removeUnlockSignal,
    lock.AddLockedSignal, lock.RemoveLockedSignal,
    lock.removePropertiesChangedSignal,
    lock.setConn, lock.setLockSignals, lock.setUnlockSignals,
    lock.setLockedHintSignals, lock.setLockSignalActive,
    lock.setUnlockSignalActive, lock.setPropertiesChangedActive,
    lock.lockRule, lock.unlockRule, lock.propertiesChangedRule,
    sendMatch, send in *.

Ltac inhibit_unfold :=
  unfold sleepStep, shutdownStep,
    inhibit.SubscribePrepareForSleep, inhibit.UnsubscribePrepareForSleep,
    inhibit.removePrepareForSleepSignal,
    inhibit.SubscribePrepareForShutdown, inhibit.UnsubscribePrepareForShutdown,
    inhibit.removePrepareForShutdownSignal,
    inhibit.setConn, inhibit.setSleepSubs, inhibit.setShutdownSubs,
    inhibit.sleepRule, inhibit.shutdownRule,
    sendMatch, send in *.

Ltac flag_facts :=
  repeat match goal with
  | H : true = negb (isEmpty _) |- _ => symmetry in H; apply negb_true_iff in H
  | H : false = negb (isEmpty _) |- _ => symmetry in H; apply negb_false_iff in H
  end.

Ltac count_edges :=
  unfold edge01, edge10, unsubscribeOnEmpty, isUnsubscribe;
  rewrite ?addCalls_snoc, ?removeCalls_snoc, ?registrations_snoc;
  unfold matchStep;
  rewrite ?isAdd_add, ?isRemove_remove, ?isAdd_remove, ?isRemove_add,
    ?isEmpty_insert;
  repeat match goal with
  | H : isEmpty ?s = _ |- context [isEmpty ?s] => rewrite H
  | H : registrations _ _ = _ |- context [registrations _ _] => rewrite H
  end;
  cbn [negb andb orb replyOk fst snd Nat.pred];
  try reflexivity; try lia.

Ltac settle Hstep Hrule :=
  injection Hstep as <-; lock_fields; flag_facts; try rewrite Hrule in *;
  repeat split; trivial; count_edges.

Ltac accepted bus w :=
  destruct (bus w _) as [?err|?body]; [discriminate|].

(** The three kinds of the lock facility share one proof. *)
Ltac flagged_kind bus w subs flag op Hstep Hrule :=
  destruct op as [c|c]; lock_unfold; lock_fields;
  [ destruct flag; lock_fields; [|accepted bus w]; settle Hstep Hrule
  | rewrite len_zero in Hstep;
    let Hafter := fresh "Hafter" in
    destruct (isEmpty (subs ∖ {[c]})) eqn:Hafter; lock_fields;
    [ destruct flag; lock_fields; [accepted bus w|]; settle Hstep Hrule
    | pose proof (isEmpty_remove _ _ Hafter);
      destruct flag; flag_facts; [|congruence]; settle Hstep Hrule ] ].

Lemma lock_step_accounts (bus : Bus) (r : MatchRule)
    (dc : lock.dbusCon) (op : subOp) (dc' : lock.dbusCon) :
  lockConsistent r dc -> lockStep bus dc op = (None, dc') ->
  lockConsistent r dc'
  /\ addCalls r (wire (lock.conn dc'))
     = (addCalls r (wire (lock.conn dc))
        + edge01 (lock.lockSignals dc) (lock.lockSignals dc'))%nat
  /\ removeCalls r (wire (lock.conn dc'))
     = (removeCalls r (wire (lock.conn dc))
        + edge10 (lock.lockSignals dc) (lock.lockSignals dc') + 0)%nat.
Proof.
  destruct dc as [[w] obj ch ls hs us la pa ua].
  unfold lockConsistent, flagged. intros (Hrule & Hflag & Hreg) Hstep.
  flagged_kind bus w ls la op Hstep Hrule.
Qed.

Lemma unlock_step_accounts (bus : Bus) (r : MatchRule)
    (dc : lock.dbusCon) (op : subOp) (dc' : lock.dbusCon) :
  unlockConsistent r dc -> unlockStep bus dc op = (None, dc') ->
  unlockConsistent r dc'
  /\ addCalls r (wire (lock.conn dc'))
     = (addCalls r (wire (lock.conn dc))
        + edge01 (lock.unlockSignals dc) (lock.unlockSignals dc'))%nat
  /\ removeCalls r (wire (lock.conn dc'))
     = (removeCalls r (wire (lock.conn dc))
        + edge10 (lock.unlockSignals dc) (lock.unlockSignals dc') + 0)%nat.
Proof.
  destruct dc as [[w] obj ch ls hs us la pa ua].
  unfold unlockConsistent, flagged. intros (Hrule & Hflag & Hreg) Hstep.
  flagged_kind bus w us ua op Hstep Hrule.
Qed.

Lemma locked_step_accounts (bus : Bus) (r : MatchRule)
    (dc : lock.dbusCon) (op : subOp) (dc' : lock.dbusCon) :
  lockedConsistent r dc -> lockedStep bus dc op = (None, dc') ->
  lockedConsistent r dc'
  /\ addCalls r (wire (lock.conn dc'))
     = (addCalls r (wire (lock.conn dc))
        + edge01 (lock.lockedHintSignals dc) (lock.lockedHintSignals dc'))%nat
  /\ removeCalls r (wire (lock.conn dc'))
     = (removeCalls r (wire (lock.conn dc))
        + edge10 (lock.lockedHintSignals dc) (lock.lockedHintSignals dc') + 0)%nat.
Proof.
  destruct dc as [[w] obj ch ls hs us la pa ua].
  unfold lockedConsistent, flagged. intros (Hrule & Hflag & Hreg) Hstep.
  flagged_kind bus w hs pa op Hstep Hrule.
Qed.

(** The two kinds of the inhibitor: the test is on the set alone. *)
Ltac unflagged_kind bus w subs op Hstep Hrule Hreg :=
  destruct op as [c|c]; inhibit_unfold; lock_fields;
  [ rewrite len_zero in Hstep;
    let Hbefore := fresh "Hbefore" in
    destruct (isEmpty subs) eqn:Hbefore; [accepted bus w|];
    settle Hstep Hrule
  | rewrite len_zero in Hstep;
    let Hafter := fresh "Hafter" in
    destruct (isEmpty (subs ∖ {[c]})) eqn:Hafter; lock_fields;
    [ accepted bus w;
      let Hbefore := fresh "Hbefore" in
      destruct (isEmpty subs) eqn:Hbefore; settle Hstep Hrule
    | pose proof (isEmpty_remove _ _ Hafter) as Hbefore;
      rewrite Hbefore in Hreg; settle Hstep Hrule ] ].

Lemma sleep_step_accounts (bus : Bus) (r : MatchRule)
    (i : inhibit.Inhibitor) (op : subOp) (i' : inhibit.Inhibitor) :
  sleepConsistent r i -> sleepStep bus i op = (None, i') ->
  sleepConsistent r i'
  /\ addCalls r (wire (inhibit.conn i'))
     = (addCalls r (wire (inhibit.conn i))
        + edge01 (inhibit.prepareForSleepSubs i) (inhibit.prepareForSleepSubs i'))%nat
  /\ removeCalls r (wire (inhibit.conn i'))
     = (removeCalls r (wire (inhibit.conn i))
        + edge10 (inhibit.prepareForSleepSubs i) (inhibit.prepareForSleepSubs i')
        + unsubscribeOnEmpty (inhibit.prepareForSleepSubs i) op)%nat.
Proof.
  destruct i as [[w] obj ch sl sh].
  unfold sleepConsistent. intros (Hrule & Hreg) Hstep. lock_fields.
  unflagged_kind bus w sl op Hstep Hrule Hreg.
Qed.

Lemma shutdown_step_accounts (bus : Bus) (r : MatchRule)
    (i : inhibit.Inhibitor) (op : subOp) (i' : inhibit.Inhibitor) :
  shutdownConsistent r i -> shutdownStep bus i op = (None, i') ->
  shutdownConsistent r i'
  /\ addCalls r (wire (inhibit.conn i'))
     = (addCalls r (wire (inhibit.conn i))
        + edge01 (inhibit.prepareForShutdownSubs i) (inhibit.prepareForShutdownSubs i'))%nat
  /\ removeCalls r (wire (inhibit.conn i'))
     = (removeCalls r (wire (inhibit.conn i))
        + edge10 (inhibit.prepareForShutdownSubs i) (inhibit.prepareForShutdownSubs i')
        + unsubscribeOnEmpty (inhibit.prepareForShutdownSubs i) op)%nat.
Proof.
  destruct i as [[w] obj ch sl sh].
  unfold shutdownConsistent. intros (Hrule & Hreg) Hstep. lock_fields.
  unflagged_kind bus w sh op Hstep Hrule Hreg.
Qed.

(** *** Sequences of successful operations *)

Lemma along_zero (before : gset chan) (ops : list subOp) (after : list (gset chan)) :
  along (fun _ _ => 0%nat) before ops after = 0%nat.
Proof.
  revert before after. induction ops as [|op ops IH]; intros before [|s after];
    cbn; auto.
Qed.

Lemma flagged_iff (r : MatchRule) (subs : gset chan) (active : bool)
    (w : list Exchange) :
  flagged r subs active w ->
  (active = true <-> subs <> ∅) /\ (registered r w = true <-> subs <> ∅).
Proof.
  intros [Hflag Hreg]. unfold registered. rewrite Hreg, Hflag, <- isEmpty_false.
  destruct (isEmpty subs); cbn; repeat split; congruence.
Qed.

(** A facility is consistent right after construction on a connection of
    its own. *)
Lemma NewDbusSessionLock_consistent (bus : Bus) (sessionId : string)
    (dc : lock.dbusCon) :
  lock.NewDbusSessionLock bus (inr (mkConn [])) sessionId = Returned (Some dc, None) ->
  lockConsistent (lock.lockRule dc) dc
  /\ unlockConsistent (lock.unlockRule dc) dc
  /\ lockedConsistent (lock.propertiesChangedRule dc) dc.
Proof.
  unfold lock.NewDbusSessionLock.
  destruct (String.eqb sessionId ""); [discriminate|].
  unfold send. cbn zeta. cbn [wire app].
  destruct (lock.storeSessions _) as [err|sessions]; [discriminate|].
  destruct (lock.findSession _ _ _ _) as [[err|[obj|]]|msg];
    cbn [mbind exec_bind Go.bind]; try discriminate.
  intros Hdc. injection Hdc as <-.
  unfold lockConsistent, unlockConsistent, lockedConsistent, flagged,
    registrations, matchStep.
  cbn. destruct (replyOk _); repeat split.
Qed.

Lemma New_consistent (i : inhibit.Inhibitor) :
  inhibit.New (inr (mkConn [])) = (Some i, None) ->
  sleepConsistent (inhibit.sleepRule i) i
  /\ shutdownConsistent (inhibit.shutdownRule i) i.
Proof. intros Hi. injection Hi as <-. split; split; reflexivity. Qed.

(** On the lock facility, along every sequence of successful
    [AddLockSignal] and [RemoveLockSignal] calls: the flag is set, and the
    rule registered with the bus, exactly when there are subscribers; an
    add-match is sent exactly on the 0-to-1 edges of the subscriber count
    and a remove-match exactly on its 1-to-0 edges. *)
Lemma lock_runs (bus : Bus) (r : MatchRule) (dc : lock.dbusCon)
    (ops : list subOp) (trace : list lock.dbusCon) :
  lockConsistent r dc -> runOps (lockStep bus) dc ops = Some trace ->
  let final := List.last trace dc in
  (lock.lockSignalActive final = true <-> lock.lockSignals final <> ∅)
  /\ (registered r (wire (lock.conn final)) = true <-> lock.lockSignals final <> ∅)
  /\ addCalls r (wire (lock.conn final))
     = (addCalls r (wire (lock.conn dc))
        + edges01 (lock.lockSignals dc) (map lock.lockSignals trace))%nat
  /\ removeCalls r (wire (lock.conn final))
     = (removeCalls r (wire (lock.conn dc))
        + edges10 (lock.lockSignals dc) (map lock.lockSignals trace))%nat.
Proof.
  intros Hdc Hrun final.
  destruct (run_accounts lock.lockSignals (fun dc => wire (lock.conn dc)) r
              (lockStep bus) (lockConsistent r) (fun _ _ => 0%nat)
              (lock_step_accounts bus r) ops dc trace Hdc Hrun)
    as ([_ Hfin] & Hadd & Hrem).
  rewrite along_zero in Hrem. apply flagged_iff in Hfin as [Hflag Hreg].
  subst final. split; [exact Hflag | split; [exact Hreg | split; lia]].
Qed.

Lemma unlock_runs (bus : Bus) (r : MatchRule) (dc : lock.dbusCon)
    (ops : list subOp) (trace : list lock.dbusCon) :
  unlockConsistent r dc -> runOps (unlockStep bus) dc ops = Some trace ->
  let final := List.last trace dc in
  (lock.unlockSignalActive final = true <-> lock.unlockSignals final <> ∅)
  /\ (registered r (wire (lock.conn final)) = true <-> lock.unlockSignals final <> ∅)
  /\ addCalls r (wire (lock.conn final))
     = (addCalls r (wire (lock.conn dc))
        + edges01 (lock.unlockSignals dc) (map lock.unlockSignals trace))%nat
  /\ removeCalls r (wire (lock.conn final))
     = (removeCalls r (wire (lock.conn dc))
        + edges10 (lock.unlockSignals dc) (map lock.unlockSignals trace))%nat.
Proof.
  intros Hdc Hrun final.
  destruct (run_accounts lock.unlockSignals (fun dc => wire (lock.conn dc)) r
              (unlockStep bus) (unlockConsistent r) (fun _ _ => 0%nat)
              (unlock_step_accounts bus r) ops dc trace Hdc Hrun)
    as ([_ Hfin] & Hadd & Hrem).
  rewrite along_zero in Hrem. apply flagged_iff in Hfin as [Hflag Hreg].
  subst final. split; [exact Hflag | split; [exact Hreg | split; lia]].
Qed.

Lemma locked_runs (bus : Bus) (r : MatchRule) (dc : lock.dbusCon)
    (ops : list subOp) (trace : list lock.dbusCon) :
  lockedConsistent r dc -> runOps (lockedStep bus) dc ops = Some trace ->
  let final := List.last trace dc in
  (lock.propertiesChangedActive final = true <-> lock.lockedHintSignals final <> ∅)
  /\ (registered r (wire (lock.conn final)) = true
      <-> lock.lockedHintSignals final <> ∅)
  /\ addCalls r (wire (lock.conn final))
     = (addCalls r (wire (lock.conn dc))
        + edges01 (lock.lockedHintSignals dc) (map lock.lockedHintSignals trace))%nat
  /\ removeCalls r (wire (lock.conn final))
     = (removeCalls r (wire (lock.conn dc))
        + edges10 (lock.lockedHintSignals dc) (map lock.lockedHintSignals trace))%nat.
Proof.
  intros Hdc Hrun final.
  destruct (run_accounts lock.lockedHintSignals (fun dc => wire (lock.conn dc)) r
              (lockedStep bus) (lockedConsistent r) (fun _ _ => 0%nat)
              (locked_step_accounts bus r) ops dc trace Hdc Hrun)
    as ([_ Hfin] & Hadd & Hrem).
  rewrite along_zero in Hrem. apply flagged_iff in Hfin as [Hflag Hreg].
  subst final. split; [exact Hflag | split; [exact Hreg | split; lia]].
Qed.

(** On the inhibitor, along every sequence of successful subscribe and
    unsubscribe calls: the rule is registered with the bus exactly when
    there are subscribers, and an add-match is sent exactly on the 0-to-1
    edges; a remove-match is sent on every 1-to-0 edge and, besides, on
    every unsubscribe that finds the set already empty. *)
Lemma sleep_runs (bus : Bus) (r : MatchRule) (i : inhibit.Inhibitor)
    (ops : list subOp) (trace : list inhibit.Inhibitor) :
  sleepConsistent r i -> runOps (sleepStep bus) i ops = Some trace ->
  let final := List.last trace i in
  (registered r (wire (inhibit.conn final)) = true
   <-> inhibit.prepareForSleepSubs final <> ∅)
  /\ addCalls r (wire (inhibit.conn final))
     = (addCalls r (wire (inhibit.conn i))
        + edges01 (inhibit.prepareForSleepSubs i)
            (map inhibit.prepareForSleepSubs trace))%nat
  /\ removeCalls r (wire (inhibit.conn final))
     = (removeCalls r (wire (inhibit.conn i))
        + edges10 (inhibit.prepareForSleepSubs i)
            (map inhibit.prepareForSleepSubs trace)
        + along unsubscribeOnEmpty (inhibit.prepareForSleepSubs i) ops
            (map inhibit.prepareForSleepSubs trace))%nat.
Proof.
  intros Hi Hrun final.
  destruct (run_accounts inhibit.prepareForSleepSubs
              (fun i => wire (inhibit.conn i)) r
              (sleepStep bus) (sleepConsistent r) unsubscribeOnEmpty
              (sleep_step_accounts bus r) ops i trace Hi Hrun)
    as ([_ Hfin] & Hadd & Hrem).
  split; [now apply registered_iff | split; assumption].
Qed.

Lemma shutdown_runs (bus : Bus) (r : MatchRule) (i : inhibit.Inhibitor)
    (ops : list subOp) (trace : list inhibit.Inhibitor) :
  shutdownConsistent r i -> runOps (shutdownStep bus) i ops = Some trace ->
  let final := List.last trace i in
  (registered r (wire (inhibit.conn final)) = true
   <-> inhibit.prepareForShutdownSubs final <> ∅)
  /\ addCalls r (wire (inhibit.conn final))
     = (addCalls r (wire (inhibit.conn i))
        + edges01 (inhibit.prepareForShutdownSubs i)
            (map inhibit.prepareForShutdownSubs trace))%nat
  /\ removeCalls r (wire (inhibit.conn final))
     = (removeCalls r (wire (inhibit.conn i))
        + edges10 (inhibit.prepareForShutdownSubs i)
            (map inhibit.prepareForShutdownSubs trace)
        + along unsubscribeOnEmpty (inhibit.prepareForShutdownSubs i) ops
            (map inhibit.prepareForShutdownSubs trace))%nat.
Proof.
  intros Hi Hrun final.
  destruct (run_accounts inhibit.prepareForShutdownSubs
              (fun i => wire (inhibit.conn i)) r
              (shutdownStep bus) (shutdownConsistent r) unsubscribeOnEmpty
              (shutdown_step_accounts bus r) ops i trace Hi Hrun)
    as ([_ Hfin] & Hadd & Hrem).
  split; [now apply registered_iff | split; assumption].
Qed.

(** ** Unsubscribing a channel that was never subscribed *)

Lemma remove_absent (c : chan) (subs : gset chan) : c ∉ subs -> subs ∖ {[c]} = subs.
Proof. set_solver. Qed.

(** The lock facility guards the remove-match with its flag: in a
    consistent state the call returns nil and changes nothing. *)
Lemma RemoveLockSignal_unregistered (bus : Bus) (r : MatchRule)
    (dc : lock.dbusCon) (c : chan) :
  lockConsistent r dc -> c ∉ lock.lockSignals dc ->
  lock.RemoveLockSignal bus dc (Some c) = (None, dc).
Proof.
  destruct dc as [[w] obj ch ls hs us la pa ua].
  unfold lockConsistent, flagged. intros (Hrule & Hflag & Hreg) Habsent.
  lock_unfold; lock_fields. rewrite (remove_absent c ls Habsent), len_zero.
  destruct (isEmpty ls) eqn:Hempty; [|reflexivity].
  rewrite Hflag. reflexivity.
Qed.

(** The inhibitor: the sets keep their members whatever the bus answers,
    and with other subscribers present nothing is sent and nil is
    returned. *)
Lemma UnsubscribePrepareForSleep_unregistered (bus : Bus)
    (i : inhibit.Inhibitor) (c : chan) :
  c ∉ inhibit.prepareForSleepSubs i ->
  let result := inhibit.UnsubscribePrepareForSleep bus i (Some c) in
  inhibit.prepareForSleepSubs (snd result) = inhibit.prepareForSleepSubs i
  /\ inhibit.prepareForShutdownSubs (snd result) = inhibit.prepareForShutdownSubs i
  /\ (inhibit.prepareForSleepSubs i <> ∅ -> result = (None, i)).
Proof.
  destruct i as [[w] obj ch sl sh]. lock_fields. intros Habsent.
  inhibit_unfold; lock_fields. rewrite (remove_absent c sl Habsent), len_zero.
  destruct (isEmpty sl) eqn:Hempty.
  - destruct (bus w _); repeat split; intros Hne;
      apply isEmpty_false in Hne; congruence.
  - repeat split.
Qed.

(** C6, at the failing input: on an inhibitor fresh from [New], with the
    bus daemon's treatment of match rules, [UnsubscribePrepareForSleep] of
    a channel that was never subscribed sends a remove-match for a rule
    that was never added and returns the daemon's error instead of nil.
    The lock facility, in the same situation, sends nothing and returns
    nil. *)
Theorem Unsubscribe_unregistered_returns_error :
  let result :=
    inhibit.UnsubscribePrepareForSleep daemon freshInhibitor (Some 1%positive) in
  (1%positive ∉ inhibit.prepareForSleepSubs freshInhibitor)
  /\ fst result
     = Some (wrapError "failed to remove Dbus PrepareForSleep signal: "
               (errorString "org.freedesktop.DBus.Error.MatchRuleNotFound"))
  /\ wire (inhibit.conn (snd result))
     = [(RemoveMatchSignal (inhibit.sleepRule freshInhibitor),
         inl (errorString "org.freedesktop.DBus.Error.MatchRuleNotFound"))]
  /\ lock.RemoveLockSignal (login1With daemon) freshLock (Some 1%positive)
     = (None, freshLock).
Proof.
  cbv zeta. split; [cbn; set_solver|]. split; [reflexivity|].
  split; [reflexivity|].
  apply (RemoveLockSignal_unregistered _ (lock.lockRule freshLock)).
  - repeat split.
  - cbn. set_solver.
Qed.

(** C1, at the failing input: on an inhibitor fresh from [New], over a
    transport that accepts and counts every request, the one-step sequence
    that unsubscribes a never-subscribed channel succeeds; the subscriber
    count stays at zero, so it has no 1-to-0 edge, and yet one
    remove-match has been sent. *)
Theorem Unsubscribe_on_empty_set_sends_remove_match :
  let rule := inhibit.sleepRule freshInhibitor in
  exists after,
    runOps (sleepStep acceptAll) freshInhibitor [Unsubscribe 1%positive]
    = Some [after]
    /\ inhibit.prepareForSleepSubs freshInhibitor = ∅
    /\ inhibit.prepareForSleepSubs after = ∅
    /\ edges10 (inhibit.prepareForSleepSubs freshInhibitor)
         [inhibit.prepareForSleepSubs after] = 0%nat
    /\ removeCalls rule (wire (inhibit.conn freshInhibitor)) = 0%nat
    /\ removeCalls rule (wire (inhibit.conn after)) = 1%nat.
Proof.
  cbv zeta. eexists. split; [reflexivity|].
  repeat split.
Qed.

(** * Further properties of the code *)

(** ** What each operation does to the subscriber sets *)

Lemma AddLockSignal_sets (bus : Bus) (dc : lock.dbusCon) (c : chan) :
  let dc' := snd (lock.AddLockSignal bus dc (Some c)) in
  lock.lockSignals dc' = {[c]} ∪ lock.lockSignals dc
  /\ lock.unlockSignals dc' = lock.unlockSignals dc
  /\ lock.lockedHintSignals dc' = lock.lockedHintSignals dc
  /\ lock.loginSessionObject dc' = lock.loginSessionObject dc.
Proof.
  destruct dc as [[w] obj ch ls hs us la pa ua]. lock_unfold; lock_fields.
  destruct la; lock_fields; [|destruct (bus w _)]; repeat split.
Qed.

Lemma AddUnlockSignal_sets (bus : Bus) (dc : lock.dbusCon) (c : chan) :
  let dc' := snd (lock.AddUnlockSignal bus dc (Some c)) in
  lock.lockSignals dc' = lock.lockSignals dc
  /\ lock.unlockSignals dc' = {[c]} ∪ lock.unlockSignals dc
  /\ lock.lockedHintSignals dc' = lock.lockedHintSignals dc
  /\ lock.loginSessionObject dc' = lock.loginSessionObject dc.
Proof.
  destruct dc as [[w] obj ch ls hs us la pa ua]. lock_unfold; lock_fields.
  destruct ua; lock_fields; [|destruct (bus w _)]; repeat split.
Qed.

Lemma AddLockedSignal_sets (bus : Bus) (dc : lock.dbusCon) (c : chan) :
  let dc' := snd (lock.AddLockedSignal bus dc (Some c)) in
  lock.lockSignals dc' = lock.lockSignals dc
  /\ lock.unlockSignals dc' = lock.unlockSignals dc
  /\ lock.lockedHintSignals dc' = {[c]} ∪ lock.lockedHintSignals dc
  /\ lock.loginSessionObject dc' = lock.loginSessionObject dc.
Proof.
  destruct dc as [[w] obj ch ls hs us la pa ua]. lock_unfold; lock_fields.
  destruct pa; lock_fields; [|destruct (bus w _)]; repeat split.
Qed.

Lemma RemoveLockSignal_sets (bus : Bus) (dc : lock.dbusCon) (c : chan) :
  let dc' := snd (lock.RemoveLockSignal bus dc (Some c)) in
  lock.lockSignals dc' = lock.lockSignals dc ∖ {[c]}
  /\ lock.unlockSignals dc' = lock.unlockSignals dc
  /\ lock.lockedHintSignals dc' = lock.lockedHintSignals dc
  /\ lock.loginSessionObject dc' = lock.loginSessionObject dc.
Proof.
  destruct dc as [[w] obj ch ls hs us la pa ua]. lock_unfold; lock_fields.
  destruct (bool_decide _); [|repeat split].
  destruct la; lock_fields; [destruct (bus w _)|]; repeat split.
Qed.

Lemma RemoveUnlockSignal_sets (bus : Bus) (dc : lock.dbusCon) (c : chan) :
  let dc' := snd (lock.RemoveUnlockSignal bus dc (Some c)) in
  lock.lockSignals dc' = lock.lockSignals dc
  /\ lock.unlockSignals dc' = lock.unlockSignals dc ∖ {[c]}
  /\ lock.lockedHintSignals dc' = lock.lockedHintSignals dc
  /\ lock.loginSessionObject dc' = lock.loginSessionObject dc.
Proof.
  destruct dc as [[w] obj ch ls hs us la pa ua]. lock_unfold; lock_fields.
  destruct (bool_decide _); [|repeat split].
  destruct ua; lock_fields; [destruct (bus w _)|]; repeat split.
Qed.

Lemma RemoveLockedSignal_sets (bus : Bus) (dc : lock.dbusCon) (c : chan) :
  let dc' := snd (lock.RemoveLockedSignal bus dc (Some c)) in
  lock.lockSignals dc' = lock.lockSignals dc
  /\ lock.unlockSignals dc' = lock.unlockSignals dc
  /\ lock.lockedHintSignals dc' = lock.lockedHintSignals dc ∖ {[c]}
  /\ lock.loginSessionObject dc' = lock.loginSessionObject dc.
Proof.
  destruct dc as [[w] obj ch ls hs us la pa ua]. lock_unfold; lock_fields.
  destruct (bool_decide _); [|repeat split].
  destruct pa; lock_fields; [destruct (bus w _)|]; repeat split.
Qed.

(** ** Dispatch of well-formed signals *)

Lemma dispatch_Lock (dc : lock.dbusCon) (obj : BusObject) (body : list Value) :
  lock.loginSessionObject dc = obj ->
  lock.handleIncomingSignal dc
    (Some (mkSignal "org.freedesktop.login1" (ObjPath obj)
             "org.freedesktop.login1.Session.Lock" body))
  = Returned (Some (mkFanout (lock.lockSignals dc) unitValue)).
Proof.
  intros <-. unfold lock.handleIncomingSignal. cbn [Path Name].
  rewrite String.eqb_refl. reflexivity.
Qed.

Lemma dispatch_Unlock (dc : lock.dbusCon) (obj : BusObject) (body : list Value) :
  lock.loginSessionObject dc = obj ->
  lock.handleIncomingSignal dc
    (Some (mkSignal "org.freedesktop.login1" (ObjPath obj)
             "org.freedesktop.login1.Session.Unlock" body))
  = Returned (Some (mkFanout (lock.unlockSignals dc) unitValue)).
Proof.
  intros <-. unfold lock.handleIncomingSignal. cbn [Path Name].
  rewrite String.eqb_refl. reflexivity.
Qed.

Lemma dispatch_LockedHint (dc : lock.dbusCon) (obj : BusObject)
    (isLocked : bool) (others : list (string * Value)) (invalidated : list Value) :
  lock.loginSessionObject dc = obj ->
  lock.handleIncomingSignal dc
    (Some (mkSignal "org.freedesktop.login1" (ObjPath obj)
             "org.freedesktop.DBus.Properties.PropertiesChanged"
             [VString "org.freedesktop.login1.Session";
              VDict (("LockedHint", VBool isLocked) :: others);
              VArray invalidated]))
  = Returned (Some (mkFanout (lock.lockedHintSignals dc) (boolValue isLocked))).
Proof.
  intros <-. unfold lock.handleIncomingSignal. cbn [Path Name].
  rewrite String.eqb_refl. reflexivity.
Qed.

(** X1. On the lock facility a signal is offered to exactly the channels
    subscribed to its kind at that moment. After [Add...Signal(c)],
    whatever it returned, the matching signal goes to the former
    subscribers and [c]; after [Remove...Signal(c)], whatever it returned,
    to the former subscribers without [c]. A [LockedHint] change carries
    its boolean; [Lock] and [Unlock] carry the empty struct. *)
Theorem lock_dispatch_follows_subscriptions
    (bus : Bus) (dc : lock.dbusCon) (c : chan) (body : list Value)
    (isLocked : bool) (others : list (string * Value)) (invalidated : list Value) :
  lock.handleIncomingSignal (snd (lock.AddLockSignal bus dc (Some c)))
    (Some (lockSignal dc body))
  = Returned (Some (mkFanout ({[c]} ∪ lock.lockSignals dc) unitValue))
  /\ lock.handleIncomingSignal (snd (lock.RemoveLockSignal bus dc (Some c)))
       (Some (lockSignal dc body))
     = Returned (Some (mkFanout (lock.lockSignals dc ∖ {[c]}) unitValue))
  /\ lock.handleIncomingSignal (snd (lock.AddUnlockSignal bus dc (Some c)))
       (Some (unlockSignal dc body))
     = Returned (Some (mkFanout ({[c]} ∪ lock.unlockSignals dc) unitValue))
  /\ lock.handleIncomingSignal (snd (lock.RemoveUnlockSignal bus dc (Some c)))
       (Some (unlockSignal dc body))
     = Returned (Some (mkFanout (lock.unlockSignals dc ∖ {[c]}) unitValue))
  /\ lock.handleIncomingSignal (snd (lock.AddLockedSignal bus dc (Some c)))
       (Some (lockedHintChanged dc isLocked others invalidated))
     = Returned (Some (mkFanout ({[c]} ∪ lock.lockedHintSignals dc)
                         (boolValue isLocked)))
  /\ lock.handleIncomingSignal (snd (lock.RemoveLockedSignal bus dc (Some c)))
       (Some (lockedHintChanged dc isLocked others invalidated))
     = Returned (Some (mkFanout (lock.lockedHintSignals dc ∖ {[c]})
                         (boolValue isLocked))).
Proof.
  destruct (AddLockSignal_sets bus dc c) as (Ha1 & _ & _ & Ha4).
  destruct (RemoveLockSignal_sets bus dc c) as (Hr1 & _ & _ & Hr4).
  destruct (AddUnlockSignal_sets bus dc c) as (_ & Hb2 & _ & Hb4).
  destruct (RemoveUnlockSignal_sets bus dc c) as (_ & Hs2 & _ & Hs4).
  destruct (AddLockedSignal_sets bus dc c) as (_ & _ & Hc3 & Hc4).
  destruct (RemoveLockedSignal_sets bus dc c) as (_ & _ & Ht3 & Ht4).
  unfold lockSignal, unlockSignal, lockedHintChanged.
  rewrite (dispatch_Lock _ _ body Ha4), (dispatch_Lock _ _ body Hr4),
    (dispatch_Unlock _ _ body Hb4), (dispatch_Unlock _ _ body Hs4),
    (dispatch_LockedHint _ _ isLocked others invalidated Hc4),
    (dispatch_LockedHint _ _ isLocked others invalidated Ht4).
  rewrite Ha1, Hr1, Hb2, Hs2, Hc3, Ht3. repeat split.
Qed.

Lemma SubscribePrepareForSleep_sets (bus : Bus) (i : inhibit.Inhibitor) (c : chan) :
  let r := inhibit.SubscribePrepareForSleep bus i (Some c) in
  inhibit.prepareForSleepSubs (snd r)
  = match fst r with
    | Some _ => inhibit.prepareForSleepSubs i
    | None => {[c]} ∪ inhibit.prepareForSleepSubs i
    end
  /\ inhibit.prepareForShutdownSubs (snd r) = inhibit.prepareForShutdownSubs i
  /\ inhibit.login1 (snd r) = inhibit.login1 i.
Proof.
  destruct i as [[w] obj ch sl sh]. inhibit_unfold; lock_fields.
  destruct (bool_decide _); [destruct (bus w _)|]; repeat split.
Qed.

Lemma SubscribePrepareForShutdown_sets (bus : Bus) (i : inhibit.Inhibitor) (c : chan) :
  let r := inhibit.SubscribePrepareForShutdown bus i (Some c) in
  inhibit.prepareForShutdownSubs (snd r)
  = match fst r with
    | Some _ => inhibit.prepareForShutdownSubs i
    | None => {[c]} ∪ inhibit.prepareForShutdownSubs i
    end
  /\ inhibit.prepareForSleepSubs (snd r) = inhibit.prepareForSleepSubs i
  /\ inhibit.login1 (snd r) = inhibit.login1 i.
Proof.
  destruct i as [[w] obj ch sl sh]. inhibit_unfold; lock_fields.
  destruct (bool_decide _); [destruct (bus w _)|]; repeat split.
Qed.

Lemma UnsubscribePrepareForSleep_sets (bus : Bus) (i : inhibit.Inhibitor) (c : chan) :
  let r := inhibit.UnsubscribePrepareForSleep bus i (Some c) in
  inhibit.prepareForSleepSubs (snd r) = inhibit.prepareForSleepSubs i ∖ {[c]}
  /\ inhibit.prepareForShutdownSubs (snd r) = inhibit.prepareForShutdownSubs i
  /\ inhibit.login1 (snd r) = inhibit.login1 i.
Proof.
  destruct i as [[w] obj ch sl sh]. inhibit_unfold; lock_fields.
  destruct (bool_decide _); [destruct (bus w _)|]; repeat split.
Qed.

Lemma UnsubscribePrepareForShutdown_sets (bus : Bus) (i : inhibit.Inhibitor) (c : chan) :
  let r := inhibit.UnsubscribePrepareForShutdown bus i (Some c) in
  inhibit.prepareForShutdownSubs (snd r) = inhibit.prepareForShutdownSubs i ∖ {[c]}
  /\ inhibit.prepareForSleepSubs (snd r) = inhibit.prepareForSleepSubs i
  /\ inhibit.login1 (snd r) = inhibit.login1 i.
Proof.
  destruct i as [[w] obj ch sl sh]. inhibit_unfold; lock_fields.
  destruct (bool_decide _); [destruct (bus w _)|]; repeat split.
Qed.

Lemma dispatch_PrepareForSleep (i : inhibit.Inhibitor) (obj : BusObject)
    (change : bool) (rest : list Value) :
  inhibit.login1 i = obj ->
  inhibit.handleIncomingSignal i
    (Some (mkSignal "org.freedesktop.login1" (ObjPath obj)
             "org.freedesktop.login1.Manager.PrepareForSleep"
             (VBool change :: rest)))
  = Returned (Some (mkFanout (inhibit.prepareForSleepSubs i) (boolValue change))).
Proof.
  intros <-. unfold inhibit.handleIncomingSignal. cbn [Path Name].
  rewrite String.eqb_refl. reflexivity.
Qed.

Lemma dispatch_PrepareForShutdown (i : inhibit.Inhibitor) (obj : BusObject)
    (change : bool) (rest : list Value) :
  inhibit.login1 i = obj ->
  inhibit.handleIncomingSignal i
    (Some (mkSignal "org.freedesktop.login1" (ObjPath obj)
             "org.freedesktop.login1.Manager.PrepareForShutdown"
             (VBool change :: rest)))
  = Returned (Some (mkFanout (inhibit.prepareForShutdownSubs i) (boolValue change))).
Proof.
  intros <-. unfold inhibit.handleIncomingSignal. cbn [Path Name].
  rewrite String.eqb_refl. reflexivity.
Qed.

(** X2. On the inhibitor a [PrepareForSleep] signal carries its boolean to
    exactly the channels subscribed to it at that moment, and likewise
    [PrepareForShutdown]: after a subscribe of [c] that returned nil, to
    the former subscribers and [c]; after an unsubscribe of [c], whatever
    it returned, to the former subscribers without [c]. Subscribers of
    the other kind are never among the targets. *)
Theorem inhibit_dispatch_follows_subscriptions
    (bus : Bus) (i : inhibit.Inhibitor) (c : chan) (change : bool)
    (rest : list Value) :
  fst (inhibit.SubscribePrepareForSleep bus i (Some c)) = None ->
  fst (inhibit.SubscribePrepareForShutdown bus i (Some c)) = None ->
  inhibit.handleIncomingSignal
    (snd (inhibit.SubscribePrepareForSleep bus i (Some c)))
    (Some (prepareForSleep i change rest))
  = Returned (Some (mkFanout ({[c]} ∪ inhibit.prepareForSleepSubs i)
                      (boolValue change)))
  /\ inhibit.handleIncomingSignal
       (snd (inhibit.UnsubscribePrepareForSleep bus i (Some c)))
       (Some (prepareForSleep i change rest))
     = Returned (Some (mkFanout (inhibit.prepareForSleepSubs i ∖ {[c]})
                         (boolValue change)))
  /\ inhibit.handleIncomingSignal
       (snd (inhibit.SubscribePrepareForShutdown bus i (Some c)))
       (Some (prepareForShutdown i change rest))
     = Returned (Some (mkFanout ({[c]} ∪ inhibit.prepareForShutdownSubs i)
                         (boolValue change)))
  /\ inhibit.handleIncomingSignal
       (snd (inhibit.UnsubscribePrepareForShutdown bus i (Some c)))
       (Some (prepareForShutdown i change rest))
     = Returned (Some (mkFanout (inhibit.prepareForShutdownSubs i ∖ {[c]})
                         (boolValue change)))
  /\ inhibit.handleIncomingSignal
       (snd (inhibit.SubscribePrepareForSleep bus i (Some c)))
       (Some (prepareForShutdown i change rest))
     = Returned (Some (mkFanout (inhibit.prepareForShutdownSubs i)
                         (boolValue change))).
Proof.
  intros Hsleep Hshutdown.
  destruct (SubscribePrepareForSleep_sets bus i c) as (Ha1 & Ha2 & Ha3).
  destruct (UnsubscribePrepareForSleep_sets bus i c) as (Hb1 & _ & Hb3).
  destruct (SubscribePrepareForShutdown_sets bus i c) as (Hc1 & _ & Hc3).
  destruct (UnsubscribePrepareForShutdown_sets bus i c) as (Hd1 & _ & Hd3).
  rewrite Hsleep in Ha1. rewrite Hshutdown in Hc1.
  unfold prepareForSleep, prepareForShutdown.
  rewrite (dispatch_PrepareForSleep _ _ change rest Ha3),
    (dispatch_PrepareForSleep _ _ change rest Hb3),
    (dispatch_PrepareForShutdown _ _ change rest Hc3),
    (dispatch_PrepareForShutdown _ _ change rest Hd3),
    (dispatch_PrepareForShutdown _ _ change rest Ha3).
  rewrite Ha1, Hb1, Hc1, Hd1, Ha2. repeat split.
Qed.

Lemma inhibit_dispatch_follows_subscriptions_witness :
  inhibit.handleIncomingSignal
    (snd (inhibit.SubscribePrepareForSleep daemon freshInhibitor (Some 3%positive)))
    (Some (prepareForSleep freshInhibitor true []))
  = Returned (Some (mkFanout ({[3%positive]} ∪ ∅) (boolValue true))).
Proof.
  refine (proj1 (inhibit_dispatch_follows_subscriptions daemon freshInhibitor
                   3%positive true [] _ _)); reflexivity.
Defined.

(** ** Signals the dispatch leaves alone *)

(** X3. Both dispatches return without offering anything, and without
    looking at the body, for the nil signal, for a signal from another
    object path and for a signal name they have no case for; the lock
    dispatch also for a [PropertiesChanged] whose map has no [LockedHint]
    entry. A malformed body cannot make them panic in these cases. *)
Theorem dispatch_ignores_foreign_signals
    (dc : lock.dbusCon) (i : inhibit.Inhibitor) (s : Signal)
    (b0 : Value) (changed : list (string * Value)) (rest : list Value) :
  lock.handleIncomingSignal dc None = Returned None
  /\ inhibit.handleIncomingSignal i None = Returned None
  /\ (Path s <> ObjPath (lock.loginSessionObject dc) \/ lockHandles (Name s) = false ->
      lock.handleIncomingSignal dc (Some s) = Returned None)
  /\ (Path s <> ObjPath (inhibit.login1 i) \/ isPrepareSignal (Name s) = false ->
      inhibit.handleIncomingSignal i (Some s) = Returned None)
  /\ (lookup "LockedHint" changed = None ->
      lock.handleIncomingSignal dc
        (Some (mkSignal (Sender s) (ObjPath (lock.loginSessionObject dc))
                 "org.freedesktop.DBus.Properties.PropertiesChanged"
                 (b0 :: VDict changed :: rest)))
      = Returned None).
Proof.
  split; [reflexivity|]. split; [reflexivity|]. repeat split.
  - intros [Hpath | Hname]; unfold lock.handleIncomingSignal.
    + apply String.eqb_neq in Hpath. rewrite Hpath. reflexivity.
    + destruct (negb _); [reflexivity|]. unfold lockHandles in Hname.
      apply orb_false_iff in Hname as [Hname Hpc].
      apply orb_false_iff in Hname as [Hlock Hunlock].
      rewrite Hlock, Hunlock, Hpc. reflexivity.
  - intros [Hpath | Hname]; unfold inhibit.handleIncomingSignal.
    + apply String.eqb_neq in Hpath. rewrite Hpath. reflexivity.
    + destruct (negb _); [reflexivity|]. unfold isPrepareSignal in Hname.
      apply orb_false_iff in Hname as [Hsleep Hshutdown].
      rewrite Hsleep, Hshutdown. reflexivity.
  - intros Habsent. unfold lock.handleIncomingSignal. cbn [Path Name].
    rewrite String.eqb_refl. cbn. rewrite Habsent. reflexivity.
Qed.

Lemma dispatch_ignores_foreign_signals_witness :
  lock.handleIncomingSignal freshLock
    (Some (mkSignal "org.freedesktop.login1" "/org/freedesktop/login1/session/_32"
             "org.freedesktop.DBus.Properties.PropertiesChanged" []))
  = Returned None.
Proof.
  refine (proj1 (proj2 (proj2 (dispatch_ignores_foreign_signals freshLock
            freshInhibitor _ (VBool true) [] []))) _).
  left. discriminate.
Defined.

(** ** Subscribing twice *)

Lemma insert_twice (c : chan) (subs : gset chan) : {[c]} ∪ ({[c]} ∪ subs) = {[c]} ∪ subs.
Proof. set_solver. Qed.

(** X4. Subscribing a channel that is already subscribed changes nothing:
    once an [Add...Signal(c)] or a [SubscribePrepareFor...(c)] has
    returned nil, the same call again returns nil, sends nothing to the
    bus and leaves the facility exactly as it was. *)
Theorem subscribing_twice_is_a_no_op
    (bus bus' : Bus) (dc : lock.dbusCon) (i : inhibit.Inhibitor) (c : chan) :
  (fst (lock.AddLockSignal bus dc (Some c)) = None ->
   lock.AddLockSignal bus' (snd (lock.AddLockSignal bus dc (Some c))) (Some c)
   = (None, snd (lock.AddLockSignal bus dc (Some c))))
  /\ (fst (lock.AddUnlockSignal bus dc (Some c)) = None ->
      lock.AddUnlockSignal bus' (snd (lock.AddUnlockSignal bus dc (Some c))) (Some c)
      = (None, snd (lock.AddUnlockSignal bus dc (Some c))))
  /\ (fst (lock.AddLockedSignal bus dc (Some c)) = None ->
      lock.AddLockedSignal bus' (snd (lock.AddLockedSignal bus dc (Some c))) (Some c)
      = (None, snd (lock.AddLockedSignal bus dc (Some c))))
  /\ (fst (inhibit.SubscribePrepareForSleep bus i (Some c)) = None ->
      inhibit.SubscribePrepareForSleep bus'
        (snd (inhibit.SubscribePrepareForSleep bus i (Some c))) (Some c)
      = (None, snd (inhibit.SubscribePrepareForSleep bus i (Some c))))
  /\ (fst (inhibit.SubscribePrepareForShutdown bus i (Some c)) = None ->
      inhibit.SubscribePrepareForShutdown bus'
        (snd (inhibit.SubscribePrepareForShutdown bus i (Some c))) (Some c)
      = (None, snd (inhibit.SubscribePrepareForShutdown bus i (Some c)))).
Proof.
  destruct dc as [[w] obj ch ls hs us la pa ua]. destruct i as [[w'] obj' ch' sl sh].
  repeat split; lock_unfold; inhibit_unfold; lock_fields.
  - destruct la; lock_fields; [|destruct (bus w _); [discriminate|]];
      intros _; lock_fields; now rewrite insert_twice.
  - destruct ua; lock_fields; [|destruct (bus w _); [discriminate|]];
      intros _; lock_fields; now rewrite insert_twice.
  - destruct pa; lock_fields; [|destruct (bus w _); [discriminate|]];
      intros _; lock_fields; now rewrite insert_twice.
  - rewrite !len_zero.
    destruct (isEmpty sl); [destruct (bus w' _); [discriminate|]|];
      intros _; lock_fields; rewrite ?len_zero, isEmpty_insert, insert_twice;
      reflexivity.
  - rewrite !len_zero.
    destruct (isEmpty sh); [destruct (bus w' _); [discriminate|]|];
      intros _; lock_fields; rewrite ?len_zero, isEmpty_insert, insert_twice;
      reflexivity.
Qed.

Lemma subscribing_twice_is_a_no_op_witness :
  lock.AddLockSignal refuseAll
    (snd (lock.AddLockSignal (login1With daemon) freshLock (Some 2%positive)))
    (Some 2%positive)
  = (None, snd (lock.AddLockSignal (login1With daemon) freshLock (Some 2%positive))).
Proof.
  refine (proj1 (subscribing_twice_is_a_no_op (login1With daemon) refuseAll
                   freshLock freshInhibitor 2%positive) _).
  reflexivity.
Defined.

(** ** A refused remove-match *)

(** X5. When the last subscriber of the [Lock] signal is removed and the
    bus refuses the remove-match, [RemoveLockSignal] returns the wrapped
    error but the channel is gone all the same (the removal is not rolled
    back), and the flag stays set: the next [RemoveLockSignal], of any
    channel, sends the remove-match again. *)
Theorem RemoveLockSignal_refused_is_retried
    (bus bus' : Bus) (dc : lock.dbusCon) (c d : chan) (err : error) :
  lock.lockSignalActive dc = true ->
  lock.lockSignals dc ∖ {[c]} = ∅ ->
  bus (wire (lock.conn dc)) (RemoveMatchSignal (lock.lockRule dc)) = inl err ->
  let r := lock.RemoveLockSignal bus dc (Some c) in
  let again := lock.RemoveLockSignal bus' (snd r) (Some d) in
  fst r = Some (wrapError "failed to remove Dbus Lock signal: " err)
  /\ lock.lockSignals (snd r) = ∅
  /\ lock.lockSignalActive (snd r) = true
  /\ wire (lock.conn (snd again))
     = (wire (lock.conn (snd r))
        ++ [(RemoveMatchSignal (lock.lockRule dc),
             bus' (wire (lock.conn (snd r))) (RemoveMatchSignal (lock.lockRule dc)))])%list
  /\ lock.lockSignalActive (snd again)
     = negb (replyOk (bus' (wire (lock.conn (snd r)))
                        (RemoveMatchSignal (lock.lockRule dc)))).
Proof.
  destruct dc as [[w] obj ch ls hs us la pa ua]. lock_fields.
  intros -> Hlast Hrefused. lock_unfold; lock_fields.
  rewrite Hlast, size_empty. cbn [bool_decide decide_rel]. 
  rewrite bool_decide_eq_true_2 by reflexivity. rewrite Hrefused. lock_fields.
  replace (∅ ∖ {[d]} : gset chan) with (∅ : gset chan) by set_solver.
  rewrite size_empty, bool_decide_eq_true_2 by reflexivity.
  destruct (bus' _ _); repeat split.
Qed.

Lemma RemoveLockSignal_refused_is_retried_witness :
  let dc := snd (lock.AddLockSignal acceptAll freshLock (Some 1%positive)) in
  fst (lock.RemoveLockSignal refuseAll dc (Some 1%positive))
  = Some (wrapError "failed to remove Dbus Lock signal: " (errorString "refused")).
Proof.
  cbv zeta.
  refine (proj1 (RemoveLockSignal_refused_is_retried refuseAll acceptAll
            (snd (lock.AddLockSignal acceptAll freshLock (Some 1%positive)))
            1%positive 5%positive (errorString "refused") _ _ _)).
  - reflexivity.
  - cbn. set_solver.
  - reflexivity.
Defined.

(** ** What Close of the lock facility sends *)

(** X6. [Close] of the lock facility sends a remove-match for each kind
    whose match is active, in the order Lock, Unlock, PropertiesChanged,
    and nothing else; it sends all of them whatever the bus answers to
    the earlier ones. It returns nil when the bus accepts them all and
    the close channel is open. *)
Theorem lock_Close_removes_active_matches (bus : Bus) (dc : lock.dbusCon) :
  map fst (wire (lock.conn (snd (lock.Close bus dc))))
  = (map fst (wire (lock.conn dc)) ++ closeRequests dc)%list
  /\ ((forall w rq, replyOk (bus w rq) = true) ->
      lock.closeSignalHandler dc = chanOpen ->
      fst (lock.Close bus dc) = Returned None
      /\ closeRequests (snd (lock.Close bus dc)) = []).
Proof.
  destruct dc as [[w] obj ch ls hs us la pa ua].
  unfold lock.Close, closeRequests, lock.removeLockSignal, lock.removeUnlockSignal,
    lock.removePropertiesChangedSignal, sendMatch, send. cbn.
  split.
  - destruct la; cbn; [destruct (bus _ _); cbn|];
      (destruct ua; cbn; [destruct (bus _ _); cbn|]);
      (destruct pa; cbn; [destruct (bus _ _); cbn|]);
      destruct ch; cbn; rewrite ?map_app, <- ?app_assoc, ?app_nil_r; reflexivity.
  - intros Hok Hopen. cbn in Hopen. subst ch.
    destruct la; cbn;
      [match goal with |- context [bus ?w ?rq] =>
         pose proof (Hok w rq); destruct (bus w rq); [discriminate|] end; cbn|];
      (destruct ua; cbn;
       [match goal with |- context [bus ?w ?rq] =>
          pose proof (Hok w rq); destruct (bus w rq); [discriminate|] end; cbn|]);
      (destruct pa; cbn;
       [match goal with |- context [bus ?w ?rq] =>
          pose proof (Hok w rq); destruct (bus w rq); [discriminate|] end; cbn|]);
      split; reflexivity.
Qed.

Lemma lock_Close_removes_active_matches_witness :
  fst (lock.Close acceptAll
         (snd (lock.AddLockedSignal acceptAll freshLock (Some 1%positive))))
  = Returned None.
Proof.
  refine (proj1 (proj2 (lock_Close_removes_active_matches acceptAll
            (snd (lock.AddLockedSignal acceptAll freshLock (Some 1%positive))))
            _ _)); reflexivity.
Defined.

(** ** The session lookup of the constructor *)

Lemma findSession_skip (sessionId : string) (before rest : list Value)
    (i : nat) (obj : option BusObject) :
  forallb (otherSession sessionId) before = true ->
  lock.findSession sessionId i (before ++ rest) obj
  = lock.findSession sessionId (i + length before) rest obj.
Proof.
  revert i. induction before as [|v before IH]; intros i Hall.
  - cbn. now rewrite Nat.add_0_r.
  - cbn [forallb] in Hall. apply andb_prop in Hall as [Hv Hall].
    destruct v as [| | | | |elems|]; try discriminate.
    destruct elems as [|[|id| | | | |] elems]; try discriminate.
    revert Hv. unfold otherSession.
    destruct elems as [|[] [|[] [|[] [|[] [|]]]]]; try discriminate.
    intros Hv. apply negb_true_iff in Hv.
    cbn [app lock.findSession index nth_error mbind exec_bind Go.bind].
    rewrite Hv, (IH (S i) Hall). cbn [length]. f_equal. lia.
Qed.

Lemma NewDbusSessionLock_listed (bus : Bus) (conn : Conn)
    (sessionId : string) (sessions : list Value) :
  sessionId <> "" ->
  bus (wire conn)
    (Call "org.freedesktop.login1" "/org/freedesktop/login1"
       "org.freedesktop.login1.Manager.ListSessions" 0 [])
  = inr [VArray sessions] ->
  lock.NewDbusSessionLock bus (inr conn) sessionId
  = (found ← lock.findSession sessionId 0 sessions
               (Some (Object "org.freedesktop.login1" "/org/freedesktop/login1"));
     match found with
     | inl err => Returned (None, Some err)
     | inr None =>
         Returned (None, Some (errorString "failed to find session object"))
     | inr (Some obj) =>
         Returned
           (Some (lock.mkDbusCon
                    (mkConn (wire conn
                             ++ [(Call "org.freedesktop.login1" "/org/freedesktop/login1"
                                    "org.freedesktop.login1.Manager.ListSessions" 0 [],
                                  inr [VArray sessions])]))
                    obj chanOpen ∅ ∅ ∅ false false false),
            None)
     end).
Proof.
  intros Hid Hreply. unfold lock.NewDbusSessionLock.
  apply String.eqb_neq in Hid. rewrite Hid.
  unfold send. cbn zeta. rewrite Hreply. reflexivity.
Qed.

(** X7. When the reply of [ListSessions] lists the session, after any
    number of well-formed other sessions, [NewDbusSessionLock] returns a
    facility bound to the object path of the first entry with that id,
    with no subscribers, no active match and an open close channel; the
    entries after it are not inspected, whatever they are. *)
Theorem NewDbusSessionLock_binds_first_match
    (bus : Bus) (conn : Conn) (sessionId path : string)
    (before after more : list Value) (uid user seat : Value) :
  sessionId <> "" ->
  forallb (otherSession sessionId) before = true ->
  bus (wire conn)
    (Call "org.freedesktop.login1" "/org/freedesktop/login1"
       "org.freedesktop.login1.Manager.ListSessions" 0 [])
  = inr [VArray (before
                 ++ VArray (VString sessionId :: uid :: user :: seat
                            :: VObjectPath path :: more)
                 :: after)] ->
  exists dc,
    lock.NewDbusSessionLock bus (inr conn) sessionId = Returned (Some dc, None)
    /\ lock.loginSessionObject dc = Object "org.freedesktop.login1" path
    /\ lock.lockSignals dc = ∅ /\ lock.unlockSignals dc = ∅
    /\ lock.lockedHintSignals dc = ∅
    /\ closeRequests dc = []
    /\ lock.closeSignalHandler dc = chanOpen.
Proof.
  intros Hid Hbefore Hreply.
  rewrite (NewDbusSessionLock_listed bus conn sessionId _ Hid Hreply).
  rewrite findSession_skip by exact Hbefore.
  cbn [lock.findSession index nth_error mbind exec_bind Go.bind].
  rewrite String.eqb_refl. cbn [mbind exec_bind Go.bind].
  eexists. repeat split.
Qed.

Lemma NewDbusSessionLock_binds_first_match_witness :
  exists dc,
    lock.NewDbusSessionLock (login1With daemon) (inr (mkConn [])) "1"
    = Returned (Some dc, None)
    /\ lock.loginSessionObject dc
       = Object "org.freedesktop.login1" "/org/freedesktop/login1/session/_31".
Proof.
  destruct (NewDbusSessionLock_binds_first_match (login1With daemon) (mkConn [])
              "1" "/org/freedesktop/login1/session/_31" [] [] []
              (VUint32 1000) (VString "user") (VString "seat0"))
    as (dc & Hret & Hobj & _); [discriminate | reflexivity | reflexivity |].
  exists dc. split; assumption.
Defined.

(** X8. When the first entry of the reply that is not a well-formed other
    session has the wrong type where the loop looks at it (it is not an
    array, its first field is not a string, or it has the requested id
    and its fifth field is not an object path), [NewDbusSessionLock]
    returns a nil Lock and an error that names the index of that
    entry. *)
Theorem NewDbusSessionLock_rejects_wrong_types
    (bus : Bus) (conn : Conn) (sessionId : string)
    (before after : list Value) (v : Value) (what : string) :
  sessionId <> "" ->
  forallb (otherSession sessionId) before = true ->
  wrongType sessionId v = Some what ->
  bus (wire conn)
    (Call "org.freedesktop.login1" "/org/freedesktop/login1"
       "org.freedesktop.login1.Manager.ListSessions" 0 [])
  = inr [VArray (before ++ v :: after)] ->
  lock.NewDbusSessionLock bus (inr conn) sessionId
  = Returned (None,
              Some (errorString ("session " +:+ pretty (length before) +:+ what))).
Proof.
  intros Hid Hbefore Hwrong Hreply.
  rewrite (NewDbusSessionLock_listed bus conn sessionId _ Hid Hreply).
  rewrite findSession_skip by exact Hbefore. cbn [Nat.add].
  destruct v as [| | | | |elems|]; cbn in Hwrong;
    try (injection Hwrong as <-; reflexivity).
  destruct elems as [|x elems]; [discriminate|].
  destruct x as [|id| | | | |]; try (injection Hwrong as <-; reflexivity).
  cbn [lock.findSession index nth_error mbind exec_bind Go.bind].
  destruct (String.eqb id sessionId); [|discriminate].
  destruct elems as [|a [|b [|c [|d rest]]]]; try discriminate.
  cbn [index nth_error mbind exec_bind Go.bind].
  destruct d; try discriminate; injection Hwrong as <-; reflexivity.
Qed.

Lemma NewDbusSessionLock_rejects_wrong_types_witness :
  lock.NewDbusSessionLock
    (fun _ _ => inr [VArray [session1; VArray [VUint32 7]]]) (inr (mkConn [])) "7"
  = Returned (None, Some (errorString "session 1[0] is not a string")).
Proof.
  refine (NewDbusSessionLock_rejects_wrong_types
            (fun _ _ => inr [VArray [session1; VArray [VUint32 7]]]) (mkConn [])
            "7" [session1] [] (VArray [VUint32 7]) "[0] is not a string" _ _ _ _);
    [discriminate | reflexivity | reflexivity | reflexivity].
Defined.

(** X9. When the first entry of the reply that is not a well-formed other
    session lacks a field the loop reads (it is the empty array, or it
    has the requested id and fewer than five fields),
    [NewDbusSessionLock] panics on the index expression instead of
    returning an error. *)
Theorem NewDbusSessionLock_panics_on_short_entries
    (bus : Bus) (conn : Conn) (sessionId : string)
    (before after : list Value) (v : Value) (k n : nat) :
  sessionId <> "" ->
  forallb (otherSession sessionId) before = true ->
  tooShort sessionId v = Some (k, n) ->
  bus (wire conn)
    (Call "org.freedesktop.login1" "/org/freedesktop/login1"
       "org.freedesktop.login1.Manager.ListSessions" 0 [])
  = inr [VArray (before ++ v :: after)] ->
  lock.NewDbusSessionLock bus (inr conn) sessionId
  = Panicked ("runtime error: index out of range [" +:+ pretty k
              +:+ "] with length " +:+ pretty n).
Proof.
  intros Hid Hbefore Hshort Hreply.
  rewrite (NewDbusSessionLock_listed bus conn sessionId _ Hid Hreply).
  rewrite findSession_skip by exact Hbefore. cbn [Nat.add].
  destruct v as [| | | | |elems|]; try discriminate.
  destruct elems as [|x elems]; [injection Hshort as <- <-; reflexivity|].
  destruct x as [|id| | | | |]; try discriminate. cbn in Hshort.
  cbn [lock.findSession index nth_error mbind exec_bind Go.bind].
  destruct (String.eqb id sessionId); [|discriminate]. cbn [andb] in Hshort.
  destruct elems as [|a [|b [|c [|d rest]]]]; cbn in Hshort;
    try discriminate; injection Hshort as <- <-; reflexivity.
Qed.

Lemma NewDbusSessionLock_panics_on_short_entries_witness :
  lock.NewDbusSessionLock
    (fun _ _ => inr [VArray [VArray [VString "7"; VUint32 1000]]])
    (inr (mkConn [])) "7"
  = Panicked "runtime error: index out of range [4] with length 2".
Proof.
  refine (NewDbusSessionLock_panics_on_short_entries
            (fun _ _ => inr [VArray [VArray [VString "7"; VUint32 1000]]])
            (mkConn []) "7" [] [] (VArray [VString "7"; VUint32 1000]) 4 2 _ _ _ _);
    [discriminate | reflexivity | reflexivity | reflexivity].
Defined.

(** ** Reading and writing the locked hint *)

(** X10. [GetLocked] sends one [Properties.Get] for [LockedHint] of the
    session interface to the session object and returns the boolean [b]
    with a nil error exactly when the reply is the single boolean [b];
    with any other reply it returns false and an error, and it never
    panics. [SetLocked] sends one [SetLockedHint] with its argument to
    the same object and returns nil exactly when the bus accepts it.
    Neither touches the subscriber sets, the flags or the close
    channel. *)
Theorem GetLocked_SetLocked_behaviour
    (bus : Bus) (dc : lock.dbusCon) (locked b : bool) :
  let obj := lock.loginSessionObject dc in
  let get := Call (Destination obj) (ObjPath obj)
               "org.freedesktop.DBus.Properties.Get" 0
               [VString "org.freedesktop.login1.Session"; VString "LockedHint"] in
  let set := Call (Destination obj) (ObjPath obj)
               "org.freedesktop.login1.Session.SetLockedHint" 0 [VBool locked] in
  (fst (lock.GetLocked bus dc) = (b, None)
   <-> bus (wire (lock.conn dc)) get = inr [VBool b])
  /\ (snd (fst (lock.GetLocked bus dc)) <> None ->
      fst (fst (lock.GetLocked bus dc)) = false)
  /\ snd (lock.GetLocked bus dc)
     = lock.setConn dc
         (mkConn (wire (lock.conn dc) ++ [(get, bus (wire (lock.conn dc)) get)]))
  /\ (fst (lock.SetLocked bus dc locked) = None
      <-> replyOk (bus (wire (lock.conn dc)) set) = true)
  /\ snd (lock.SetLocked bus dc locked)
     = lock.setConn dc
         (mkConn (wire (lock.conn dc) ++ [(set, bus (wire (lock.conn dc)) set)])).
Proof.
  cbv zeta. unfold lock.GetLocked, lock.SetLocked, lock.GetProperty, send.
  cbn zeta.
  destruct (bus (wire (lock.conn dc)) (Call _ _ "org.freedesktop.DBus.Properties.Get" _ _))
    as [err|[|v [|v' body]]];
    destruct (bus (wire (lock.conn dc)) (Call _ _ "org.freedesktop.login1.Session.SetLockedHint" _ _))
    as [err'|body'];
    try (destruct v); cbn;
    repeat split; try congruence; try discriminate; intros H; try congruence;
    try (now inversion H).
Qed.

Lemma GetLocked_SetLocked_behaviour_witness :
  fst (fst (lock.GetLocked (fun _ _ => inr [VString "yes"]) freshLock)) = false.
Proof.
  refine (proj1 (proj2 (GetLocked_SetLocked_behaviour
            (fun _ _ => inr [VString "yes"]) freshLock true true)) _).
  discriminate.
Defined.

(** ** The size joinWhat reserves *)





(** ** Package secrets *)

Lemma fill_from (paths done : list string) (k : nat) :
  k = length done ->
  fold_left
    (fun objs '(i, path) => <[i := secrets.dbusPath +:+ "/" +:+ path]> objs)
    (imap (fun i p => ((k + i)%nat, p)) paths)
    (done ++ replicate (length paths) "")%list
  = (done ++ map (fun p => "/org/freedesktop/secrets/" +:+ p) paths)%list.
Proof.
  revert done k. induction paths as [|p paths IH]; intros done k Hk.
  - reflexivity.
  - rewrite imap_cons. cbn [fold_left length replicate map].
    rewrite Nat.add_0_r, Hk, (insert_app_r_alt done _ (length done)) by lia.
    rewrite Nat.sub_diag. cbn [insert list_insert].
    rewrite (imap_ext _ (fun i p => ((S (length done) + i)%nat, p)))
      by (intros i x _; cbn; f_equal; lia).
    rewrite (cons_middle _ done), app_assoc.
    rewrite (IH (done ++ [secrets.dbusPath +:+ "/" +:+ p])%list (S (length done)))
      by (rewrite length_app; cbn; lia).
    rewrite <- app_assoc. reflexivity.
Qed.

Lemma fillObjs_map (paths : list string) :
  secrets.fillObjs paths = map (fun p => "/org/freedesktop/secrets/" +:+ p) paths.
Proof. exact (fill_from paths [] 0 eq_refl). Qed.

(** X12. [Lock] of the secrets service sends one [Lock] call to the
    service object whose single argument is the array of the given paths,
    in the same order and as many, each prefixed with
    "/org/freedesktop/secrets/" (an empty list gives an empty array); it
    returns nil when the service accepts the call and the wrapped error
    otherwise. *)
Theorem secrets_Lock_prefixes_paths
    (bus : Bus) (s : secrets.Secrets) (paths : list string) :
  let rq := Call (Destination (secrets.obj s)) (ObjPath (secrets.obj s))
              "org.freedesktop.Secret.Service.Lock" 0
              [VArray (map (fun p => VObjectPath ("/org/freedesktop/secrets/" +:+ p))
                         paths)] in
  let rp := bus (wire (secrets.conn s)) rq in
  secrets.Lock bus s paths
  = (match rp with
     | inl err => Some (wrapError "could lock collection: " err)
     | inr _ => None
     end,
     secrets.mkSecrets (mkConn (wire (secrets.conn s) ++ [(rq, rp)])%list)
       (secrets.obj s))
  /\ length (secrets.fillObjs paths) = length paths
  /\ (forall i p, paths !! i = Some p ->
      secrets.fillObjs paths !! i = Some ("/org/freedesktop/secrets/" +:+ p)).
Proof.
  cbv zeta. unfold secrets.Lock, send. cbn zeta. rewrite fillObjs_map.
  change (secrets.dbusServiceInterface +:+ ".Lock")
    with "org.freedesktop.Secret.Service.Lock".
  replace (VObjectPath <$> map (fun p => "/org/freedesktop/secrets/" +:+ p) paths)
    with (map (fun p => VObjectPath ("/org/freedesktop/secrets/" +:+ p)) paths)
    by (induction paths as [|p paths IH]; [reflexivity|]; cbn; now rewrite IH).
  split; [destruct (bus _ _); reflexivity|]. split.
  - apply length_map.
  - intros i p Hp.
    change (map (fun p => "/org/freedesktop/secrets/" +:+ p) paths)
      with ((fun p => "/org/freedesktop/secrets/" +:+ p) <$> paths).
    now rewrite list_lookup_fmap, Hp.
Qed.

Lemma secrets_Lock_prefixes_paths_witness :
  secrets.fillObjs ["collection/login"; ""] !! 1%nat
  = Some "/org/freedesktop/secrets/".
Proof.
  refine (proj2 (proj2 (secrets_Lock_prefixes_paths acceptAll
            (secrets.mkSecrets (mkConn []) (Object secrets.dbusDest secrets.dbusPath))
            ["collection/login"; ""])) 1%nat "" _).
  reflexivity.
Defined.

(** ** Closing an idle notification *)

Lemma closeTimes_closed (k : nat) (n : idle.waylandIdleNotification) :
  idle.closed n = true -> closeTimes k n = (n, []).
Proof.
  intros Hclosed. induction k as [|k IH]; [reflexivity|].
  cbn [closeTimes]. unfold idle.waylandIdleNotification_Close.
  rewrite Hclosed, IH. reflexivity.
Qed.

(** X13. A notification returned by [AddNotification] is open. However
    often its [Close] is called, every call returns nil, and exactly one
    goroutine is started, by the first call: it offers the destruction of
    the protocol object that [GetIdleNotification] returned. Later calls
    start nothing. *)
Theorem notification_Close_offers_destroy_once
    (notifier : idle.Notifier) (m m' : idle.waylandIdleController)
    (input : idle.CreateIdleNotification) (n : idle.waylandIdleNotification)
    (k : nat) :
  idle.AddNotification notifier m input = ((Some n, None), m') ->
  idle.closed n = false
  /\ (exists ms, notifier ms = inr (idle.notification n))
  /\ closeTimes (S k) n
     = (idle.mkNotification true (idle.notification n) (idle.idledHandler n)
          (idle.resumedHandler n),
        [idle.offerDestroy (idle.notification n)])
  /\ (forall n0, fst (fst (idle.waylandIdleNotification_Close n0)) = None).
Proof.
  intros Hadd.
  assert (Hn : idle.closed n = false /\ exists ms, notifier ms = inr (idle.notification n)).
  { unfold idle.AddNotification in Hadd.
    destruct (idle.isNil _ && idle.isNil _); [discriminate|].
    destruct (_ >? _); [discriminate|].
    destruct (notifier _) as [err|id] eqn:Hreply; [discriminate|].
    injection Hadd as <- _. split; [reflexivity|]. eexists. exact Hreply. }
  destruct Hn as [Hopen Hid]. repeat split; try assumption.
  - cbn [closeTimes]. unfold idle.waylandIdleNotification_Close at 1.
    rewrite Hopen, closeTimes_closed by reflexivity. reflexivity.
  - intros n0. unfold idle.waylandIdleNotification_Close.
    destruct (idle.closed n0); reflexivity.
Qed.

Lemma notification_Close_offers_destroy_once_witness :
  closeTimes 3 (idle.mkNotification false 7%positive (Some 1%positive) None)
  = (idle.mkNotification true 7%positive (Some 1%positive) None,
     [idle.offerDestroy 7%positive]).
Proof.
  refine (proj1 (proj2 (proj2 (notification_Close_offers_destroy_once
            (fun _ => inr 7%positive) (idle.mkController []) _
            (idle.mkCreate (2 * idle.Second) (Some 1%positive) None) _ 2 _)))).
  reflexivity.
Defined.

(** X14. The earlier variant of the notification destroys the protocol
    object itself. While [Destroy] fails, [Close] returns that error
    unwrapped and leaves the notification open, so the next [Close]
    tries again; once [Destroy] has succeeded the notification is closed
    and detached from its controller, and every later [Close] returns nil
    without another [Destroy]. *)
Theorem notification0_Close_retries_until_destroyed
    (w w' : idle.Compositor) (n : idle.waylandIdleNotification0) :
  idle.closed0 n = false ->
  let r := idle.waylandIdleNotification0_Close w n in
  match idle.notificationDestroy w (idle.notification0 n) with
  | Some err => r = (Some err, n, true)
  | None =>
      fst (fst r) = None /\ snd r = true
      /\ idle.closed0 (snd (fst r)) = true
      /\ idle.hasController0 (snd (fst r)) = false
      /\ idle.waylandIdleNotification0_Close w' (snd (fst r))
         = (None, snd (fst r), false)
  end.
Proof.
  destruct n as [cl hc id]. cbn. intros ->.
  unfold idle.waylandIdleNotification0_Close. cbn.
  destruct (idle.notificationDestroy w id); [reflexivity|]. cbn. repeat split.
Qed.

Lemma notification0_Close_retries_until_destroyed_witness :
  idle.waylandIdleNotification0_Close
    (idle.mkCompositor None None None None (fun _ => Some (errorString "gone")))
    (idle.mkNotification0 false true 7%positive)
  = (Some (errorString "gone"), idle.mkNotification0 false true 7%positive, true).
Proof.
  exact (notification0_Close_retries_until_destroyed
           (idle.mkCompositor None None None None (fun _ => Some (errorString "gone")))
           (idle.mkCompositor None None None None (fun _ => None))
           (idle.mkNotification0 false true 7%positive) eq_refl).
Defined.

(** ** Closing the idle controller *)

(** X15. [Close] of a controller whose close channel is open and whose
    display is set makes every teardown request for the handles it holds
    (seat, display, notifier, in this order), closes the close channel
    and then closes the connection; a failing step does not keep the
    later ones from being made, and the result is nil exactly when no
    step failed. A second [Close] repeats the requests for seat, display
    and notifier and then panics on closing the closed channel, before
    the connection is closed again. *)
Theorem controller_Close_attempts_every_step
    (w w' : idle.Compositor) (m : idle.controllerHandles) :
  idle.closeChan m = chanOpen -> idle.hasDisplay m = true ->
  let first := idle.waylandIdleController_Close w m in
  let m1 := snd (fst first) in
  snd first = (teardownSteps m ++ [idle.closeContext])%list
  /\ (exists e, fst (fst first) = Returned e
      /\ (e = None <->
          existsb (stepFails w m)
            [idle.releaseSeat; idle.destroyDisplay; idle.destroyNotifier;
             idle.closeContext] = false))
  /\ idle.closeChan m1 = chanClosed
  /\ idle.waylandIdleController_Close w' m1
     = (Panicked "close of closed channel", m1, teardownSteps m).
Proof.
  destruct m as [ch hs hd hn]. destruct w as [sr dd nd cc nf]. cbn.
  intros -> ->. unfold idle.waylandIdleController_Close, teardownSteps, stepFails.
  cbn.
  destruct hs, hn, sr, dd, nd, cc; cbn; repeat split; eexists; split;
    try reflexivity; split; intros H; try discriminate; reflexivity.
Qed.

Lemma controller_Close_attempts_every_step_witness :
  snd (idle.waylandIdleController_Close
         (idle.mkCompositor (Some (errorString "busy")) None None None (fun _ => None))
         (idle.mkHandles chanOpen true true true))
  = [idle.releaseSeat; idle.destroyDisplay; idle.destroyNotifier; idle.closeContext].
Proof.
  refine (proj1 (controller_Close_attempts_every_step
            (idle.mkCompositor (Some (errorString "busy")) None None None (fun _ => None))
            (idle.mkCompositor None None None None (fun _ => None))
            (idle.mkHandles chanOpen true true true) _ _)); reflexivity.
Defined.

(** ** After Close *)

Lemma lock_no_subscribers_no_offer (dc : lock.dbusCon) (s : option Signal) (c : chan) :
  lock.lockSignals dc = ∅ -> lock.unlockSignals dc = ∅ ->
  lock.lockedHintSignals dc = ∅ ->
  ~ offeredTo (lock.handleIncomingSignal dc s) c.
Proof.
  intros Hl Hu Hh (f & Hf & Hc). unfold lock.handleIncomingSignal in Hf.
  rewrite Hl, Hu, Hh in Hf.
  destruct s as [s|]; [|discriminate].
  destruct (negb _); [discriminate|].
  destruct (String.eqb _ _); [injection Hf as <-; cbn in Hc; set_solver|].
  destruct (String.eqb _ _); [injection Hf as <-; cbn in Hc; set_solver|].
  destruct (String.eqb _ _); [|discriminate].
  destruct (index (Body s) 1) as [b1|]; [|discriminate].
  cbn [mbind exec_bind Go.bind] in Hf.
  destruct b1; try discriminate.
  destruct (lookup _ _) as [[]|]; try discriminate.
  injection Hf as <-. cbn in Hc. set_solver.
Qed.

Lemma inhibit_no_subscribers_no_offer (i : inhibit.Inhibitor) (s : option Signal)
    (c : chan) :
  inhibit.prepareForSleepSubs i = ∅ -> inhibit.prepareForShutdownSubs i = ∅ ->
  ~ offeredTo (inhibit.handleIncomingSignal i s) c.
Proof.
  intros Hsl Hsh (f & Hf & Hc). unfold inhibit.handleIncomingSignal in Hf.
  rewrite Hsl, Hsh in Hf.
  destruct s as [s|]; [|discriminate].
  destruct (negb _); [discriminate|].
  destruct (String.eqb _ _).
  - destruct (index (Body s) 0) as [b0|]; [|discriminate].
    cbn [mbind exec_bind Go.bind] in Hf. destruct b0; try discriminate.
    injection Hf as <-. cbn in Hc. set_solver.
  - destruct (String.eqb _ _); [|discriminate].
    destruct (index (Body s) 0) as [b0|]; [|discriminate].
    cbn [mbind exec_bind Go.bind] in Hf. destruct b0; try discriminate.
    injection Hf as <-. cbn in Hc. set_solver.
Qed.

Lemma inhibit_Close_result (bus : Bus) (i : inhibit.Inhibitor) :
  let i' := snd (inhibit.Close bus i) in
  inhibit.prepareForSleepSubs i' = ∅
  /\ inhibit.prepareForShutdownSubs i' = ∅
  /\ map fst (wire (inhibit.conn i'))
     = (map fst (wire (inhibit.conn i))
        ++ [RemoveMatchSignal (inhibit.shutdownRule i);
            RemoveMatchSignal (inhibit.sleepRule i)])%list.
Proof.
  destruct i as [[w] obj ch sl sh].
  unfold inhibit.Close, inhibit.removePrepareForShutdownSignal,
    inhibit.removePrepareForSleepSignal, sendMatch, send. cbn.
  destruct (bus _ _); cbn; destruct (bus _ _); cbn; destruct ch; cbn;
    rewrite ?map_app, <- ?app_assoc; repeat split.
Qed.

(** X16. After [Close], whether it returned or panicked, no channel is
    offered anything any more, whatever signal arrives: the subscriber
    sets of both facilities are empty. The inhibitor has by then sent a
    remove-match for [PrepareForShutdown] and one for [PrepareForSleep],
    in this order, whether or not anything was subscribed and whatever
    the bus answered. *)
Theorem nothing_is_delivered_after_Close
    (bus : Bus) (dc : lock.dbusCon) (i : inhibit.Inhibitor)
    (s : option Signal) (c : chan) :
  ~ offeredTo (lock.handleIncomingSignal (snd (lock.Close bus dc)) s) c
  /\ ~ offeredTo (inhibit.handleIncomingSignal (snd (inhibit.Close bus i)) s) c
  /\ map fst (wire (inhibit.conn (snd (inhibit.Close bus i))))
     = (map fst (wire (inhibit.conn i))
        ++ [RemoveMatchSignal (inhibit.shutdownRule i);
            RemoveMatchSignal (inhibit.sleepRule i)])%list.
Proof.
  destruct (lock_Close_result bus dc) as (Hl & Hu & Hh & _).
  destruct (inhibit_Close_result bus i) as (Hsl & Hsh & Hwire).
  split; [now apply lock_no_subscribers_no_offer|].
  split; [now apply inhibit_no_subscribers_no_offer | exact Hwire].
Qed.

(** ** Value or error *)

(** X17. The constructors and the calls that create something return
    exactly one of a value and an error, never both and never neither:
    [inhibit.New], [secrets.New], [Inhibit] and [NewDbusSessionLock]
    whenever they return, and [AddNotification]. *)
Theorem value_or_error
    (bus : Bus) (connect : error + Conn) (sessionId who why : string)
    (i : inhibit.Inhibitor) (mode : inhibit.Mode) (what : list inhibit.What)
    (notifier : idle.Notifier) (m : idle.waylandIdleController)
    (input : idle.CreateIdleNotification) :
  exactlyOne (inhibit.New connect)
  /\ exactlyOne (secrets.New connect)
  /\ exactlyOne (fst (idle.AddNotification notifier m input))
  /\ match fst (inhibit.Inhibit bus i who why mode what) with
     | Returned r => exactlyOne r
     | Panicked _ => True
     end
  /\ match lock.NewDbusSessionLock bus connect sessionId with
     | Returned r => exactlyOne r
     | Panicked _ => True
     end.
Proof.
  repeat split.
  - destruct connect; exact I.
  - destruct connect; exact I.
  - unfold idle.AddNotification.
    destruct (idle.isNil _ && idle.isNil _); [exact I|].
    destruct (_ >? _); [exact I|]. destruct (notifier _); exact I.
  - unfold inhibit.Inhibit.
    destruct (inhibit.joinWhat what) as [w|msg] eqn:Hjoin.
    + unfold send. cbn zeta. destruct (inhibit.storeUnixFD _); exact I.
    + exact I.
  - unfold lock.NewDbusSessionLock.
    destruct (String.eqb sessionId ""); [exact I|].
    destruct connect as [err|conn]; [exact I|].
    unfold send. cbn zeta. destruct (lock.storeSessions _); [exact I|].
    destruct (lock.findSession _ _ _ _) as [[err|[obj|]]|msg]; exact I.
Qed.

(** ** Sequences that mix the signal kinds *)

Lemma rules_differ (obj i1 i2 s1 s2 m1 m2 : string) :
  m1 <> m2 -> mkRule obj i1 s1 m1 <> mkRule obj i2 s2 m2.
Proof. intros Hm H. injection H as _ _ Hm'. contradiction. Qed.

Lemma isAdd_other (r r' : MatchRule) (rp : Reply) :
  r' <> r -> isAdd r (AddMatchSignal r', rp) = false.
Proof. intros H. unfold isAdd. cbn. now apply bool_decide_eq_false_2. Qed.

Lemma isRemove_other (r r' : MatchRule) (rp : Reply) :
  r' <> r -> isRemove r (RemoveMatchSignal r', rp) = false.
Proof. intros H. unfold isRemove. cbn. now apply bool_decide_eq_false_2. Qed.

Lemma registrations_other_add (r r' : MatchRule) (w : list Exchange) (rp : Reply) :
  r' <> r -> registrations r (w ++ [(AddMatchSignal r', rp)]) = registrations r w.
Proof.
  intros H. rewrite registrations_snoc. unfold matchStep.
  rewrite isAdd_other, isRemove_add by exact H. now destruct (replyOk _).
Qed.

Lemma registrations_other_remove (r r' : MatchRule) (w : list Exchange) (rp : Reply) :
  r' <> r -> registrations r (w ++ [(RemoveMatchSignal r', rp)]) = registrations r w.
Proof.
  intros H. rewrite registrations_snoc. unfold matchStep.
  rewrite isAdd_remove, isRemove_other by exact H. now destruct (replyOk _).
Qed.

Ltac frame_finish Hstep :=
  cbv beta iota zeta in Hstep;
  injection Hstep as _ <-; lock_fields; repeat split; intros r Hr;
  rewrite ?registrations_other_add, ?registrations_other_remove by congruence;
  reflexivity.

(** An operation on one kind of the lock facility: what it leaves
    alone. *)
Ltac frame_flagged bus w flag :=
  intros Hstep; lock_unfold; lock_fields;
  match goal with op : subOp |- _ => destruct op as [c|c] end; lock_fields;
  [ destruct flag; lock_fields; try (destruct (bus w _)); frame_finish Hstep
  | destruct (bool_decide _); lock_fields;
    try (destruct flag; lock_fields); try (destruct (bus w _));
    frame_finish Hstep ].

Ltac frame_unflagged bus w :=
  intros Hstep; inhibit_unfold; lock_fields;
  match goal with op : subOp |- _ => destruct op as [c|c] end; lock_fields;
  (destruct (bool_decide _); lock_fields; try (destruct (bus w _));
   frame_finish Hstep).

Lemma lockStep_frame (bus : Bus) (dc dc' : lock.dbusCon) (op : subOp)
    (res : option error) :
  lockStep bus dc op = (res, dc') ->
  lock.loginSessionObject dc' = lock.loginSessionObject dc
  /\ lock.unlockSignals dc' = lock.unlockSignals dc
  /\ lock.unlockSignalActive dc' = lock.unlockSignalActive dc
  /\ lock.lockedHintSignals dc' = lock.lockedHintSignals dc
  /\ lock.propertiesChangedActive dc' = lock.propertiesChangedActive dc
  /\ forall r, lock.lockRule dc <> r ->
       registrations r (wire (lock.conn dc')) = registrations r (wire (lock.conn dc)).
Proof.
  destruct dc as [[w] obj ch ls hs us la pa ua]. frame_flagged bus w la.
Qed.

Lemma unlockStep_frame (bus : Bus) (dc dc' : lock.dbusCon) (op : subOp)
    (res : option error) :
  unlockStep bus dc op = (res, dc') ->
  lock.loginSessionObject dc' = lock.loginSessionObject dc
  /\ lock.lockSignals dc' = lock.lockSignals dc
  /\ lock.lockSignalActive dc' = lock.lockSignalActive dc
  /\ lock.lockedHintSignals dc' = lock.lockedHintSignals dc
  /\ lock.propertiesChangedActive dc' = lock.propertiesChangedActive dc
  /\ forall r, lock.unlockRule dc <> r ->
       registrations r (wire (lock.conn dc')) = registrations r (wire (lock.conn dc)).
Proof.
  destruct dc as [[w] obj ch ls hs us la pa ua]. frame_flagged bus w ua.
Qed.

Lemma lockedStep_frame (bus : Bus) (dc dc' : lock.dbusCon) (op : subOp)
    (res : option error) :
  lockedStep bus dc op = (res, dc') ->
  lock.loginSessionObject dc' = lock.loginSessionObject dc
  /\ lock.lockSignals dc' = lock.lockSignals dc
  /\ lock.lockSignalActive dc' = lock.lockSignalActive dc
  /\ lock.unlockSignals dc' = lock.unlockSignals dc
  /\ lock.unlockSignalActive dc' = lock.unlockSignalActive dc
  /\ forall r, lock.propertiesChangedRule dc <> r ->
       registrations r (wire (lock.conn dc')) = registrations r (wire (lock.conn dc)).
Proof.
  destruct dc as [[w] obj ch ls hs us la pa ua]. frame_flagged bus w pa.
Qed.

Lemma sleepStep_frame (bus : Bus) (i i' : inhibit.Inhibitor) (op : subOp)
    (res : option error) :
  sleepStep bus i op = (res, i') ->
  inhibit.login1 i' = inhibit.login1 i
  /\ inhibit.prepareForShutdownSubs i' = inhibit.prepareForShutdownSubs i
  /\ forall r, inhibit.sleepRule i <> r ->
       registrations r (wire (inhibit.conn i'))
       = registrations r (wire (inhibit.conn i)).
Proof. destruct i as [[w] obj ch sl sh]. frame_unflagged bus w. Qed.

Lemma shutdownStep_frame (bus : Bus) (i i' : inhibit.Inhibitor) (op : subOp)
    (res : option error) :
  shutdownStep bus i op = (res, i') ->
  inhibit.login1 i' = inhibit.login1 i
  /\ inhibit.prepareForSleepSubs i' = inhibit.prepareForSleepSubs i
  /\ forall r, inhibit.shutdownRule i <> r ->
       registrations r (wire (inhibit.conn i'))
       = registrations r (wire (inhibit.conn i)).
Proof. destruct i as [[w] obj ch sl sh]. frame_unflagged bus w. Qed.

Ltac other_rule Hreg r H :=
  pose proof (Hreg r ltac:(unfold lock.lockRule, lock.unlockRule,
                             lock.propertiesChangedRule, inhibit.sleepRule,
                             inhibit.shutdownRule;
                           apply rules_differ; discriminate)) as H.

Lemma facilityStep_consistent (bus : Bus) (dc dc' : lock.dbusCon)
    (o : lockKind * subOp) :
  facilityConsistent dc -> facilityStep bus dc o = (None, dc') ->
  facilityConsistent dc'.
Proof.
  intros (Hl & Hu & Hh) Hstep.
  destruct o as [[] op]; unfold facilityStep in Hstep; cbn [fst snd] in Hstep.
  - pose proof (lock_step_accounts bus _ dc op dc' Hl Hstep) as (Hk & _ & _).
    destruct (lockStep_frame bus dc dc' op None Hstep)
      as (Hobj & Hus & Hua & Hhs & Hpa & Hreg).
    other_rule Hreg (lock.unlockRule dc) H1.
    other_rule Hreg (lock.propertiesChangedRule dc) H2.
    destruct Hu as [_ Hu]. destruct Hh as [_ Hh].
    unfold facilityConsistent, lockConsistent, unlockConsistent, lockedConsistent,
      flagged, lock.lockRule, lock.unlockRule, lock.propertiesChangedRule in *.
    rewrite Hobj, Hus, Hua, Hhs, Hpa, H1, H2 in *.
    repeat split; try apply Hk; try apply Hu; try apply Hh.
  - pose proof (unlock_step_accounts bus _ dc op dc' Hu Hstep) as (Hk & _ & _).
    destruct (unlockStep_frame bus dc dc' op None Hstep)
      as (Hobj & Hls & Hla & Hhs & Hpa & Hreg).
    other_rule Hreg (lock.lockRule dc) H1.
    other_rule Hreg (lock.propertiesChangedRule dc) H2.
    destruct Hl as [_ Hl]. destruct Hh as [_ Hh].
    unfold facilityConsistent, lockConsistent, unlockConsistent, lockedConsistent,
      flagged, lock.lockRule, lock.unlockRule, lock.propertiesChangedRule in *.
    rewrite Hobj, Hls, Hla, Hhs, Hpa, H1, H2 in *.
    repeat split; try apply Hk; try apply Hl; try apply Hh.
  - pose proof (locked_step_accounts bus _ dc op dc' Hh Hstep) as (Hk & _ & _).
    destruct (lockedStep_frame bus dc dc' op None Hstep)
      as (Hobj & Hls & Hla & Hus & Hua & Hreg).
    other_rule Hreg (lock.lockRule dc) H1.
    other_rule Hreg (lock.unlockRule dc) H2.
    destruct Hl as [_ Hl]. destruct Hu as [_ Hu].
    unfold facilityConsistent, lockConsistent, unlockConsistent, lockedConsistent,
      flagged, lock.lockRule, lock.unlockRule, lock.propertiesChangedRule in *.
    rewrite Hobj, Hls, Hla, Hus, Hua, H1, H2 in *.
    repeat split; try apply Hk; try apply Hl; try apply Hu.
Qed.

Lemma inhibitorStep_consistent (bus : Bus) (i i' : inhibit.Inhibitor)
    (o : inhibitKind * subOp) :
  inhibitorConsistent i -> inhibitorStep bus i o = (None, i') ->
  inhibitorConsistent i'.
Proof.
  intros (Hsl & Hsh) Hstep.
  destruct o as [[] op]; unfold inhibitorStep in Hstep; cbn [fst snd] in Hstep.
  - pose proof (sleep_step_accounts bus _ i op i' Hsl Hstep) as (Hk & _ & _).
    destruct (sleepStep_frame bus i i' op None Hstep) as (Hobj & Hsubs & Hreg).
    other_rule Hreg (inhibit.shutdownRule i) H1.
    destruct Hsh as [_ Hsh].
    unfold inhibitorConsistent, sleepConsistent, shutdownConsistent,
      inhibit.sleepRule, inhibit.shutdownRule in *.
    rewrite Hobj, Hsubs, H1 in *.
    repeat split; try apply Hk; try apply Hsh.
  - pose proof (shutdown_step_accounts bus _ i op i' Hsh Hstep) as (Hk & _ & _).
    destruct (shutdownStep_frame bus i i' op None Hstep) as (Hobj & Hsubs & Hreg).
    other_rule Hreg (inhibit.sleepRule i) H1.
    destruct Hsl as [_ Hsl].
    unfold inhibitorConsistent, sleepConsistent, shutdownConsistent,
      inhibit.sleepRule, inhibit.shutdownRule in *.
    rewrite Hobj, Hsubs, H1 in *.
    repeat split; try apply Hk; try apply Hsl.
Qed.

Lemma runAll_invariant {S Op : Type} (step : S -> Op -> option error * S)
    (inv : S -> Prop) (ops : list Op) (st final : S) :
  (forall st op st', inv st -> step st op = (None, st') -> inv st') ->
  inv st -> runAll step st ops = Some final -> inv final.
Proof.
  intros Hstep. revert st. induction ops as [|op ops IH]; intros st Hst Hrun.
  - injection Hrun as <-. exact Hst.
  - cbn [runAll] in Hrun. destruct (step st op) as [[err|] st'] eqn:Hop;
      [discriminate|]. exact (IH st' (Hstep st op st' Hst Hop) Hrun).
Qed.

(** X18. On a lock facility fresh from [NewDbusSessionLock] on its own
    connection, after any sequence of successful subscribe and
    unsubscribe calls that mixes the three signal kinds in any order,
    each kind is consistent on its own: its flag is set exactly when it
    has subscribers, and exactly then the bus holds a registration of its
    match rule. Operations on one kind do not disturb the other two. *)
Theorem lock_facility_kinds_are_independent
    (bus : Bus) (sessionId : string) (dc final : lock.dbusCon)
    (ops : list (lockKind * subOp)) :
  lock.NewDbusSessionLock bus (inr (mkConn [])) sessionId = Returned (Some dc, None) ->
  runAll (facilityStep bus) dc ops = Some final ->
  let w := wire (lock.conn final) in
  (lock.lockSignalActive final = true <-> lock.lockSignals final <> ∅)
  /\ (registered (lock.lockRule final) w = true <-> lock.lockSignals final <> ∅)
  /\ (lock.unlockSignalActive final = true <-> lock.unlockSignals final <> ∅)
  /\ (registered (lock.unlockRule final) w = true <-> lock.unlockSignals final <> ∅)
  /\ (lock.propertiesChangedActive final = true
      <-> lock.lockedHintSignals final <> ∅)
  /\ (registered (lock.propertiesChangedRule final) w = true
      <-> lock.lockedHintSignals final <> ∅).
Proof.
  intros Hnew Hrun w.
  pose proof (NewDbusSessionLock_consistent bus sessionId dc Hnew) as Hdc.
  pose proof (runAll_invariant (facilityStep bus) facilityConsistent ops dc final
                (fun st op st' => facilityStep_consistent bus st st' op) Hdc Hrun)
    as ([_ Hl] & [_ Hu] & [_ Hh]).
  apply flagged_iff in Hl as [Hl1 Hl2]. apply flagged_iff in Hu as [Hu1 Hu2].
  apply flagged_iff in Hh as [Hh1 Hh2].
  subst w. repeat split; first [apply Hl1 | apply Hl2 | apply Hu1 | apply Hu2
                               | apply Hh1 | apply Hh2].
Qed.

Lemma lock_facility_kinds_are_independent_witness :
  exists final,
    runAll (facilityStep (login1With daemon)) freshLock
      [(onLock, Subscribe 1%positive); (onLocked, Subscribe 2%positive);
       (onLock, Unsubscribe 1%positive)] = Some final
    /\ (lock.lockSignalActive final = true <-> lock.lockSignals final <> ∅).
Proof.
  eexists. split; [reflexivity|].
  refine (proj1 (lock_facility_kinds_are_independent (login1With daemon) "1"
                   freshLock _
                   [(onLock, Subscribe 1%positive); (onLocked, Subscribe 2%positive);
                    (onLock, Unsubscribe 1%positive)] _ _)); reflexivity.
Defined.

(** X19. On an inhibitor fresh from [New] on a connection without
    traffic, after any sequence of successful subscribe and unsubscribe
    calls that mixes the two signal kinds in any order, the bus holds a
    registration of the [PrepareForSleep] rule exactly when there are
    sleep subscribers, and of the [PrepareForShutdown] rule exactly when
    there are shutdown subscribers. *)
Theorem inhibitor_kinds_are_independent
    (bus : Bus) (i final : inhibit.Inhibitor) (ops : list (inhibitKind * subOp)) :
  inhibit.New (inr (mkConn [])) = (Some i, None) ->
  runAll (inhibitorStep bus) i ops = Some final ->
  let w := wire (inhibit.conn final) in
  (registered (inhibit.sleepRule final) w = true
   <-> inhibit.prepareForSleepSubs final <> ∅)
  /\ (registered (inhibit.shutdownRule final) w = true
      <-> inhibit.prepareForShutdownSubs final <> ∅).
Proof.
  intros Hnew Hrun w.
  pose proof (New_consistent i Hnew) as Hi.
  pose proof (runAll_invariant (inhibitorStep bus) inhibitorConsistent ops i final
                (fun st op st' => inhibitorStep_consistent bus st st' op) Hi Hrun)
    as ([_ Hsl] & [_ Hsh]).
  subst w. split; now apply registered_iff.
Qed.

Lemma inhibitor_kinds_are_independent_witness :
  exists final,
    runAll (inhibitorStep daemon) freshInhibitor
      [(onSleep, Subscribe 1%positive); (onShutdown, Subscribe 1%positive);
       (onSleep, Unsubscribe 1%positive)] = Some final
    /\ (registered (inhibit.shutdownRule final) (wire (inhibit.conn final)) = true
        <-> inhibit.prepareForShutdownSubs final <> ∅).
Proof.
  eexists. split; [reflexivity|].
  refine (proj2 (inhibitor_kinds_are_independent daemon freshInhibitor _
                   [(onSleep, Subscribe 1%positive); (onShutdown, Subscribe 1%positive);
                    (onSleep, Unsubscribe 1%positive)] _ _)); reflexivity.
Defined.

(** ** The requests AddNotification makes *)

(** X20. [AddNotification] without an [Idle] and without a [Resume]
    channel returns its usage error before looking at the duration and
    asks the compositor for nothing. In every case it makes at most one
    [GetIdleNotification] request, none when it rejects the input, and
    the timeout it asks for is the millisecond count of the duration
    raised to zero when negative: always a value a [uint32] holds, never
    a truncated one. *)
Theorem AddNotification_requests
    (notifier : idle.Notifier) (m : idle.waylandIdleController)
    (input : idle.CreateIdleNotification) :
  let ms := idle.Milliseconds (idle.Duration input) in
  let rejected :=
    (idle.isNil (idle.Idle input) && idle.isNil (idle.Resume input))
    || (ms >? MaxUint32) in
  let requests := if rejected then [] else [Z.max 0 ms] in
  idle.getIdleNotificationCalls (snd (idle.AddNotification notifier m input))
  = (idle.getIdleNotificationCalls m ++ requests)%list
  /\ Forall (fun t => 0 <= t <= MaxUint32) requests
  /\ (rejected = true -> exists err,
        idle.AddNotification notifier m input = ((None, Some err), m))
  /\ (idle.isNil (idle.Idle input) && idle.isNil (idle.Resume input) = true ->
      idle.AddNotification notifier m input
      = ((None, Some (errorString "either Idle or Resume is required")), m)).
Proof.
  cbv zeta. unfold idle.AddNotification.
  destruct (idle.isNil (idle.Idle input) && idle.isNil (idle.Resume input)).
  - cbn. rewrite app_nil_r. repeat split; eauto.
  - cbn [orb].
    destruct (Z.gtb_spec (idle.Milliseconds (idle.Duration input)) MaxUint32)
      as [Hbig|Hfit].
    + cbn. rewrite app_nil_r. repeat split; eauto. discriminate.
    + assert (Hval : to_uint32
                       (if idle.Milliseconds (idle.Duration input) <? 0 then 0
                        else idle.Milliseconds (idle.Duration input))
                     = Z.max 0 (idle.Milliseconds (idle.Duration input))).
      { unfold to_uint32, MaxUint32 in *.
        destruct (Z.ltb_spec (idle.Milliseconds (idle.Duration input)) 0).
        - rewrite Z.max_l by lia. reflexivity.
        - rewrite Z.max_r by lia. apply Z.mod_small. lia. }
      rewrite Hval. split; [destruct (notifier _); reflexivity|].
      split; [|split; discriminate].
      constructor; [unfold MaxUint32 in *; lia | constructor].
Qed.

Lemma AddNotification_requests_witness :
  idle.AddNotification (fun _ => inr 7%positive) (idle.mkController [12])
    (idle.mkCreate (2 ^ 62) None None)
  = ((None, Some (errorString "either Idle or Resume is required")),
     idle.mkController [12]).
Proof.
  refine (proj2 (proj2 (proj2 (AddNotification_requests (fun _ => inr 7%positive)
            (idle.mkController [12]) (idle.mkCreate (2 ^ 62) None None)))) _).
  reflexivity.
Defined.
